(** * AI crypto trading copilot: the graph engine and its deterministic tools

    A shallow embedding of the worker/evaluator subgraphs
    ([ai_engine/agents/market], [ai_engine/agents/risk]), of the parent
    hierarchical graph ([ai_engine/graph/hierarchical_graph.py]) and of the
    deterministic tools [check_risk_constraints] ([ai_engine/tools/risk.py])
    and [calculate_rsi] ([ai_engine/tools/market.py]).

    Conventions of the embedding:
    - Python [int] is [Z]; Python [float] is an exact rational [Q]: rounding
      and overflow to [inf] are not modelled, so a test of the code is stated
      as that test on the code's own operands, and what is proved about a
      float result rests on the control flow, on zero tests, on raised
      exceptions and on arrays being empty; a NumPy result that can be [nan]
      is a [npfloat], with [nan] where the code takes the mean of an empty
      array; an [int] that enters float arithmetic is converted, and the
      conversion raises when the integer is too large;
    - [Dict[str, Any]] is a [gmap string pyval]; [Optional[T]] is [option T];
    - a raised exception is [Raises e], where [e] is the text of [str(e)];
    - every call of an LCEL chain ([prompt | llm | parser]) and every read of
      the console consumes one tick of an oracle, so that a model reply may
      depend on everything that happened before it. *)

From Stdlib Require Import QArith ZArith Lia Lqa Ascii.
From stdpp Require Import base option gmap strings list fin_maps.

Set Warnings "-register-all".

(** ** Python values, exceptions and the outside world *)

Inductive pyval :=
  | VNone
  | VBool (b : bool)
  | VInt (z : Z)
  | VFloat (q : Q)
  | VStr (s : string)
  | VList (l : list pyval)
  | VDict (d : gmap string pyval).

(** [bool(d)] for an [Optional[Dict]]: [None] and the empty dict are falsy. *)
Definition truthy (o : option (gmap string pyval)) : bool :=
  match o with
  | None => false
  | Some d => negb (bool_decide (d = ∅))
  end.

(** [a or b] on optional dicts. *)
Definition py_or (a : option (gmap string pyval)) (b : gmap string pyval)
  : gmap string pyval :=
  match a with
  | Some d => if truthy a then d else b
  | None => b
  end.

Definition exn := string.

Inductive outcome (A : Type) :=
  | Returns (a : A)
  | Raises (e : exn).
Arguments Returns {A} a.
Arguments Raises {A} e.

(** The position reached in the two external sources of answers: the
    language-model chains and the console. *)
Record World := { llm_calls : nat; stdin_reads : nat }.

Definition tick_llm (n : nat) (w : World) : World :=
  {| llm_calls := llm_calls w + n; stdin_reads := stdin_reads w |}.

Definition tick_stdin (w : World) : World :=
  {| llm_calls := llm_calls w; stdin_reads := S (stdin_reads w) |}.

(** [', '.join(xs)] *)
Definition join_comma (xs : list string) : string := String.concat ", " xs.

(** ** The graph model, its compiler and its executor

    Modelled from the spec: the graph construction interface and the
    executor (sections 4.1, 4.2 and 6). The repository delegates them to the
    LangGraph library, whose [StateGraph] the builders of the repository
    call; the node functions, the deciders and the edge tables below are
    those of the repository. *)

Module LangGraph.

Definition END : string := "__end__".

Definition step_limit_exceeded : exn := "step-limit exceeded".

Section Graph.
Context {St : Type}.

(** A node receives the state and returns a state object; a decider
    returns the key of a conditional edge, or raises. *)
Definition NodeFn := St → World → St * World.
Definition DeciderFn := St → World → outcome string * World.

Record StateGraph := {
  nodes : gmap string NodeFn;
  entry_point : string;
  edges : gmap string string;
  conditional_edges : gmap string (DeciderFn * gmap string string)
}.

Definition empty_graph : StateGraph :=
  {| nodes := ∅; entry_point := END; edges := ∅; conditional_edges := ∅ |}.

Definition add_node (name : string) (f : NodeFn) (g : StateGraph) : StateGraph :=
  {| nodes := <[name := f]> (nodes g);
     entry_point := entry_point g;
     edges := edges g;
     conditional_edges := conditional_edges g |}.

Definition set_entry_point (name : string) (g : StateGraph) : StateGraph :=
  {| nodes := nodes g;
     entry_point := name;
     edges := edges g;
     conditional_edges := conditional_edges g |}.

Definition add_edge (src dst : string) (g : StateGraph) : StateGraph :=
  {| nodes := nodes g;
     entry_point := entry_point g;
     edges := <[src := dst]> (edges g);
     conditional_edges := conditional_edges g |}.

Definition add_conditional_edges (src : string) (decider : DeciderFn)
    (table : gmap string string) (g : StateGraph) : StateGraph :=
  {| nodes := nodes g;
     entry_point := entry_point g;
     edges := edges g;
     conditional_edges := <[src := (decider, table)]> (conditional_edges g) |}.

Definition pure_node (f : St → St) : NodeFn := λ s w, (f s, w).
Definition pure_decider (f : St → string) : DeciderFn := λ s w, (Returns (f s), w).

Definition declared (g : StateGraph) (t : string) : bool :=
  bool_decide (t = END) || bool_decide (is_Some (nodes g !! t)).

(** Modelled from the spec: [compile] (the executor is LangGraph's
    [StateGraph], which is not part of the repository). Section 4.1: the
    entry exists and every target is a declared node or the terminal
    marker. *)
Definition compile_ok (g : StateGraph) : bool :=
  bool_decide (is_Some (nodes g !! entry_point g))
  && forallb (λ e, declared g e.2) (map_to_list (edges g))
  && forallb (λ c, forallb (λ e, declared g e.2) (map_to_list (c.2.2)))
             (map_to_list (conditional_edges g)).

(** Modelled from the spec: the successor of [cur] (section 4.2), a static
    edge, or the decider called on the updated state and its answer looked up
    in the table; an exception of the decider leaves the executor. *)
Definition resolve_next (g : StateGraph) (cur : string) (s : St) (w : World)
  : outcome string * World :=
  match edges g !! cur with
  | Some t => (Returns t, w)
  | None =>
    match conditional_edges g !! cur with
    | Some (decider, table) =>
      match decider s w with
      | (Returns v, w') =>
        (match table !! v with
         | Some t => Returns t
         | None => Raises ("undeclared branch: " +:+ v)
         end, w')
      | (Raises e, w') => (Raises e, w')
      end
    | None => (Returns END, w)
    end
  end.

(** Modelled from the spec: [invoke] (section 4.2). The loop runs the
    current node, replaces the state by the merge of the node's result,
    resolves the next node on the updated state and stops at the terminal
    marker. Every node of this repository returns a complete state object
    ([MarketSubgraphState(...)], [RiskSubgraphState(...)], or the mutated
    [DecisionContext]), so the right-biased merge overwrites every field:
    the updated state is the returned object, in which a field that the
    node did not pass to the constructor holds the default of the schema.
    [fuel] is the step budget (LangGraph's recursion limit); a run that
    exhausts it raises. The third component lists, in order, each node
    that was invoked together with the state it was invoked on. *)
Fixpoint run (g : StateGraph) (fuel : nat) (cur : string) (s : St) (w : World)
  : outcome St * World * list (string * St) :=
  match fuel with
  | O => (Raises step_limit_exceeded, w, [])
  | S fuel' =>
    match nodes g !! cur with
    | None => (Raises ("unknown node: " +:+ cur), w, [])
    | Some f =>
      let '(s', w') := f s w in
      match resolve_next g cur s' w' with
      | (Raises e, w'') => (Raises e, w'', [(cur, s)])
      | (Returns t, w'') =>
        if bool_decide (t = END) then (Returns s', w'', [(cur, s)])
        else
          let '(r, wf, tr) := run g fuel' t s' w'' in
          (r, wf, (cur, s) :: tr)
      end
    end
  end.

Definition invoke (g : StateGraph) (recursion_limit : nat) (s : St) (w : World)
  : outcome St * World * list (string * St) :=
  run g recursion_limit (entry_point g) s w.

End Graph.
Arguments StateGraph St : clear implicits.
Arguments NodeFn St : clear implicits.
Arguments DeciderFn St : clear implicits.

Definition default_recursion_limit : nat := 25.

End LangGraph.

(** ** The market subgraph: [ai_engine/agents/market] *)

Module Market.
Import LangGraph.

(** [schema.py] *)
Record MarketWorkerOutput := {
  rsi : Q;
  rsi_signal : string;
  ema_short : Q;
  ema_long : Q;
  ema_signal : string;
  volume_ratio : Q;
  volume_signal : string;
  trend_direction : string;
  trend_strength : Q
}.

Record MarketEvaluation := {
  is_valid : bool;
  confidence : Q;
  quality_score : Q;
  issues : list string;
  summary : string;
  recommendation : string
}.

Record MarketSubgraphState := {
  symbol : string;
  prices : list Q;
  volumes : list Q;
  worker_output : option MarketWorkerOutput;
  evaluation : option MarketEvaluation;
  retry_count : Z;
  max_retries : Z;
  evaluator_feedback : option string;
  completed : bool;
  error : option string
}.

(** Defaults of the schema for the fields a constructor call leaves out. *)
Definition default_retry_count : Z := 0.
Definition default_max_retries : Z := 2.

(** [MarketSubgraphState(symbol=..., prices=..., volumes=...)], as the bridge
    node of the parent graph builds it. *)
Definition initial_state (sym : string) (ps vs : list Q) : MarketSubgraphState :=
  {| symbol := sym; prices := ps; volumes := vs;
     worker_output := None; evaluation := None;
     retry_count := default_retry_count; max_retries := default_max_retries;
     evaluator_feedback := None; completed := false; error := None |}.

Section Nodes.
(** The numeric part of the worker's [try] block, from
    [get_market_indicators] to the [MarketWorkerOutput(...)] call; it
    raises when that code raises. *)
Variable market_facts : string → list Q → list Q → outcome MarketWorkerOutput.
(** The reply of the evaluator chain at each tick of the model oracle: a
    parsed [MarketEvaluation], or the exception of [chain.invoke]. *)
Variable market_chain : nat → MarketWorkerOutput → outcome MarketEvaluation.
(** [f"{x:.2f}"] *)
Variable fmt_2f : Q → string.
(** The text of the [UnboundLocalError] for the local [evaluation]. *)
Variable unbound_evaluation : exn.

(** [worker.py], [market_worker]. Neither [return] passes [retry_count],
    [max_retries] or [evaluator_feedback]: the returned object holds their
    defaults. *)
Definition market_worker (state : MarketSubgraphState) : MarketSubgraphState :=
  match market_facts (symbol state) (prices state) (volumes state) with
  | Returns out =>
    {| symbol := symbol state; prices := prices state; volumes := volumes state;
       worker_output := Some out;
       evaluation := evaluation state;
       retry_count := default_retry_count;
       max_retries := default_max_retries;
       evaluator_feedback := None;
       completed := false;
       error := None |}
  | Raises e =>
    {| symbol := symbol state; prices := prices state; volumes := volumes state;
       worker_output := None;
       evaluation := None;
       retry_count := default_retry_count;
       max_retries := default_max_retries;
       evaluator_feedback := None;
       completed := true;
       error := Some ("Market worker failed: " +:+ e) |}
  end.

(** The attempt loop of the evaluator: [for attempt in range(max_retries)]
    with [max_retries = 3]; the first reply that parses ends the loop.
    The result is the binding of the local [evaluation], if any, and the
    number of chain calls made. *)
Definition evaluator_attempts : nat := 3.

Fixpoint attempt_loop (n : nat) (clock : nat) (out : MarketWorkerOutput)
  : option MarketEvaluation * nat :=
  match n with
  | O => (None, 0)
  | S n' =>
    match market_chain clock out with
    | Returns ev => (Some ev, 1)
    | Raises _ =>
      let '(r, k) := attempt_loop n' (S clock) out in (r, S k)
    end
  end.

(** The body of the outer [try] of [market_evaluator]. *)
Definition market_evaluator_try (state : MarketSubgraphState) (w : World)
  : outcome MarketSubgraphState * World :=
  match worker_output state with
  | None => (Raises "No worker output to evaluate", w)
  | Some out =>
    let '(bound, calls) := attempt_loop evaluator_attempts (llm_calls w) out in
    let w' := tick_llm calls w in
    match bound with
    | None => (Raises unbound_evaluation, w')
    | Some ev =>
      let evaluator_feedback' :=
        if is_valid ev then None
        else Some ("Validation failed (confidence=" +:+ fmt_2f (confidence ev)
                   +:+ ", quality=" +:+ fmt_2f (quality_score ev)
                   +:+ "). Issues: " +:+ join_comma (issues ev)) in
      let new_retry_count :=
        if is_valid ev then retry_count state else (retry_count state + 1)%Z in
      (Returns
         {| symbol := symbol state; prices := prices state; volumes := volumes state;
            worker_output := worker_output state;
            evaluation := Some ev;
            retry_count := new_retry_count;
            max_retries := max_retries state;
            evaluator_feedback := evaluator_feedback';
            completed := is_valid ev;
            error := None |}, w')
    end
  end.

(** The default evaluation of the [except] branch. *)
Definition failed_evaluation (e : exn) : MarketEvaluation :=
  {| is_valid := false;
     confidence := 0;
     quality_score := 0;
     issues := ["Evaluation failed: " +:+ e];
     summary := "Evaluation error";
     recommendation := "Unable to evaluate - treat with caution" |}.

(** [evaluator.py], [market_evaluator]: the [try] body, and the
    [except Exception] branch, whose constructor call passes neither
    [retry_count] nor [max_retries]. *)
Definition market_evaluator (state : MarketSubgraphState) (w : World)
  : MarketSubgraphState * World :=
  match market_evaluator_try state w with
  | (Returns s', w') => (s', w')
  | (Raises e, w') =>
    ({| symbol := symbol state; prices := prices state; volumes := volumes state;
        worker_output := worker_output state;
        evaluation := Some (failed_evaluation e);
        retry_count := default_retry_count;
        max_retries := default_max_retries;
        evaluator_feedback := None;
        completed := true;
        error := Some ("Evaluator failed: " +:+ e) |}, w')
  end.

(** [graph.py], [should_retry_worker]. *)
Definition should_retry_worker (state : MarketSubgraphState) : string :=
  match evaluation state with
  | None => END
  | Some ev =>
    if is_valid ev then END
    else if (max_retries state <? retry_count state)%Z then END
    else "worker"
  end.

(** [graph.py], [create_market_subgraph]. *)
Definition create_market_subgraph : StateGraph MarketSubgraphState :=
  add_conditional_edges "evaluator" (pure_decider should_retry_worker)
    (<["worker" := "worker"]> (<[END := END]> ∅))
    (add_edge "worker" "evaluator"
       (set_entry_point "worker"
          (add_node "evaluator" market_evaluator
             (add_node "worker" (pure_node market_worker) empty_graph)))).

End Nodes.

(** A run re-enters the worker after completion when some invocation of the
    worker node is on a state with [completed = true]. *)
Definition reenters_worker (tr : list (string * MarketSubgraphState)) : Prop :=
  ∃ i s, tr !! i = Some ("worker", s) ∧ completed s = true.

(** The values of [retry_count] seen by the successive node invocations. *)
Definition retry_counts (tr : list (string * MarketSubgraphState)) : list Z :=
  map (λ p, retry_count p.2) tr.

End Market.

(** ** Risk checks: [ai_engine/tools/risk.py] *)

Module RiskTools.

Record StopLossCheck := {
  triggered : bool;
  current_loss_pct : Q;
  stop_loss_pct : Q;
  stop_loss_action : string
}.

Record PositionSizeCheck := {
  position_is_valid : bool;
  proposed_size : Q;
  max_allowed : Q;
  size_pct : Q;
  position_action : string
}.

Record ExposureCheck := {
  exposure_is_valid : bool;
  total_exposure : Q;
  exposure_pct : Q;
  max_exposure_pct : Q;
  exposure_action : string
}.

Record VolatilityCheck := {
  volatility_is_valid : bool;
  current_volatility : Q;
  max_volatility : Q;
  volatility_action : string
}.

(** The [checks] dictionary of [check_risk_constraints]; a key that is only
    written on some paths is an optional field. *)
Record RiskChecks := {
  symbol : string;
  proposed_action : string;
  all_checks_passed : bool;
  warnings : list string;
  blockers : list string;
  position_size_check : option PositionSizeCheck;
  exposure_check : option ExposureCheck;
  volatility_check : option VolatilityCheck;
  stop_loss_check : option StopLossCheck;
  recommended_action : option string;
  risk_signal : option string
}.

(** [x / y] on Python floats raises when [y] is zero. *)
Definition float_div (x y : Q) : outcome Q :=
  if Qeq_bool y 0 then Raises "float division by zero" else Returns (x / y)%Q.

Definition check_stop_loss (current_price entry_price stop_loss_pct : Q)
  : outcome StopLossCheck :=
  match float_div (entry_price - current_price) entry_price with
  | Raises e => Raises e
  | Returns loss_pct =>
    let triggered := Qle_bool stop_loss_pct loss_pct in
    Returns {| triggered := triggered;
               current_loss_pct := loss_pct * 100;
               stop_loss_pct := stop_loss_pct * 100;
               stop_loss_action := if triggered then "close_position" else "hold" |}
  end.

(** [a > 0] *)
Definition Qpos_bool (a : Q) : bool := negb (Qle_bool a 0).

Definition check_position_size (proposed_size account_balance max_position_pct : Q)
  : PositionSizeCheck :=
  let max_allowed := (account_balance * max_position_pct)%Q in
  let is_valid := Qle_bool proposed_size max_allowed in
  {| position_is_valid := is_valid;
     proposed_size := proposed_size;
     max_allowed := max_allowed;
     size_pct := if Qpos_bool account_balance
                 then proposed_size / account_balance * 100 else 0;
     position_action := if is_valid then "proceed" else "reduce_size" |}.

(** [sum(d.values())] *)
Definition sum_values (d : gmap string Q) : Q :=
  map_fold (λ _ v acc, (acc + v)%Q) 0%Q d.

Definition check_exposure_limits (current_positions : gmap string Q)
    (account_balance max_total_exposure : Q) : ExposureCheck :=
  let total_exposure := sum_values current_positions in
  let exposure_pct :=
    if Qpos_bool account_balance then (total_exposure / account_balance)%Q else 0%Q in
  let is_valid := Qle_bool exposure_pct max_total_exposure in
  {| exposure_is_valid := is_valid;
     total_exposure := total_exposure;
     exposure_pct := exposure_pct * 100;
     max_exposure_pct := max_total_exposure * 100;
     exposure_action := if is_valid then "proceed" else "reduce_exposure" |}.

Definition check_volatility_limit (volatility max_volatility : Q) : VolatilityCheck :=
  let is_valid := Qle_bool volatility max_volatility in
  {| volatility_is_valid := is_valid;
     current_volatility := volatility * 100;
     max_volatility := max_volatility * 100;
     volatility_action := if is_valid then "proceed" else "reduce_size_or_avoid" |}.

Definition default_risk_params : gmap string Q :=
  <["stop_loss_pct" := 5 # 100]>
    (<["max_position_pct" := 10 # 100]>
       (<["max_total_exposure" := 50 # 100]>
          (<["max_volatility" := 5 # 100]> ∅))).

(** [d.get(key, dflt)] *)
Definition get_param (d : gmap string Q) (key : string) (dflt : Q) : Q :=
  default dflt (d !! key).

(** The in-place updates of [checks]. *)
Definition fail_checks (c : RiskChecks) : RiskChecks :=
  {| symbol := symbol c; proposed_action := proposed_action c;
     all_checks_passed := false;
     warnings := warnings c; blockers := blockers c;
     position_size_check := position_size_check c;
     exposure_check := exposure_check c;
     volatility_check := volatility_check c;
     stop_loss_check := stop_loss_check c;
     recommended_action := recommended_action c;
     risk_signal := risk_signal c |}.

Definition add_blocker (b : string) (c : RiskChecks) : RiskChecks :=
  {| symbol := symbol c; proposed_action := proposed_action c;
     all_checks_passed := all_checks_passed c;
     warnings := warnings c; blockers := blockers c ++ [b];
     position_size_check := position_size_check c;
     exposure_check := exposure_check c;
     volatility_check := volatility_check c;
     stop_loss_check := stop_loss_check c;
     recommended_action := recommended_action c;
     risk_signal := risk_signal c |}.

Definition add_warning (m : string) (c : RiskChecks) : RiskChecks :=
  {| symbol := symbol c; proposed_action := proposed_action c;
     all_checks_passed := all_checks_passed c;
     warnings := warnings c ++ [m]; blockers := blockers c;
     position_size_check := position_size_check c;
     exposure_check := exposure_check c;
     volatility_check := volatility_check c;
     stop_loss_check := stop_loss_check c;
     recommended_action := recommended_action c;
     risk_signal := risk_signal c |}.

Definition set_position_size_check (x : PositionSizeCheck) (c : RiskChecks) : RiskChecks :=
  {| symbol := symbol c; proposed_action := proposed_action c;
     all_checks_passed := all_checks_passed c;
     warnings := warnings c; blockers := blockers c;
     position_size_check := Some x;
     exposure_check := exposure_check c;
     volatility_check := volatility_check c;
     stop_loss_check := stop_loss_check c;
     recommended_action := recommended_action c;
     risk_signal := risk_signal c |}.

Definition set_exposure_check (x : ExposureCheck) (c : RiskChecks) : RiskChecks :=
  {| symbol := symbol c; proposed_action := proposed_action c;
     all_checks_passed := all_checks_passed c;
     warnings := warnings c; blockers := blockers c;
     position_size_check := position_size_check c;
     exposure_check := Some x;
     volatility_check := volatility_check c;
     stop_loss_check := stop_loss_check c;
     recommended_action := recommended_action c;
     risk_signal := risk_signal c |}.

Definition set_volatility_check (x : VolatilityCheck) (c : RiskChecks) : RiskChecks :=
  {| symbol := symbol c; proposed_action := proposed_action c;
     all_checks_passed := all_checks_passed c;
     warnings := warnings c; blockers := blockers c;
     position_size_check := position_size_check c;
     exposure_check := exposure_check c;
     volatility_check := Some x;
     stop_loss_check := stop_loss_check c;
     recommended_action := recommended_action c;
     risk_signal := risk_signal c |}.

Definition set_stop_loss_check (x : StopLossCheck) (c : RiskChecks) : RiskChecks :=
  {| symbol := symbol c; proposed_action := proposed_action c;
     all_checks_passed := all_checks_passed c;
     warnings := warnings c; blockers := blockers c;
     position_size_check := position_size_check c;
     exposure_check := exposure_check c;
     volatility_check := volatility_check c;
     stop_loss_check := Some x;
     recommended_action := recommended_action c;
     risk_signal := risk_signal c |}.

Definition set_recommended_action (a : string) (c : RiskChecks) : RiskChecks :=
  {| symbol := symbol c; proposed_action := proposed_action c;
     all_checks_passed := all_checks_passed c;
     warnings := warnings c; blockers := blockers c;
     position_size_check := position_size_check c;
     exposure_check := exposure_check c;
     volatility_check := volatility_check c;
     stop_loss_check := stop_loss_check c;
     recommended_action := Some a;
     risk_signal := risk_signal c |}.

Definition set_risk_signal (a : string) (c : RiskChecks) : RiskChecks :=
  {| symbol := symbol c; proposed_action := proposed_action c;
     all_checks_passed := all_checks_passed c;
     warnings := warnings c; blockers := blockers c;
     position_size_check := position_size_check c;
     exposure_check := exposure_check c;
     volatility_check := volatility_check c;
     stop_loss_check := stop_loss_check c;
     recommended_action := recommended_action c;
     risk_signal := Some a |}.

Definition is_buy (action : string) : bool := bool_decide (action = "buy").

(** The position-size block. *)
Definition position_size_step (action : string) (size balance : Q)
    (risk_params : gmap string Q) (c : RiskChecks) : RiskChecks :=
  if is_buy action then
    let size_check :=
      check_position_size size balance (get_param risk_params "max_position_pct" (1 # 10)) in
    let c := set_position_size_check size_check c in
    if negb (position_is_valid size_check)
    then add_blocker "Position size exceeds limit" (fail_checks c)
    else c
  else c.

(** The exposure block. *)
Definition exposure_step (action : string) (positions : gmap string Q) (balance : Q)
    (risk_params : gmap string Q) (c : RiskChecks) : RiskChecks :=
  let exposure :=
    check_exposure_limits positions balance
      (get_param risk_params "max_total_exposure" (5 # 10)) in
  let c := set_exposure_check exposure c in
  if negb (exposure_is_valid exposure) && is_buy action
  then add_blocker "Total exposure exceeds limit" (fail_checks c)
  else c.

(** The volatility block. *)
Definition volatility_step (action : string) (volatility : Q)
    (risk_params : gmap string Q) (c : RiskChecks) : RiskChecks :=
  let vol_check :=
    check_volatility_limit volatility (get_param risk_params "max_volatility" (5 # 100)) in
  let c := set_volatility_check vol_check c in
  if negb (volatility_is_valid vol_check) then
    let c := add_warning "High volatility detected" c in
    if is_buy action
    then fail_checks (add_blocker "Volatility too high for new positions" c)
    else c
  else c.

(** The stop-loss block, the only one that can raise. *)
Definition stop_loss_step (action : string) (current_price : Q) (entry_price : option Q)
    (risk_params : gmap string Q) (c : RiskChecks) : outcome RiskChecks :=
  match entry_price with
  | Some entry =>
    if negb (is_buy action) then
      match check_stop_loss current_price entry
              (get_param risk_params "stop_loss_pct" (5 # 100)) with
      | Raises e => Raises e
      | Returns sl =>
        let c := set_stop_loss_check sl c in
        Returns (if triggered sl
                 then set_recommended_action "close_position"
                        (add_warning "Stop loss triggered" c)
                 else c)
      end
    else Returns c
  | None => Returns c
  end.

Definition final_recommendation (c : RiskChecks) : RiskChecks :=
  if all_checks_passed c then set_risk_signal "proceed" c else set_risk_signal "block" c.

Definition check_risk_constraints (sym action : string)
    (size current_price account_balance : Q)
    (current_positions : option (gmap string Q)) (entry_price : option Q)
    (volatility : Q) (risk_params : option (gmap string Q)) : outcome RiskChecks :=
  let current_positions := default ∅ current_positions in
  let risk_params := default default_risk_params risk_params in
  let checks :=
    {| symbol := sym; proposed_action := action;
       all_checks_passed := true; warnings := []; blockers := [];
       position_size_check := None; exposure_check := None;
       volatility_check := None; stop_loss_check := None;
       recommended_action := None; risk_signal := None |} in
  let checks := position_size_step action size account_balance risk_params checks in
  let checks := exposure_step action current_positions account_balance risk_params checks in
  let checks := volatility_step action volatility risk_params checks in
  match stop_loss_step action current_price entry_price risk_params checks with
  | Raises e => Raises e
  | Returns checks => Returns (final_recommendation checks)
  end.

(** No check has failed and nothing blocks. *)
Definition unblocked (c : RiskChecks) : Prop :=
  all_checks_passed c = true ∧ blockers c = [].

(** The default of the [volatility] parameter. *)
Definition default_volatility : Q := 2 # 100.

End RiskTools.

(** ** The RSI indicator: [ai_engine/tools/market.py] *)

Module MarketTools.

(** A NumPy float: a number, or [nan]. *)
Inductive npfloat :=
  | Num (q : Q)
  | NaN.

(** [np.diff(xs)] *)
Fixpoint np_diff (xs : list Q) : list Q :=
  match xs with
  | a :: (b :: _) as rest => (b - a)%Q :: np_diff rest
  | _ => []
  end.

(** [a < b] *)
Definition Qlt_bool (a b : Q) : bool := negb (Qle_bool b a).

(** [np.where(deltas > 0, deltas, 0)] and [np.where(deltas < 0, -deltas, 0)] *)
Definition gains_of (deltas : list Q) : list Q :=
  map (λ d, if Qlt_bool 0 d then d else 0%Q) deltas.

Definition losses_of (deltas : list Q) : list Q :=
  map (λ d, if Qlt_bool d 0 then (- d)%Q else 0%Q) deltas.

(** [xs[start:]]: a negative [start] counts from the end and is clipped at the
    beginning of the list; [xs[-0:]] is the whole list. *)
Definition slice_from (start : Z) (xs : list Q) : list Q :=
  if (start <? 0)%Z
  then drop (Z.to_nat (Z.max 0 (Z.of_nat (length xs) + start))) xs
  else drop (Z.to_nat start) xs.

Definition Qsum (xs : list Q) : Q := foldr Qplus 0%Q xs.

(** [np.mean(xs)]: [nan] on an empty array. *)
Definition np_mean (xs : list Q) : npfloat :=
  match xs with
  | [] => NaN
  | _ => Num (Qsum xs / inject_Z (Z.of_nat (length xs)))
  end.

Definition default_period : Z := 14.

(** [calculate_rsi]. A comparison with [nan] is false and arithmetic on [nan]
    gives [nan], so a [nan] average loss skips the [avg_loss == 0] return and
    reaches the final [return] as [nan]. *)
Definition calculate_rsi (prices : list Q) (period : Z) : npfloat :=
  if (Z.of_nat (length prices) <? period + 1)%Z then Num 50
  else
    let deltas := np_diff prices in
    let gains := gains_of deltas in
    let losses := losses_of deltas in
    let avg_gain := np_mean (slice_from (- period) gains) in
    let avg_loss := np_mean (slice_from (- period) losses) in
    match avg_loss with
    | NaN => NaN
    | Num l =>
      if Qeq_bool l 0 then Num 100
      else
        match avg_gain with
        | NaN => NaN
        | Num g =>
          let rs := (g / l)%Q in
          Num (100 - 100 / (1 + rs))
        end
    end.

(** The value lies in the closed interval from 0 to 100. *)
Definition in_0_100 (x : npfloat) : Prop :=
  match x with
  | Num q => (0 <= q)%Q ∧ (q <= 100)%Q
  | NaN => False
  end.

End MarketTools.

(** ** The risk subgraph: [ai_engine/agents/risk] *)

Module Risk.
Import LangGraph.

(** [schema.py] *)
Record RiskWorkerOutput := {
  stop_loss_check : bool;
  stop_loss_message : string;
  position_size_check : bool;
  position_size_message : string;
  exposure_check : bool;
  exposure_message : string;
  all_checks_passed : bool;
  risk_level : string
}.

Record RiskEvaluation := {
  is_valid : bool;
  confidence : Q;
  quality_score : Q;
  issues : list string;
  summary : string;
  recommendation : string
}.

Record RiskSubgraphState := {
  symbol : string;
  current_price : Q;
  proposed_action : string;
  proposed_quantity : Z;
  stop_loss : option Q;
  take_profit : option Q;
  worker_output : option RiskWorkerOutput;
  evaluation : option RiskEvaluation;
  retry_count : Z;
  max_retries : Z;
  evaluator_feedback : option string;
  completed : bool;
  error : option string
}.

Definition default_retry_count : Z := 0.
Definition default_max_retries : Z := 2.

(** [RiskSubgraphState(symbol=..., current_price=..., proposed_action=...,
    proposed_quantity=...)] *)
Definition initial_state (sym : string) (price : Q) (action : string) (quantity : Z)
  : RiskSubgraphState :=
  {| symbol := sym; current_price := price;
     proposed_action := action; proposed_quantity := quantity;
     stop_loss := None; take_profit := None;
     worker_output := None; evaluation := None;
     retry_count := default_retry_count; max_retries := default_max_retries;
     evaluator_feedback := None; completed := false; error := None |}.

(** The account balance the worker passes to [check_risk_constraints]. *)
Definition default_account_balance : Q := 100000.

(** The [RiskWorkerOutput(...)] call of the worker. The stop-loss dictionary
    has no key [is_valid] and no check dictionary has a key [message], so
    those lookups give their defaults. *)
Definition worker_output_of (c : RiskTools.RiskChecks) : RiskWorkerOutput :=
  let risk_level :=
    if negb (RiskTools.all_checks_passed c) then "high"
    else if bool_decide (RiskTools.warnings c ≠ []) then "medium"
    else "low" in
  {| stop_loss_check := true;
     stop_loss_message := "No stop loss check";
     position_size_check :=
       match RiskTools.position_size_check c with
       | Some p => RiskTools.position_is_valid p
       | None => true
       end;
     position_size_message := "Position size OK";
     exposure_check :=
       match RiskTools.exposure_check c with
       | Some x => RiskTools.exposure_is_valid x
       | None => true
       end;
     exposure_message := "Exposure OK";
     all_checks_passed := RiskTools.all_checks_passed c;
     risk_level := risk_level |}.

(** [int * float] converts the integer first, and the conversion raises
    [OverflowError] for an integer whose nearest double is not finite: one
    of magnitude [2^1024 - 2^970] or more. *)
Definition int_float_limit : Z := 2 ^ 1024 - 2 ^ 970.

Definition float_of_int (z : Z) : outcome Q :=
  if (int_float_limit <=? Z.abs z)%Z then Raises "int too large to convert to float"
  else Returns (inject_Z z).

(** The [check_risk_constraints(...)] call of the worker, with its argument
    [float(state.proposed_quantity * state.current_price)]. *)
Definition risk_checks_of (state : RiskSubgraphState) : outcome RiskTools.RiskChecks :=
  match float_of_int (proposed_quantity state) with
  | Raises e => Raises e
  | Returns quantity =>
    RiskTools.check_risk_constraints (symbol state) (proposed_action state)
      (quantity * current_price state)
      (current_price state) default_account_balance
      None (stop_loss state) RiskTools.default_volatility None
  end.

(** [worker.py], [risk_worker]. *)
Definition risk_worker (state : RiskSubgraphState) : RiskSubgraphState :=
  match risk_checks_of state with
  | Returns risk_checks =>
    {| symbol := symbol state; current_price := current_price state;
       proposed_action := proposed_action state;
       proposed_quantity := proposed_quantity state;
       stop_loss := stop_loss state; take_profit := take_profit state;
       worker_output := Some (worker_output_of risk_checks);
       evaluation := evaluation state;
       retry_count := default_retry_count;
       max_retries := default_max_retries;
       evaluator_feedback := None;
       completed := false;
       error := None |}
  | Raises e =>
    {| symbol := symbol state; current_price := current_price state;
       proposed_action := proposed_action state;
       proposed_quantity := proposed_quantity state;
       stop_loss := stop_loss state; take_profit := take_profit state;
       worker_output := None;
       evaluation := None;
       retry_count := default_retry_count;
       max_retries := default_max_retries;
       evaluator_feedback := None;
       completed := true;
       error := Some ("Risk worker failed: " +:+ e) |}
  end.

Section Nodes.
(** The reply of the evaluator chain at each tick of the model oracle. *)
Variable risk_chain : nat → RiskWorkerOutput → outcome RiskEvaluation.
(** The answer typed at the console at each read, after [strip().lower()]. *)
Variable console : nat → string.
Variable fmt_2f : Q → string.
Variable unbound_evaluation : exn.

Definition evaluator_attempts : nat := 3.

(** [str(e).replace("{", "{{").replace("}", "}}")] *)
Fixpoint escape_braces (s : string) : string :=
  match s with
  | EmptyString => EmptyString
  | String c rest =>
    if bool_decide (c = "{"%char) || bool_decide (c = "}"%char)
    then String c (String c (escape_braces rest))
    else String c (escape_braces rest)
  end.

(** [s[:n]] *)
Fixpoint str_take (n : nat) (s : string) : string :=
  match n, s with
  | S n', String c rest => String c (str_take n' rest)
  | _, _ => EmptyString
  end.

(** The first brace of a text that is not half of a doubled brace, as the
    parser of format strings meets it when the text is followed by text
    without braces. *)
Fixpoint lone_brace (s : string) : option ascii :=
  match s with
  | EmptyString => None
  | String c rest =>
    if bool_decide (c = "{"%char) || bool_decide (c = "}"%char)
    then match rest with
         | String c' rest' => if bool_decide (c' = c) then lone_brace rest' else Some c
         | EmptyString => Some c
         end
    else lone_brace rest
  end.

(** The rebuild of the prompt in the [except] handler of the attempt loop:
    the feedback is the escaped error text cut at 300 characters, followed
    by text without braces. [ChatPromptTemplate.from_messages] parses the
    template when it is built, and the parser of Python's format strings
    raises [ValueError] on a lone brace. *)
Definition retry_prompt (e : exn) : outcome unit :=
  match lone_brace (str_take 300 (escape_braces e)) with
  | None => Returns tt
  | Some c =>
    if bool_decide (c = "{"%char) then Raises "expected '}' before end of string"
    else Raises "Single '}' encountered in format string"
  end.

(** The attempt loop of [risk_evaluator]: a failed attempt that is not the
    last one rebuilds the prompt and the chain and goes on, unless the
    rebuild itself raises, which ends the loop with that exception; the last
    attempt re-raises. The result is the binding of the local [evaluation],
    if any, or the raised exception, and the number of chain calls made. *)
Fixpoint attempt_loop (n : nat) (clock : nat) (out : RiskWorkerOutput)
  : outcome (option RiskEvaluation) * nat :=
  match n with
  | O => (Returns None, 0)
  | S n' =>
    match risk_chain clock out with
    | Returns ev => (Returns (Some ev), 1)
    | Raises e =>
      match n' with
      | O => (Raises e, 1)
      | S _ =>
        match retry_prompt e with
        | Raises e' => (Raises e', 1)
        | Returns _ => let '(r, k) := attempt_loop n' (S clock) out in (r, S k)
        end
      end
    end
  end.

Definition risk_evaluator_try (state : RiskSubgraphState) (w : World)
  : outcome RiskSubgraphState * World :=
  match worker_output state with
  | None => (Raises "No worker output to evaluate", w)
  | Some out =>
    let '(bound, calls) := attempt_loop evaluator_attempts (llm_calls w) out in
    let w' := tick_llm calls w in
    match bound with
    | Raises e => (Raises e, w')
    | Returns None => (Raises unbound_evaluation, w')
    | Returns (Some ev) =>
      let evaluator_feedback' :=
        if is_valid ev then None
        else Some ("Validation failed (confidence=" +:+ fmt_2f (confidence ev)
                   +:+ ", quality=" +:+ fmt_2f (quality_score ev)
                   +:+ "). Issues: " +:+ join_comma (issues ev)) in
      let new_retry_count :=
        if is_valid ev then retry_count state else (retry_count state + 1)%Z in
      (Returns
         {| symbol := symbol state; current_price := current_price state;
            proposed_action := proposed_action state;
            proposed_quantity := proposed_quantity state;
            stop_loss := stop_loss state; take_profit := take_profit state;
            worker_output := worker_output state;
            evaluation := Some ev;
            retry_count := new_retry_count;
            max_retries := max_retries state;
            evaluator_feedback := evaluator_feedback';
            completed := is_valid ev;
            error := None |}, w')
    end
  end.

Definition failed_evaluation (e : exn) : RiskEvaluation :=
  {| is_valid := false;
     confidence := 0;
     quality_score := 0;
     issues := ["Evaluation failed: " +:+ e];
     summary := "Evaluation error";
     recommendation := "Unable to evaluate - proceed with extreme caution" |}.

(** [evaluator.py], [risk_evaluator]. *)
Definition risk_evaluator (state : RiskSubgraphState) (w : World)
  : RiskSubgraphState * World :=
  match risk_evaluator_try state w with
  | (Returns s', w') => (s', w')
  | (Raises e, w') =>
    ({| symbol := symbol state; current_price := current_price state;
        proposed_action := proposed_action state;
        proposed_quantity := proposed_quantity state;
        stop_loss := stop_loss state; take_profit := take_profit state;
        worker_output := worker_output state;
        evaluation := Some (failed_evaluation e);
        retry_count := default_retry_count;
        max_retries := default_max_retries;
        evaluator_feedback := None;
        completed := true;
        error := Some ("Evaluator failed: " +:+ e) |}, w')
  end.

Definition user_aborted : exn := "User aborted risk analysis".

(** [graph.py], [should_retry_worker]: after a rejection with retries left the
    user is asked; [a] raises, [n] ends the subgraph, anything else retries. *)
Definition should_retry_worker (state : RiskSubgraphState) (w : World)
  : outcome string * World :=
  match evaluation state with
  | None => (Returns END, w)
  | Some ev =>
    if is_valid ev then (Returns END, w)
    else if (max_retries state <? retry_count state)%Z then (Returns END, w)
    else
      let choice := console (stdin_reads w) in
      let w' := tick_stdin w in
      if bool_decide (choice = "a") then (Raises user_aborted, w')
      else if bool_decide (choice = "n") then (Returns END, w')
      else (Returns "worker", w')
  end.

(** [graph.py], [create_risk_subgraph]. *)
Definition create_risk_subgraph : StateGraph RiskSubgraphState :=
  add_conditional_edges "evaluator" should_retry_worker
    (<["worker" := "worker"]> (<[END := END]> ∅))
    (add_edge "worker" "evaluator"
       (set_entry_point "worker"
          (add_node "evaluator" risk_evaluator
             (add_node "worker" (pure_node risk_worker) empty_graph)))).

End Nodes.
End Risk.

(** ** The parent graph: [ai_engine/graph/hierarchical_graph.py] *)

Module Hierarchical.
Import LangGraph.

(** [context/schema.py], [DecisionContext]: the fields the parent graph reads
    or writes (the legacy tool contexts and the metadata fields are never
    touched by it). *)
Record DecisionContext := {
  symbol : string;
  request_id : string;
  prices : list Q;
  volumes : list Q;
  user_request : option string;
  supervisor_plan : option (gmap string pyval);
  trading_rules : list string;
  market_agent_output : option (gmap string pyval);
  ml_agent_output : option (gmap string pyval);
  sentiment_agent_output : option (gmap string pyval);
  risk_agent_output : option (gmap string pyval);
  decision_agent_output : option (gmap string pyval);
  final_decision : option (gmap string pyval)
}.

(** [DecisionContext(symbol=..., prices=..., volumes=..., request_id=...,
    user_request=..., trading_rules=...)], as [DecisionEngine.decide] builds it. *)
Definition new_context (sym req : string) (ps vs : list Q) (ur : option string)
    (rules : list string) : DecisionContext :=
  {| symbol := sym; request_id := req; prices := ps; volumes := vs;
     user_request := ur; supervisor_plan := None; trading_rules := rules;
     market_agent_output := None; ml_agent_output := None;
     sentiment_agent_output := None; risk_agent_output := None;
     decision_agent_output := None; final_decision := None |}.

(** Attribute assignments on the context. *)
Definition set_supervisor_plan (plan : gmap string pyval) (rules : list string)
    (c : DecisionContext) : DecisionContext :=
  {| symbol := symbol c; request_id := request_id c; prices := prices c;
     volumes := volumes c; user_request := user_request c;
     supervisor_plan := Some plan; trading_rules := rules;
     market_agent_output := market_agent_output c;
     ml_agent_output := ml_agent_output c;
     sentiment_agent_output := sentiment_agent_output c;
     risk_agent_output := risk_agent_output c;
     decision_agent_output := decision_agent_output c;
     final_decision := final_decision c |}.

Definition set_market_agent_output (d : gmap string pyval) (c : DecisionContext)
  : DecisionContext :=
  {| symbol := symbol c; request_id := request_id c; prices := prices c;
     volumes := volumes c; user_request := user_request c;
     supervisor_plan := supervisor_plan c; trading_rules := trading_rules c;
     market_agent_output := Some d;
     ml_agent_output := ml_agent_output c;
     sentiment_agent_output := sentiment_agent_output c;
     risk_agent_output := risk_agent_output c;
     decision_agent_output := decision_agent_output c;
     final_decision := final_decision c |}.

Definition set_sentiment_agent_output (d : gmap string pyval) (c : DecisionContext)
  : DecisionContext :=
  {| symbol := symbol c; request_id := request_id c; prices := prices c;
     volumes := volumes c; user_request := user_request c;
     supervisor_plan := supervisor_plan c; trading_rules := trading_rules c;
     market_agent_output := market_agent_output c;
     ml_agent_output := ml_agent_output c;
     sentiment_agent_output := Some d;
     risk_agent_output := risk_agent_output c;
     decision_agent_output := decision_agent_output c;
     final_decision := final_decision c |}.

Definition set_risk_agent_output (d : gmap string pyval) (c : DecisionContext)
  : DecisionContext :=
  {| symbol := symbol c; request_id := request_id c; prices := prices c;
     volumes := volumes c; user_request := user_request c;
     supervisor_plan := supervisor_plan c; trading_rules := trading_rules c;
     market_agent_output := market_agent_output c;
     ml_agent_output := ml_agent_output c;
     sentiment_agent_output := sentiment_agent_output c;
     risk_agent_output := Some d;
     decision_agent_output := decision_agent_output c;
     final_decision := final_decision c |}.

Definition set_decision_agent_output (d : gmap string pyval) (c : DecisionContext)
  : DecisionContext :=
  {| symbol := symbol c; request_id := request_id c; prices := prices c;
     volumes := volumes c; user_request := user_request c;
     supervisor_plan := supervisor_plan c; trading_rules := trading_rules c;
     market_agent_output := market_agent_output c;
     ml_agent_output := ml_agent_output c;
     sentiment_agent_output := sentiment_agent_output c;
     risk_agent_output := risk_agent_output c;
     decision_agent_output := Some d;
     final_decision := final_decision c |}.

Definition set_final_decision (d : gmap string pyval) (c : DecisionContext)
  : DecisionContext :=
  {| symbol := symbol c; request_id := request_id c; prices := prices c;
     volumes := volumes c; user_request := user_request c;
     supervisor_plan := supervisor_plan c; trading_rules := trading_rules c;
     market_agent_output := market_agent_output c;
     ml_agent_output := ml_agent_output c;
     sentiment_agent_output := sentiment_agent_output c;
     risk_agent_output := risk_agent_output c;
     decision_agent_output := decision_agent_output c;
     final_decision := Some d |}.

(** [bool(s)] for an optional string. *)
Definition truthy_str (o : option string) : bool :=
  match o with
  | Some s => negb (bool_decide (s = ""))
  | None => false
  end.

Definition VStrs (xs : list string) : pyval := VList (map VStr xs).

Definition VOptFloat (o : option Q) : pyval :=
  match o with Some q => VFloat q | None => VNone end.

(** [model_dump()] of the subgraph outputs. *)
Definition dump_market_output (o : Market.MarketWorkerOutput) : gmap string pyval :=
  <["rsi" := VFloat (Market.rsi o)]>
  (<["rsi_signal" := VStr (Market.rsi_signal o)]>
  (<["ema_short" := VFloat (Market.ema_short o)]>
  (<["ema_long" := VFloat (Market.ema_long o)]>
  (<["ema_signal" := VStr (Market.ema_signal o)]>
  (<["volume_ratio" := VFloat (Market.volume_ratio o)]>
  (<["volume_signal" := VStr (Market.volume_signal o)]>
  (<["trend_direction" := VStr (Market.trend_direction o)]>
  (<["trend_strength" := VFloat (Market.trend_strength o)]> ∅)))))))).

Definition dump_market_evaluation (e : Market.MarketEvaluation) : gmap string pyval :=
  <["is_valid" := VBool (Market.is_valid e)]>
  (<["confidence" := VFloat (Market.confidence e)]>
  (<["quality_score" := VFloat (Market.quality_score e)]>
  (<["issues" := VStrs (Market.issues e)]>
  (<["summary" := VStr (Market.summary e)]>
  (<["recommendation" := VStr (Market.recommendation e)]> ∅))))).

Definition dump_risk_output (o : Risk.RiskWorkerOutput) : gmap string pyval :=
  <["stop_loss_check" := VBool (Risk.stop_loss_check o)]>
  (<["stop_loss_message" := VStr (Risk.stop_loss_message o)]>
  (<["position_size_check" := VBool (Risk.position_size_check o)]>
  (<["position_size_message" := VStr (Risk.position_size_message o)]>
  (<["exposure_check" := VBool (Risk.exposure_check o)]>
  (<["exposure_message" := VStr (Risk.exposure_message o)]>
  (<["all_checks_passed" := VBool (Risk.all_checks_passed o)]>
  (<["risk_level" := VStr (Risk.risk_level o)]> ∅))))))).

Definition dump_risk_evaluation (e : Risk.RiskEvaluation) : gmap string pyval :=
  <["is_valid" := VBool (Risk.is_valid e)]>
  (<["confidence" := VFloat (Risk.confidence e)]>
  (<["quality_score" := VFloat (Risk.quality_score e)]>
  (<["issues" := VStrs (Risk.issues e)]>
  (<["summary" := VStr (Risk.summary e)]>
  (<["recommendation" := VStr (Risk.recommendation e)]> ∅))))).

(** [SupervisorPlan] and [FinalTradingDecision] *)
Record SupervisorPlan := {
  plan_trading_rules : list string;
  required_subgraphs : list string;
  execution_strategy : string;
  plan_reasoning : string
}.

Definition dump_plan (p : SupervisorPlan) : gmap string pyval :=
  <["trading_rules" := VStrs (plan_trading_rules p)]>
  (<["required_subgraphs" := VStrs (required_subgraphs p)]>
  (<["execution_strategy" := VStr (execution_strategy p)]>
  (<["reasoning" := VStr (plan_reasoning p)]> ∅))).

Record FinalTradingDecision := {
  action : string;
  confidence : Q;
  quantity : Z;
  reasoning : string;
  risk_approved : bool;
  stop_loss : option Q;
  take_profit : option Q
}.

Definition dump_decision (d : FinalTradingDecision) : gmap string pyval :=
  <["action" := VStr (action d)]>
  (<["confidence" := VFloat (confidence d)]>
  (<["quantity" := VInt (quantity d)]>
  (<["reasoning" := VStr (reasoning d)]>
  (<["risk_approved" := VBool (risk_approved d)]>
  (<["stop_loss" := VOptFloat (stop_loss d)]>
  (<["take_profit" := VOptFloat (take_profit d)]> ∅)))))).

(** The result of a sentiment subgraph run, with its worker output and its
    evaluation already dumped. *)
Record SentimentResult := {
  sentiment_worker_output : option (gmap string pyval);
  sentiment_evaluation : option (gmap string pyval);
  sentiment_error : option string
}.

(** [xs[-1] if xs else 100.0] *)
Definition current_price_of (ps : list Q) : Q := default 100%Q (last ps).

(** The values of the [next_action] literal of [RouterDecision], which are
    also the keys of every conditional-edge table of the graph. *)
Definition next_actions : list string :=
  ["market_subgraph"; "sentiment_subgraph"; "risk_subgraph"; "final_decision"; "END"].

(** [fallback_router] *)
Definition fallback_router (context : DecisionContext) : string :=
  if negb (truthy (market_agent_output context)) then "market_subgraph"
  else if negb (truthy (sentiment_agent_output context)) then "sentiment_subgraph"
  else if negb (truthy (risk_agent_output context)) then "risk_subgraph"
  else if negb (truthy (final_decision context)) then "final_decision"
  else "END".

(** The order in which [fallback_router] inspects the branches. *)
Definition priority_order
  : list (string * (DecisionContext → option (gmap string pyval))) :=
  [("market_subgraph", market_agent_output);
   ("sentiment_subgraph", sentiment_agent_output);
   ("risk_subgraph", risk_agent_output)].

(** The table passed to every [add_conditional_edges] call. *)
Definition routing_table : gmap string string :=
  <["market_subgraph" := "market_subgraph"]>
  (<["sentiment_subgraph" := "sentiment_subgraph"]>
  (<["risk_subgraph" := "risk_subgraph"]>
  (<["final_decision" := "final_decision"]>
  (<["END" := END]> ∅)))).

(** The dictionary of the [except] branch of [final_decision_node]. *)
Definition safe_fallback (e : exn) : gmap string pyval :=
  <["action" := VStr "hold"]>
  (<["confidence" := VFloat 0]>
  (<["quantity" := VInt 0]>
  (<["reasoning" := VStr ("Error in decision synthesis: " +:+ e)]>
  (<["risk_approved" := VBool false]> ∅)))).

(** The plan of the [except] branch of [supervisor_agent]. *)
Definition fallback_plan (e : exn) : gmap string pyval :=
  <["trading_rules" := VStrs ["Use all available data"]]>
  (<["required_subgraphs" := VStrs ["market"; "ml"; "sentiment"; "risk"]]>
  (<["execution_strategy" := VStr "Run all subgraphs in parallel where possible"]>
  (<["reasoning" := VStr ("Error in supervisor, using default plan: " +:+ e)]> ∅))).

(** Validation of the two values the risk bridge reads back from
    [decision_agent_output]. That dictionary is only ever written by
    [final_decision_node], with a string and an integer there; any other
    value is rejected by the state constructor. *)
Definition as_str (v : pyval) : outcome string :=
  match v with VStr s => Returns s | _ => Raises "validation error: proposed_action" end.

Definition as_int (v : pyval) : outcome Z :=
  match v with VInt z => Returns z | _ => Raises "validation error: proposed_quantity" end.

Section Nodes.
Variable market_facts : string → list Q → list Q → outcome Market.MarketWorkerOutput.
Variable market_chain : nat → Market.MarketWorkerOutput → outcome Market.MarketEvaluation.
Variable risk_chain : nat → Risk.RiskWorkerOutput → outcome Risk.RiskEvaluation.
Variable console : nat → string.
Variable fmt_2f : Q → string.
Variable unbound_evaluation : exn.
(** [create_sentiment_subgraph().invoke(...)]: [agents/sentiment/graph.py] is
    not among the sources. *)
Variable sentiment_subgraph : string → World → outcome SentimentResult * World.
(** The replies of the supervisor, router and aggregator chains. *)
Variable supervisor_chain : nat → outcome SupervisorPlan.
Variable router_chain : nat → outcome string.
Variable final_chain : nat → outcome FinalTradingDecision.

(** [supervisor_agent] *)
Definition supervisor_agent (context : DecisionContext) (w : World)
  : DecisionContext * World :=
  match supervisor_chain (llm_calls w) with
  | Returns plan =>
    (set_supervisor_plan (dump_plan plan) (plan_trading_rules plan) context, tick_llm 1 w)
  | Raises e =>
    (set_supervisor_plan (fallback_plan e) ["Use all available data"] context, tick_llm 1 w)
  end.

(** [market_subgraph_node] *)
Definition market_subgraph_node (context : DecisionContext) (w : World)
  : DecisionContext * World :=
  let state := Market.initial_state (symbol context) (prices context) (volumes context) in
  let subgraph :=
    Market.create_market_subgraph market_facts market_chain fmt_2f unbound_evaluation in
  match invoke subgraph default_recursion_limit state w with
  | (Returns result, w', _) =>
    let context :=
      match Market.worker_output result with
      | Some o => set_market_agent_output (dump_market_output o) context
      | None => context
      end in
    let context :=
      match Market.evaluation result with
      | Some ev =>
        set_market_agent_output
          (<["evaluation" := VDict (dump_market_evaluation ev)]>
             (py_or (market_agent_output context) ∅)) context
      | None => context
      end in
    let context :=
      match Market.error result with
      | Some e =>
        if truthy_str (Some e)
        then set_market_agent_output
               (<["error" := VStr e]> (py_or (market_agent_output context) ∅)) context
        else context
      | None => context
      end in
    (context, w')
  | (Raises e, w', _) =>
    (set_market_agent_output (<["error" := VStr e]> ∅) context, w')
  end.

(** [sentiment_subgraph_node] *)
Definition sentiment_subgraph_node (context : DecisionContext) (w : World)
  : DecisionContext * World :=
  match sentiment_subgraph (symbol context) w with
  | (Returns result, w') =>
    let context :=
      match sentiment_worker_output result with
      | Some o => set_sentiment_agent_output o context
      | None => context
      end in
    let context :=
      match sentiment_evaluation result with
      | Some ev =>
        set_sentiment_agent_output
          (<["evaluation" := VDict ev]>
             (py_or (sentiment_agent_output context) ∅)) context
      | None => context
      end in
    let context :=
      match sentiment_error result with
      | Some e =>
        if truthy_str (Some e)
        then set_sentiment_agent_output
               (<["error" := VStr e]> (py_or (sentiment_agent_output context) ∅)) context
        else context
      | None => context
      end in
    (context, w')
  | (Raises e, w') =>
    (set_sentiment_agent_output (<["error" := VStr e]> ∅) context, w')
  end.

(** The proposed action and quantity of the risk bridge: the defaults, or the
    values of a preliminary decision. *)
Definition proposed_trade (context : DecisionContext) : outcome (string * Z) :=
  if truthy (decision_agent_output context) then
    let d := default ∅ (decision_agent_output context) in
    match as_str (default (VStr "buy") (d !! "action")),
          as_int (default (VInt 1) (d !! "quantity")) with
    | Returns a, Returns q => Returns (a, q)
    | Raises e, _ => Raises e
    | _, Raises e => Raises e
    end
  else Returns ("buy", 1%Z).

(** [risk_subgraph_node]: every exception of the [try] block, the one raised
    by the exit decision of the subgraph included, is caught here. *)
Definition risk_subgraph_node (context : DecisionContext) (w : World)
  : DecisionContext * World :=
  let current_price := current_price_of (prices context) in
  match proposed_trade context with
  | Raises e => (set_risk_agent_output (<["error" := VStr e]> ∅) context, w)
  | Returns (action, quantity) =>
    let state := Risk.initial_state (symbol context) current_price action quantity in
    let subgraph :=
      Risk.create_risk_subgraph risk_chain console fmt_2f unbound_evaluation in
    match invoke subgraph default_recursion_limit state w with
    | (Returns result, w', _) =>
      let context :=
        match Risk.worker_output result with
        | Some o => set_risk_agent_output (dump_risk_output o) context
        | None => context
        end in
      let context :=
        match Risk.evaluation result with
        | Some ev =>
          set_risk_agent_output
            (<["evaluation" := VDict (dump_risk_evaluation ev)]>
               (py_or (risk_agent_output context) ∅)) context
        | None => context
        end in
      let context :=
        match Risk.error result with
        | Some e =>
          if truthy_str (Some e)
          then set_risk_agent_output
                 (<["error" := VStr e]> (py_or (risk_agent_output context) ∅)) context
          else context
        | None => context
        end in
      (context, w')
    | (Raises e, w', _) =>
      (set_risk_agent_output (<["error" := VStr e]> ∅) context, w')
    end
  end.

(** [route_next_subgraph]: a reply outside the literal fails to parse, and
    every exception leads to the fallback router. *)
Definition route_next_subgraph (context : DecisionContext) (w : World)
  : outcome string * World :=
  if truthy (final_decision context) then (Returns "END", w)
  else
    match router_chain (llm_calls w) with
    | Returns next_action =>
      if bool_decide (next_action ∈ next_actions)
      then (Returns next_action, tick_llm 1 w)
      else (Returns (fallback_router context), tick_llm 1 w)
    | Raises _ => (Returns (fallback_router context), tick_llm 1 w)
    end.

(** [final_decision_node] *)
Definition final_decision_node (context : DecisionContext) (w : World)
  : DecisionContext * World :=
  match final_chain (llm_calls w) with
  | Returns decision =>
    (set_decision_agent_output (dump_decision decision)
       (set_final_decision (dump_decision decision) context), tick_llm 1 w)
  | Raises e => (set_final_decision (safe_fallback e) context, tick_llm 1 w)
  end.

(** [create_hierarchical_graph] *)
Definition create_hierarchical_graph : StateGraph DecisionContext :=
  add_edge "final_decision" END
    (add_conditional_edges "risk_subgraph" route_next_subgraph routing_table
    (add_conditional_edges "sentiment_subgraph" route_next_subgraph routing_table
    (add_conditional_edges "market_subgraph" route_next_subgraph routing_table
    (add_conditional_edges "supervisor" route_next_subgraph routing_table
    (set_entry_point "supervisor"
    (add_node "final_decision" final_decision_node
    (add_node "risk_subgraph" risk_subgraph_node
    (add_node "sentiment_subgraph" sentiment_subgraph_node
    (add_node "market_subgraph" market_subgraph_node
    (add_node "supervisor" supervisor_agent empty_graph)))))))))).

End Nodes.
End Hierarchical.

(** ** Deterministic stand-ins for the external collaborators *)

Module Stubs.

Definition market_output : Market.MarketWorkerOutput :=
  {| Market.rsi := 55; Market.rsi_signal := "neutral";
     Market.ema_short := 101; Market.ema_long := 100; Market.ema_signal := "bullish";
     Market.volume_ratio := 1; Market.volume_signal := "normal";
     Market.trend_direction := "bullish"; Market.trend_strength := 1 # 10 |}.

Definition market_facts : string → list Q → list Q → outcome Market.MarketWorkerOutput :=
  λ _ _ _, Returns market_output.

Definition market_rejection : Market.MarketEvaluation :=
  {| Market.is_valid := false; Market.confidence := 3 # 10;
     Market.quality_score := 4 # 10;
     Market.issues := ["RSI and trend disagree"];
     Market.summary := "inconsistent"; Market.recommendation := "recheck" |}.

Definition market_approval : Market.MarketEvaluation :=
  {| Market.is_valid := true; Market.confidence := 9 # 10;
     Market.quality_score := 9 # 10;
     Market.issues := [];
     Market.summary := "consistent"; Market.recommendation := "use" |}.

Definition market_rejects : nat → Market.MarketWorkerOutput → outcome Market.MarketEvaluation :=
  λ _ _, Returns market_rejection.

Definition market_approves : nat → Market.MarketWorkerOutput → outcome Market.MarketEvaluation :=
  λ _ _, Returns market_approval.

Definition market_fails : nat → Market.MarketWorkerOutput → outcome Market.MarketEvaluation :=
  λ _ _, Raises "request timed out".

Definition risk_rejection : Risk.RiskEvaluation :=
  {| Risk.is_valid := false; Risk.confidence := 2 # 10;
     Risk.quality_score := 3 # 10;
     Risk.issues := ["no stop loss was checked"];
     Risk.summary := "incomplete"; Risk.recommendation := "add a stop loss" |}.

Definition risk_rejects : nat → Risk.RiskWorkerOutput → outcome Risk.RiskEvaluation :=
  λ _ _, Returns risk_rejection.

Definition answers_abort : nat → string := λ _, "a".

Definition fmt_2f : Q → string := λ _, "0.00".

Definition unbound_evaluation : exn :=
  "cannot access local variable 'evaluation' where it is not associated with a value".

Definition sentiment_output : gmap string pyval :=
  <["aggregate_sentiment" := VFloat (1 # 4)]> (<["sentiment_label" := VStr "positive"]> ∅).

Definition sentiment_subgraph
  : string → World → outcome Hierarchical.SentimentResult * World :=
  λ _ w, (Returns {| Hierarchical.sentiment_worker_output := Some sentiment_output;
                     Hierarchical.sentiment_evaluation := None;
                     Hierarchical.sentiment_error := None |}, w).

Definition supervisor_fails : nat → outcome Hierarchical.SupervisorPlan :=
  λ _, Raises "request timed out".

Definition router_fails : nat → outcome string := λ _, Raises "request timed out".

Definition final_fails : nat → outcome Hierarchical.FinalTradingDecision :=
  λ _, Raises "request timed out".

Definition buy_decision : Hierarchical.FinalTradingDecision :=
  {| Hierarchical.action := "buy"; Hierarchical.confidence := 8 # 10;
     Hierarchical.quantity := 1; Hierarchical.reasoning := "signals agree";
     Hierarchical.risk_approved := true;
     Hierarchical.stop_loss := None; Hierarchical.take_profit := None |}.

Definition final_buys : nat → outcome Hierarchical.FinalTradingDecision :=
  λ _, Returns buy_decision.

Definition start : World := {| llm_calls := 0; stdin_reads := 0 |}.

Definition prices : list Q := [100; 101; 102; 103; 104]%Q.
Definition volumes : list Q := [1000; 1100; 1050; 1200; 1150]%Q.

(** The price series of [tests/test_tools.py]. *)
Definition test_prices : list Q :=
  [100; 101; 102; 103; 102; 101; 100; 99; 98; 99; 100; 101; 102; 103; 104]%Q.

Definition market_start : Market.MarketSubgraphState :=
  Market.initial_state "BTC/USD" prices volumes.

(** A market state on which the worker has run and two rejections have been
    counted. *)
Definition market_after_two_rejections : Market.MarketSubgraphState :=
  {| Market.symbol := "BTC/USD"; Market.prices := prices; Market.volumes := volumes;
     Market.worker_output := Some market_output;
     Market.evaluation := Some market_rejection;
     Market.retry_count := 2; Market.max_retries := 2;
     Market.evaluator_feedback := None;
     Market.completed := false; Market.error := None |}.

Definition context_start : Hierarchical.DecisionContext :=
  Hierarchical.new_context "BTC/USD" "Decision for BTC/USD" prices volumes None [].

(** The context once the market and sentiment branches have written their
    outputs. *)
Definition context_before_risk : Hierarchical.DecisionContext :=
  Hierarchical.set_sentiment_agent_output sentiment_output
    (Hierarchical.set_market_agent_output
       (Hierarchical.dump_market_output market_output) context_start).

End Stubs.

(** ** The other indicators and the worker's facts:
    [ai_engine/tools/market.py], [ai_engine/agents/market/worker.py] *)

Module MarketIndicators.
Import MarketTools.

(** Comparisons and products of NumPy floats: a comparison with [nan] is
    false, a product with [nan] is [nan]. *)
Definition np_lt (a b : npfloat) : bool :=
  match a, b with
  | Num x, Num y => Qlt_bool x y
  | _, _ => false
  end.

Definition np_scale (a : npfloat) (k : Q) : npfloat :=
  match a with
  | Num x => Num (x * k)
  | NaN => NaN
  end.

(** [abs(x)] and [min(a, b)] *)
Definition py_abs (x : Q) : Q := if Qlt_bool x 0 then (- x)%Q else x.

Definition py_min (a b : Q) : Q := if Qlt_bool b a then b else a.

(** One turn of the loop of [calculate_ema]. *)
Definition ema_step (multiplier ema price : Q) : Q :=
  (price * multiplier + ema * (1 - multiplier))%Q.

(** [calculate_ema]. The mean of the short branch is [nan] on an empty list;
    [2 / (period + 1)] raises for [period = -1], and [prices[0]] raises on an
    empty list. *)
Definition calculate_ema (prices : list Q) (period : Z) : outcome npfloat :=
  if (Z.of_nat (length prices) <? period)%Z then Returns (np_mean prices)
  else if (period + 1 =? 0)%Z then Raises "division by zero"
  else
    let multiplier := (2 / inject_Z (period + 1))%Q in
    match prices with
    | [] => Raises "list index out of range"
    | first :: rest => Returns (Num (fold_left (ema_step multiplier) rest first))
    end.

(** [get_trend_direction] *)
Definition get_trend_direction (prices : list Q) : outcome string :=
  if length prices <? 3 then Returns "neutral"
  else
    match calculate_ema (slice_from (-10) prices) 5,
          calculate_ema (slice_from (-20) prices) 10 with
    | Returns short_ema, Returns long_ema =>
      if np_lt (np_scale long_ema (101 # 100)) short_ema then Returns "bullish"
      else if np_lt short_ema (np_scale long_ema (99 # 100)) then Returns "bearish"
      else Returns "neutral"
    | Raises e, _ => Raises e
    | _, Raises e => Raises e
    end.

(** The dictionary returned by [get_market_indicators]. *)
Record MarketIndicators := {
  symbol : string;
  current_price : Q;
  rsi : npfloat;
  ema_20 : npfloat;
  ema_50 : npfloat;
  trend : string;
  volume_avg : npfloat;
  volume_current : Q;
  price_change_24h : Q;
  rsi_signal : string
}.

(** [xs[-n]] for [n] positive and at most [len(xs)]. *)
Definition nth_from_end (n : nat) (xs : list Q) : option Q := xs !! (length xs - n).

(** The [price_change_24h] entry: the division raises when the price 24
    places from the end is zero. *)
Definition price_change (prices : list Q) : outcome Q :=
  if 24 <=? length prices then
    match last prices, nth_from_end 24 prices with
    | Some latest, Some before =>
      match RiskTools.float_div (latest - before) before with
      | Returns r => Returns (r * 100)%Q
      | Raises e => Raises e
      end
    | _, _ => Raises "list index out of range"
    end
  else Returns 0%Q.

Definition rsi_signal_of (r : npfloat) : string :=
  if np_lt (Num 70) r then "overbought"
  else if np_lt r (Num 30) then "oversold"
  else "neutral".

(** [get_market_indicators] *)
Definition get_market_indicators (sym : string) (prices volumes : list Q)
  : outcome MarketIndicators :=
  let current := default 0%Q (last prices) in
  let r := calculate_rsi prices default_period in
  match calculate_ema prices 20, calculate_ema prices 50,
        get_trend_direction prices, price_change prices with
  | Returns e20, Returns e50, Returns tr, Returns change =>
    Returns {| symbol := sym;
               current_price := current;
               rsi := r;
               ema_20 := e20;
               ema_50 := e50;
               trend := tr;
               volume_avg :=
                 match volumes with
                 | [] => Num 0
                 | _ => np_mean (slice_from (-20) volumes)
                 end;
               volume_current := default 0%Q (last volumes);
               price_change_24h := change;
               rsi_signal := rsi_signal_of r |}
  | Raises e, _, _, _ => Raises e
  | _, Raises e, _, _ => Raises e
  | _, _, Raises e, _ => Raises e
  | _, _, _, Raises e => Raises e
  end.

(** The arguments of the [MarketWorkerOutput(...)] call of [market_worker]. *)
Record MarketFacts := {
  facts_rsi : npfloat;
  facts_rsi_signal : string;
  ema_short : npfloat;
  ema_long : npfloat;
  ema_signal : string;
  volume_ratio : Q;
  volume_signal : string;
  trend_direction : string;
  trend_strength : Q
}.

(** The [try] block of [market_worker] up to the [MarketWorkerOutput(...)]
    call. Every key the worker looks up is present in the dictionary, so no
    default of a [get] is used. *)
Definition market_worker_facts (sym : string) (prices volumes : list Q)
  : outcome MarketFacts :=
  match get_market_indicators sym prices volumes with
  | Raises e => Raises e
  | Returns indicators =>
    let e20 := ema_20 indicators in
    let e50 := ema_50 indicators in
    let ema_signal :=
      if np_lt e50 e20 then "bullish"
      else if np_lt e20 e50 then "bearish"
      else "neutral" in
    let ratio :=
      match volume_avg indicators with
      | Num avg =>
        if Qlt_bool 0 avg then (volume_current indicators / avg)%Q else 1%Q
      | NaN => 1%Q
      end in
    let volume_signal :=
      if Qlt_bool (15 # 10) ratio then "high"
      else if Qlt_bool ratio (5 # 10) then "low"
      else "normal" in
    let change := py_abs (price_change_24h indicators) in
    Returns {| facts_rsi := rsi indicators;
               facts_rsi_signal := rsi_signal indicators;
               ema_short := e20;
               ema_long := e50;
               ema_signal := ema_signal;
               volume_ratio := ratio;
               volume_signal := volume_signal;
               trend_direction := trend indicators;
               trend_strength := py_min (change / 10) 1 |}
  end.

End MarketIndicators.

(** ** [graph/engine.py]: the decision engine *)

Module Engine.
Import LangGraph Hierarchical.

(** [a or b] on two optional dicts. *)
Definition py_or_opt (a b : option (gmap string pyval)) : option (gmap string pyval) :=
  if truthy a then a else b.

Definition VOptDict (o : option (gmap string pyval)) : pyval :=
  match o with Some d => VDict d | None => VNone end.

(** The loop that turns the enriched rules into descriptions; [format_rule]
    is its body, which reads keys of the rule and fails when one is
    missing. *)
Fixpoint format_rules (format_rule : pyval → outcome string) (rules : list pyval)
  : outcome (list string) :=
  match rules with
  | [] => Returns []
  | rule :: rest =>
    match format_rule rule with
    | Raises e => Raises e
    | Returns rule_str =>
      match format_rules format_rule rest with
      | Returns strs => Returns (rule_str :: strs)
      | Raises e => Raises e
      end
    end
  end.

(** The dictionary used when the workflow produced no decision. *)
Definition no_decision (timestamp : string) : gmap string pyval :=
  <["action" := VStr "hold"]>
  (<["confidence" := VFloat 0]>
  (<["reasoning" := VStr "No decision produced by workflow"]>
  (<["timestamp" := VStr timestamp]> ∅))).

(** The dictionary of the [except] branch of [decide]. *)
Definition workflow_error (timestamp : string) (e : exn) : gmap string pyval :=
  <["action" := VStr "hold"]>
  (<["confidence" := VFloat 0]>
  (<["reasoning" := VStr ("Error in decision workflow: " +:+ e)]>
  (<["timestamp" := VStr timestamp]>
  (<["error" := VStr e]> ∅)))).

Section Decide.
Variable market_facts : string → list Q → list Q → outcome Market.MarketWorkerOutput.
Variable market_chain : nat → Market.MarketWorkerOutput → outcome Market.MarketEvaluation.
Variable risk_chain : nat → Risk.RiskWorkerOutput → outcome Risk.RiskEvaluation.
Variable console : nat → string.
Variable fmt_2f : Q → string.
Variable unbound_evaluation : exn.
Variable sentiment_subgraph : string → World → outcome SentimentResult * World.
Variable supervisor_chain : nat → outcome SupervisorPlan.
Variable router_chain : nat → outcome string.
Variable final_chain : nat → outcome FinalTradingDecision.
(** The body of the rule loop, the clock ([datetime.utcnow().isoformat()]
    and the elapsed milliseconds), and whether the executor hands back a
    [DecisionContext] rather than a dict of its fields. *)
Variable format_rule : pyval → outcome string.
Variable timestamp : string.
Variable processing_time_ms : Q.
Variable result_is_context : bool.

(** [DecisionEngine.decide], with [rules] the value of [kwargs.get("rules", [])]. *)
Definition decide (symbol : string) (prices volumes : list Q) (user_request : string)
    (rules : list pyval) (w : World) : gmap string pyval * World :=
  match format_rules format_rule rules with
  | Raises e => (workflow_error timestamp e, w)
  | Returns trading_rules =>
    let request_id :=
      if bool_decide (user_request = "") then "Decision for " +:+ symbol
      else user_request in
    let context :=
      new_context symbol request_id prices volumes (Some user_request) trading_rules in
    let graph :=
      create_hierarchical_graph market_facts market_chain risk_chain console fmt_2f
        unbound_evaluation sentiment_subgraph supervisor_chain router_chain final_chain in
    match invoke graph default_recursion_limit context w with
    | (Raises e, w', _) => (workflow_error timestamp e, w')
    | (Returns result, w', _) =>
      let final_decision :=
        py_or_opt (final_decision result) (decision_agent_output result) in
      let final_decision :=
        match final_decision with
        | None => no_decision timestamp
        | Some d => d
        end in
      let final_decision :=
        <["processing_time_ms" := VFloat processing_time_ms]> final_decision in
      let final_decision := <["symbol" := VStr symbol]> final_decision in
      let final_decision :=
        if result_is_context then
          let final_decision :=
            <["supervisor_plan" := VOptDict (supervisor_plan result)]> final_decision in
          match rules with
          | [] => final_decision
          | _ => <["enriched_rules" := VList rules]> final_decision
          end
        else final_decision in
      (final_decision, w')
    end
  end.

End Decide.
End Engine.

(** ** Further stand-ins for the external collaborators *)

Module Scenarios.

(** A judgment function that rejects its first call and approves the next. *)
Definition market_rejects_once
  : nat → Market.MarketWorkerOutput → outcome Market.MarketEvaluation :=
  λ n _, if n <? 1 then Returns Stubs.market_rejection else Returns Stubs.market_approval.

(** A judgment function whose first call fails and whose next call parses. *)
Definition market_fails_once
  : nat → Market.MarketWorkerOutput → outcome Market.MarketEvaluation :=
  λ n _, if n <? 1 then Raises "request timed out" else Returns Stubs.market_approval.

Definition risk_approval : Risk.RiskEvaluation :=
  {| Risk.is_valid := true; Risk.confidence := 9 # 10;
     Risk.quality_score := 9 # 10;
     Risk.issues := [];
     Risk.summary := "within limits"; Risk.recommendation := "proceed" |}.

Definition risk_fails_once : nat → Risk.RiskWorkerOutput → outcome Risk.RiskEvaluation :=
  λ n _, if n <? 1 then Raises "request timed out" else Returns risk_approval.

Definition risk_fails : nat → Risk.RiskWorkerOutput → outcome Risk.RiskEvaluation :=
  λ n _, match n with
         | 0 => Raises "request timed out"
         | 1 => Raises "rate limit reached"
         | _ => Raises "reply is not valid JSON"
         end.

(** An error text of 300 characters that ends in an opening brace: once the
    braces are doubled, the cut at 300 characters falls between the two. *)
Definition brace_at_cut : exn :=
  String.concat "" (replicate 299 "x") +:+ "{".

Definition risk_fails_on_brace
  : nat → Risk.RiskWorkerOutput → outcome Risk.RiskEvaluation :=
  λ _ _, Raises brace_at_cut.

(** A user who always asks for another attempt. *)
Definition answers_retry : nat → string := λ _, "y".

Definition risk_start : Risk.RiskSubgraphState :=
  Risk.initial_state "BTC/USD" 104 "buy" 1.

Definition risk_output : Risk.RiskWorkerOutput :=
  {| Risk.stop_loss_check := true; Risk.stop_loss_message := "";
     Risk.position_size_check := true; Risk.position_size_message := "";
     Risk.exposure_check := true; Risk.exposure_message := "";
     Risk.all_checks_passed := true; Risk.risk_level := "low" |}.

(** A risk state on which the worker has run. *)
Definition risk_after_worker : Risk.RiskSubgraphState :=
  {| Risk.symbol := "BTC/USD"; Risk.current_price := 104;
     Risk.proposed_action := "buy"; Risk.proposed_quantity := 1;
     Risk.stop_loss := None; Risk.take_profit := None;
     Risk.worker_output := Some risk_output; Risk.evaluation := None;
     Risk.retry_count := 0; Risk.max_retries := 2;
     Risk.evaluator_feedback := None;
     Risk.completed := false; Risk.error := None |}.

(** A sale of a position entered at 110, with the price at 104. *)
Definition risk_sell : Risk.RiskSubgraphState :=
  {| Risk.symbol := "BTC/USD"; Risk.current_price := 104;
     Risk.proposed_action := "sell"; Risk.proposed_quantity := 1;
     Risk.stop_loss := Some 110%Q; Risk.take_profit := None;
     Risk.worker_output := None; Risk.evaluation := None;
     Risk.retry_count := 0; Risk.max_retries := 2;
     Risk.evaluator_feedback := None;
     Risk.completed := false; Risk.error := None |}.

Definition router_ends : nat → outcome string := λ _, Returns "END".

(** A sentiment subgraph that reports nothing. *)
Definition sentiment_silent
  : string → World → outcome Hierarchical.SentimentResult * World :=
  λ _ w, (Returns {| Hierarchical.sentiment_worker_output := None;
                     Hierarchical.sentiment_evaluation := None;
                     Hierarchical.sentiment_error := None |}, w).

Definition format_rule : pyval → outcome string := λ _, Returns "RSI rule: BUY when rsi < 30".

Definition timestamp : string := "2025-01-01T00:00:00".

Definition processing_time_ms : Q := 1250.

End Scenarios.

(** * Properties *)

(** ** The executor *)

Section ExecutorSteps.
Import LangGraph.
Context {St : Type}.
Implicit Types (g : StateGraph St) (s : St) (w : World).

Lemma resolve_next_static g cur s w t :
  edges g !! cur = Some t → resolve_next g cur s w = (Returns t, w).
Proof. intros H. unfold resolve_next. by rewrite H. Qed.

Lemma resolve_next_conditional g cur s w decider table v w' t :
  edges g !! cur = None →
  conditional_edges g !! cur = Some (decider, table) →
  decider s w = (Returns v, w') → table !! v = Some t →
  resolve_next g cur s w = (Returns t, w').
Proof. intros H1 H2 H3 H4. unfold resolve_next. by rewrite H1, H2, H3, H4. Qed.

Lemma resolve_next_raises g cur s w decider table e w' :
  edges g !! cur = None →
  conditional_edges g !! cur = Some (decider, table) →
  decider s w = (Raises e, w') →
  resolve_next g cur s w = (Raises e, w').
Proof. intros H1 H2 H3. unfold resolve_next. by rewrite H1, H2, H3. Qed.

(** A node whose successor is the terminal marker ends the run. *)
Lemma run_last g fuel cur s w f s' w' w'' :
  nodes g !! cur = Some f → f s w = (s', w') →
  resolve_next g cur s' w' = (Returns END, w'') →
  run g (S fuel) cur s w = (Returns s', w'', [(cur, s)]).
Proof. intros H1 H2 H3. cbn [run]. by rewrite H1, H2, H3. Qed.

(** A node whose successor is another node hands the state over. *)
Lemma run_next g fuel cur s w f s' w' w'' t :
  nodes g !! cur = Some f → f s w = (s', w') →
  resolve_next g cur s' w' = (Returns t, w'') → t ≠ END →
  run g (S fuel) cur s w =
  let '(r, wf, tr) := run g fuel t s' w'' in (r, wf, (cur, s) :: tr).
Proof.
  intros H1 H2 H3 H4. cbn [run]. rewrite H1, H2, H3.
  by rewrite bool_decide_eq_false_2.
Qed.

(** An exception of the decider ends the run with that exception. *)
Lemma run_decider_raises g fuel cur s w f s' w' w'' e :
  nodes g !! cur = Some f → f s w = (s', w') →
  resolve_next g cur s' w' = (Raises e, w'') →
  run g (S fuel) cur s w = (Raises e, w'', [(cur, s)]).
Proof. intros H1 H2 H3. cbn [run]. by rewrite H1, H2, H3. Qed.

End ExecutorSteps.


(** ** The market subgraph *)

Section MarketRun.
Import LangGraph Market.

Variable market_facts : string → list Q → list Q → outcome MarketWorkerOutput.
Variable market_chain : nat → MarketWorkerOutput → outcome MarketEvaluation.
Variable fmt_2f : Q → string.
Variable unbound_evaluation : exn.

Local Abbreviation worker := (market_worker market_facts).
Local Abbreviation evaluator := (market_evaluator market_chain fmt_2f unbound_evaluation).
Local Abbreviation subgraph :=
  (create_market_subgraph market_facts market_chain fmt_2f unbound_evaluation).

Lemma market_subgraph_compiles : compile_ok subgraph = true.
Proof. vm_compute. reflexivity. Qed.

(** One step of the executor at each of the two nodes. *)
Lemma run_worker fuel s w :
  run subgraph (S fuel) "worker" s w =
  let '(r, wf, tr) := run subgraph fuel "evaluator" (worker s) w in
  (r, wf, ("worker", s) :: tr).
Proof. reflexivity. Qed.

Lemma run_evaluator fuel s w :
  run subgraph (S fuel) "evaluator" s w =
  let '(s', w') := evaluator s w in
  if bool_decide (should_retry_worker s' = END)
  then (Returns s', w', [("evaluator", s)])
  else let '(r, wf, tr) := run subgraph fuel "worker" s' w' in
       (r, wf, ("evaluator", s) :: tr).
Proof.
  cbn [run].
  change (nodes subgraph !! "evaluator") with (Some evaluator).
  cbn beta iota. destruct (evaluator s w) as [s' w'].
  unfold resolve_next.
  change (edges subgraph !! "evaluator") with (@None string).
  change (conditional_edges subgraph !! "evaluator")
    with (Some (pure_decider should_retry_worker,
                (<["worker" := "worker"]> (<[END := END]> ∅) : gmap string string))).
  cbn beta iota. unfold pure_decider, should_retry_worker.
  destruct (evaluation s') as [ev|]; [|reflexivity].
  destruct (is_valid ev); [reflexivity|].
  destruct (max_retries s' <? retry_count s')%Z; reflexivity.
Qed.

Lemma should_retry_cases s :
  should_retry_worker s = END ∨ should_retry_worker s = "worker".
Proof.
  unfold should_retry_worker. destruct (evaluation s) as [ev|]; [|by left].
  destruct (is_valid ev); [by left|].
  destruct (max_retries s <? retry_count s)%Z; [by left | by right].
Qed.

(** What the worker returns, whatever it was given. *)
Lemma worker_counters s :
  retry_count (worker s) = 0%Z ∧ max_retries (worker s) = 2%Z.
Proof. unfold market_worker. by destruct (market_facts _ _ _). Qed.

(** The [except] branch of the evaluator. *)
Lemma evaluator_except s w e w' :
  market_evaluator_try market_chain fmt_2f unbound_evaluation s w = (Raises e, w') →
  let s' := (evaluator s w).1 in
  evaluation s' = Some (failed_evaluation e) ∧ completed s' = true
  ∧ retry_count s' = 0%Z ∧ max_retries s' = 2%Z
  ∧ error s' = Some ("Evaluator failed: " +:+ e).
Proof. intros H. unfold market_evaluator. rewrite H. by cbn. Qed.

Lemma attempt_loop_all_fail n clock out :
  (∀ k, k < n → ∃ e, market_chain (clock + k) out = Raises e) →
  attempt_loop market_chain n clock out = (None, n).
Proof.
  revert clock. induction n as [|n IH]; intros clock H; [done|].
  cbn [attempt_loop].
  destruct (H 0) as [e He]; [lia|]. rewrite Nat.add_0_r in He. rewrite He.
  rewrite IH; [done|]. intros k Hk.
  destruct (H (S k)) as [e' He']; [lia|]. exists e'.
  by replace (S clock + k) with (clock + S k) by lia.
Qed.

Lemma attempt_loop_first_reply n clock out ev :
  market_chain clock out = Returns ev →
  attempt_loop market_chain (S n) clock out = (Some ev, 1).
Proof. intros H. cbn [attempt_loop]. by rewrite H. Qed.

(** A reply of the loop is a reply of the chain. *)
Lemma attempt_loop_reply n clock out ev k :
  attempt_loop market_chain n clock out = (Some ev, k) →
  ∃ c, market_chain c out = Returns ev.
Proof.
  revert clock k. induction n as [|n IH]; intros clock k; [done|].
  cbn [attempt_loop]. destruct (market_chain clock out) as [ev'|e] eqn:E.
  - intros [= <- <-]. eauto.
  - destruct (attempt_loop market_chain n (S clock) out) as [r k'] eqn:E'.
    intros [= -> <-]. eauto.
Qed.

(** The [try] body, when it returns, has bound [evaluation] to a reply. *)
Lemma evaluator_try_returns s w s' w' :
  market_evaluator_try market_chain fmt_2f unbound_evaluation s w = (Returns s', w') →
  ∃ out ev c,
    worker_output s = Some out ∧ market_chain c out = Returns ev
    ∧ evaluation s' = Some ev ∧ completed s' = is_valid ev ∧ error s' = None
    ∧ max_retries s' = max_retries s
    ∧ retry_count s' = (if is_valid ev then retry_count s else retry_count s + 1)%Z.
Proof.
  unfold market_evaluator_try. destruct (worker_output s) as [out|]; [|done].
  destruct (attempt_loop _ _ _ _) as [[ev|] k] eqn:E; [|done].
  intros [= <- <-]. apply attempt_loop_reply in E as [c Hc].
  exists out, ev, c. by cbn.
Qed.

Lemma evaluator_keeps_retrying_on_reject s w :
  (∀ c out, ∃ ev, market_chain c out = Returns ev ∧ is_valid ev = false) →
  retry_count s = 0%Z → max_retries s = 2%Z →
  should_retry_worker (evaluator s w).1 = "worker".
Proof.
  intros Hrej Hr Hm. unfold market_evaluator.
  destruct (market_evaluator_try _ _ _ s w) as [[s'|e] w'] eqn:E.
  - apply evaluator_try_returns in E as (out & ev & c & _ & Hc & Hev & _ & _ & Hm' & Hr').
    destruct (Hrej c out) as (ev' & Hc' & Hinv). rewrite Hc in Hc'.
    injection Hc' as <-. rewrite Hinv in Hr'.
    cbn. unfold should_retry_worker. rewrite Hev, Hinv, Hm', Hr', Hm, Hr. done.
  - done.
Qed.

Lemma evaluator_try_fails s w :
  (∀ c out, ∃ e, market_chain c out = Raises e) →
  ∃ e w', market_evaluator_try market_chain fmt_2f unbound_evaluation s w = (Raises e, w').
Proof.
  intros Hfail. unfold market_evaluator_try.
  destruct (worker_output s) as [out|]; [|eauto].
  rewrite attempt_loop_all_fail; [eauto|]. intros k _. apply Hfail.
Qed.

(** C1 (as the code behaves). With a judgment function that rejects on every
    call, the market subgraph never terminates by itself: whatever the step
    budget, the initial state and the oracle position, [invoke] ends by
    exhausting the budget. The worker hands back a state whose [retry_count]
    and [max_retries] are the schema defaults, so the guard
    [retry_count > max_retries] of [should_retry_worker] never holds. *)
Theorem market_always_reject_exhausts_budget :
  (∀ c out, ∃ ev, market_chain c out = Returns ev ∧ is_valid ev = false) →
  ∀ limit s w, (invoke subgraph limit s w).1.1 = Raises step_limit_exceeded.
Proof.
  intros Hrej limit. unfold invoke.
  change (entry_point subgraph) with "worker".
  enough (H : (∀ s w, (run subgraph limit "worker" s w).1.1
                      = Raises step_limit_exceeded)
              ∧ (∀ s w, retry_count s = 0%Z → max_retries s = 2%Z →
                        (run subgraph limit "evaluator" s w).1.1
                        = Raises step_limit_exceeded)) by apply H.
  induction limit as [|limit [IHw IHe]]; [by split|]. split.
  - intros s w. rewrite run_worker.
    destruct (worker_counters s) as [Hr Hm]. specialize (IHe (worker s) w Hr Hm).
    by destruct (run subgraph limit "evaluator" (worker s) w) as [[r wf] tr].
  - intros s w Hr Hm. rewrite run_evaluator.
    pose proof (evaluator_keeps_retrying_on_reject s w Hrej Hr Hm) as Hnext.
    destruct (evaluator s w) as [s' w']. cbn in Hnext. rewrite Hnext.
    rewrite bool_decide_eq_false_2 by done. specialize (IHw s' w').
    by destruct (run subgraph limit "worker" s' w') as [[r wf] tr].
Qed.

(** C2 (as the code behaves). The worker lowers the counter: invoked on a
    state whose [retry_count] is positive, as after any rejection, it returns
    a state whose [retry_count] is 0. *)
Theorem market_worker_lowers_retry_count s :
  (0 < retry_count s)%Z →
  retry_count (market_worker market_facts s) = 0%Z
  ∧ (retry_count (market_worker market_facts s) < retry_count s)%Z.
Proof. intros H. destruct (worker_counters s) as [-> _]. done. Qed.




(** C4 (as the code behaves). When every call of the judgment function fails,
    the evaluator's [except] branch sets [completed = true] with its default
    evaluation, the exit decision still answers "worker", and the third node
    invocation of the run is the worker on that completed state. *)
Theorem market_completed_state_reenters_worker limit s w :
  (∀ c out, ∃ e, market_chain c out = Raises e) →
  3 ≤ limit →
  ∃ s2, (invoke subgraph limit s w).2 !! 2 = Some ("worker", s2)
        ∧ completed s2 = true
        ∧ ∃ e, evaluation s2 = Some (failed_evaluation e).
Proof.
  intros Hfail Hlimit.
  destruct limit as [|[|[|fuel]]]; [lia..|]. unfold invoke.
  change (entry_point subgraph) with "worker".
  rewrite run_worker, run_evaluator.
  destruct (evaluator_try_fails (worker s) w Hfail) as (e & w' & Htry).
  pose proof (evaluator_except _ _ _ _ Htry) as (Hev & Hcomp & Hr & Hm & _).
  destruct (evaluator (worker s) w) as [s2 w2]. cbn in Hev, Hcomp, Hr, Hm.
  assert (Hnext : should_retry_worker s2 = "worker").
  { unfold should_retry_worker. by rewrite Hev, Hr, Hm. }
  rewrite Hnext, bool_decide_eq_false_2 by done. rewrite run_worker.
  destruct (run subgraph fuel "evaluator" (worker s2) w2) as [[r wf] tr].
  exists s2. cbn. eauto.
Qed.

(** The evaluator returns an evaluation on every input. *)
Lemma market_evaluator_total s w : is_Some (evaluation (evaluator s w).1).
Proof.
  unfold market_evaluator.
  destruct (market_evaluator_try _ _ _ s w) as [[s'|e] w'] eqn:E; cbn; [|done].
  apply evaluator_try_returns in E as (_ & ev & _ & _ & _ & -> & _). done.
Qed.

End MarketRun.

(** ** The market evaluator when the judgment function keeps failing *)

Section MarketEvaluatorFailure.
Import LangGraph Market.

Variable fmt_2f : Q → string.
Variable unbound_evaluation : exn.

(** C8 (as the code behaves). When each of the three calls of the judgment
    function fails, the market evaluator still returns a state, after exactly
    three calls, whose evaluation has [is_valid = false], [confidence = 0]
    and [quality_score = 0]. Its one issue does not describe the failure: the
    handler of the attempt loop never re-raises, the loop falls through with
    the local [evaluation] unbound, and the issue quotes that
    [UnboundLocalError]; any other judgment function that fails three times
    gives the very same state. A first reply that parses is stored as the
    evaluation. On every input the state returned carries an evaluation. *)
Theorem market_evaluator_failure_hides_cause chain s w out :
  worker_output s = Some out →
  (∀ k, k < evaluator_attempts → ∃ e, chain (llm_calls w + k) out = Raises e) →
  let result := market_evaluator chain fmt_2f unbound_evaluation s w in
  (∃ ev, evaluation result.1 = Some ev
         ∧ is_valid ev = false ∧ confidence ev = 0%Q ∧ quality_score ev = 0%Q
         ∧ issues ev = ["Evaluation failed: " +:+ unbound_evaluation])
  ∧ error result.1 = Some ("Evaluator failed: " +:+ unbound_evaluation)
  ∧ completed result.1 = true
  ∧ result.2 = tick_llm 3 w
  ∧ (∀ chain',
       (∀ k, k < evaluator_attempts → ∃ e, chain' (llm_calls w + k) out = Raises e) →
       market_evaluator chain' fmt_2f unbound_evaluation s w = result)
  ∧ (∀ chain' ev,
       chain' (llm_calls w) out = Returns ev →
       evaluation (market_evaluator chain' fmt_2f unbound_evaluation s w).1 = Some ev)
  ∧ (∀ chain' s0 w0,
       is_Some (evaluation (market_evaluator chain' fmt_2f unbound_evaluation s0 w0).1)).
Proof.
  intros Hout Hfail.
  assert (Hall : ∀ chain',
             (∀ k, k < evaluator_attempts → ∃ e, chain' (llm_calls w + k) out = Raises e) →
             market_evaluator chain' fmt_2f unbound_evaluation s w
             = ({| symbol := symbol s; prices := prices s; volumes := volumes s;
                   worker_output := worker_output s;
                   evaluation := Some (failed_evaluation unbound_evaluation);
                   retry_count := default_retry_count;
                   max_retries := default_max_retries;
                   evaluator_feedback := None;
                   completed := true;
                   error := Some ("Evaluator failed: " +:+ unbound_evaluation) |},
                tick_llm 3 w)).
  { intros chain' Hfail'. unfold market_evaluator, market_evaluator_try.
    by rewrite Hout, (attempt_loop_all_fail chain' _ _ _ Hfail'). }
  cbn zeta. rewrite (Hall chain Hfail). cbn [fst snd evaluation error completed].
  split_and!; try done.
  - by exists (failed_evaluation unbound_evaluation).
  - intros chain' ev Hok. unfold market_evaluator, market_evaluator_try.
    rewrite Hout. unfold evaluator_attempts.
    by rewrite (attempt_loop_first_reply chain' _ _ _ _ Hok).
  - intros chain' s0 w0. apply market_evaluator_total.
Qed.

End MarketEvaluatorFailure.

(** ** Risk checks *)

Section RiskChecks.
Import RiskTools.

Lemma is_buy_false action : action ≠ "buy" → is_buy action = false.
Proof. intros H. unfold is_buy. by apply bool_decide_eq_false_2. Qed.

Lemma position_size_step_not_buy action size balance params c :
  action ≠ "buy" → position_size_step action size balance params c = c.
Proof. intros H. unfold position_size_step. by rewrite is_buy_false. Qed.

Lemma exposure_step_not_buy action positions balance params c :
  action ≠ "buy" → unblocked c →
  unblocked (exposure_step action positions balance params c).
Proof.
  intros H Hc. unfold exposure_step. rewrite is_buy_false by done.
  by rewrite andb_false_r.
Qed.

Lemma volatility_step_not_buy action vol params c :
  action ≠ "buy" → unblocked c → unblocked (volatility_step action vol params c).
Proof.
  intros H Hc. unfold volatility_step. rewrite is_buy_false by done.
  by destruct (negb _).
Qed.

Lemma float_div_nonzero x y : ¬ (y == 0)%Q → float_div x y = Returns (x / y)%Q.
Proof.
  intros H. unfold float_div.
  destruct (Qeq_bool y 0) eqn:E; [|done]. by apply Qeq_bool_iff in E.
Qed.

Lemma float_div_zero x y : (y == 0)%Q → ∃ e, float_div x y = Raises e.
Proof. intros H. unfold float_div. apply Qeq_bool_iff in H. rewrite H. eauto. Qed.

Lemma stop_loss_step_not_buy action price entry params c :
  action ≠ "buy" → unblocked c →
  (∀ p, entry = Some p → ¬ (p == 0)%Q) →
  ∃ c', stop_loss_step action price entry params c = Returns c' ∧ unblocked c'.
Proof.
  intros H Hc Hentry. unfold stop_loss_step.
  destruct entry as [p|]; [|eauto]. rewrite is_buy_false by done. cbn [negb].
  unfold check_stop_loss. rewrite float_div_nonzero by eauto.
  eexists; split; [done|]. by destruct (triggered _).
Qed.

(** C9 (amended). For every call of [check_risk_constraints] whose proposed
    action is not "buy" and whose entry price is absent or not zero, the call
    returns, with [all_checks_passed] true, no blocker and the risk signal
    "proceed", whatever the proposed size, the account balance, the current
    positions, the volatility and the risk parameters. *)
Theorem non_buy_action_never_blocked
    sym action size price balance positions entry vol params :
  action ≠ "buy" →
  (∀ p, entry = Some p → ¬ (p == 0)%Q) →
  ∃ r, check_risk_constraints sym action size price balance positions entry vol params
       = Returns r
       ∧ all_checks_passed r = true ∧ blockers r = []
       ∧ risk_signal r = Some "proceed".
Proof.
  intros Hbuy Hentry. unfold check_risk_constraints.
  rewrite position_size_step_not_buy by done.
  match goal with
  | |- context [stop_loss_step _ _ _ ?ps ?c] =>
    destruct (stop_loss_step_not_buy action price entry ps c) as (c' & -> & Hp & Hb)
  end; [done| |done|].
  { apply volatility_step_not_buy, exposure_step_not_buy; done. }
  eexists; split; [done|]. unfold final_recommendation. by rewrite Hp.
Qed.

End RiskChecks.

(** ** The RSI indicator *)

Section RSI.
Import MarketTools.

Lemma np_diff_length xs : length (np_diff xs) = length xs - 1.
Proof.
  induction xs as [|a [|b rest] IH]; [done..|].
  change (np_diff (a :: b :: rest)) with ((b - a)%Q :: np_diff (b :: rest)).
  cbn [length] in *. lia.
Qed.

(** The slice [xs[-period:]] of a non-positive period that reaches past the
    end of the array is empty. *)
Lemma slice_from_past_end (period : Z) (xs : list Q) :
  (period ≤ 0)%Z → (Z.of_nat (length xs) ≤ - period)%Z →
  slice_from (- period) xs = [].
Proof.
  intros Hp Hlen. unfold slice_from.
  destruct (Z.ltb_spec (- period) 0); [lia|].
  apply drop_ge. lia.
Qed.

(** C10. [calculate_rsi] returns 50 when the price list has fewer than
    [period + 1] elements, whatever the period. Its result is not always a
    number between 0 and 100: with a period of 0 or less, and a price list of
    at least [period + 1] and at most [1 - period] elements, the two averages
    are means of empty arrays and the result is [nan]; so it is for every
    single price with period 0. *)
Theorem calculate_rsi_nan_on_degenerate_period prices period :
  ((Z.of_nat (length prices) < period + 1)%Z → calculate_rsi prices period = Num 50)
  ∧ ((period ≤ 0)%Z → (period + 1 ≤ Z.of_nat (length prices))%Z →
     (Z.of_nat (length prices) ≤ 1 - period)%Z →
     np_mean (slice_from (- period) (gains_of (np_diff prices))) = NaN
     ∧ np_mean (slice_from (- period) (losses_of (np_diff prices))) = NaN
     ∧ calculate_rsi prices period = NaN
     ∧ ¬ in_0_100 (calculate_rsi prices period))
  ∧ (∀ p, calculate_rsi [p] 0 = NaN).
Proof.
  split_and!.
  - intros H. unfold calculate_rsi.
    destruct (Z.ltb_spec (Z.of_nat (length prices)) (period + 1)); [done | lia].
  - intros Hp Hlo Hhi.
    assert (Hslice : ∀ f : Q → Q, slice_from (- period) (map f (np_diff prices)) = []).
    { intros f. apply slice_from_past_end; [done|].
      rewrite length_map, np_diff_length. lia. }
    assert (Hrsi : calculate_rsi prices period = NaN).
    { unfold calculate_rsi.
      destruct (Z.ltb_spec (Z.of_nat (length prices)) (period + 1)); [lia|].
      unfold losses_of. by rewrite Hslice. }
    unfold gains_of, losses_of. rewrite !Hslice, Hrsi. split_and!; try done.
    intros [].
  - done.
Qed.

End RSI.

(** ** The risk subgraph *)

Section RiskRun.
Import LangGraph Risk.

Variable risk_chain : nat → RiskWorkerOutput → outcome RiskEvaluation.
Variable console : nat → string.
Variable fmt_2f : Q → string.
Variable unbound_evaluation : exn.

Local Abbreviation risk_graph :=
  (create_risk_subgraph risk_chain console fmt_2f unbound_evaluation).

Lemma risk_subgraph_compiles : compile_ok risk_graph = true.
Proof. vm_compute. reflexivity. Qed.

Lemma float_of_int_small z :
  (Z.abs z < int_float_limit)%Z → float_of_int z = Returns (inject_Z z).
Proof.
  intros H. unfold float_of_int.
  destruct (Z.leb_spec int_float_limit (Z.abs z)); [lia | done].
Qed.

Lemma float_of_int_large z :
  (int_float_limit ≤ Z.abs z)%Z →
  float_of_int z = Raises "int too large to convert to float".
Proof.
  intros H. unfold float_of_int.
  destruct (Z.leb_spec int_float_limit (Z.abs z)); [done | lia].
Qed.

(** From its initial state, where no stop loss is set, the worker succeeds
    when the quantity converts to a float. *)
Lemma risk_worker_initial sym price action quantity :
  (Z.abs quantity < int_float_limit)%Z →
  ∃ out,
    risk_worker (initial_state sym price action quantity)
    = {| symbol := sym; current_price := price;
         proposed_action := action; proposed_quantity := quantity;
         stop_loss := None; take_profit := None;
         worker_output := Some out; evaluation := None;
         retry_count := 0; max_retries := 2;
         evaluator_feedback := None; completed := false; error := None |}.
Proof.
  intros Hq. unfold risk_worker, risk_checks_of. cbn [proposed_quantity initial_state].
  rewrite (float_of_int_small _ Hq). eexists. reflexivity.
Qed.

(** A rejection on the first attempt followed by the answer [a]: the exit
    decision raises, and so does [invoke]. *)
Lemma risk_abort_raises limit sym price action quantity w :
  (Z.abs quantity < int_float_limit)%Z →
  2 ≤ limit →
  (∀ out, ∃ ev, risk_chain (llm_calls w) out = Returns ev ∧ is_valid ev = false) →
  console (stdin_reads w) = "a" →
  ∃ tr, invoke risk_graph limit (initial_state sym price action quantity) w
        = (Raises user_aborted, tick_stdin (tick_llm 1 w), tr).
Proof.
  intros Hq Hlimit Hrej Hans. destruct limit as [|[|fuel]]; [lia..|].
  destruct (risk_worker_initial sym price action quantity Hq) as [out Hworker].
  destruct (Hrej out) as (ev & Hchain & Hinv).
  unfold invoke. change (entry_point risk_graph) with "worker".
  erewrite run_next; [| reflexivity | reflexivity | by apply resolve_next_static | done].
  rewrite Hworker.
  erewrite run_decider_raises; [eauto | reflexivity | |].
  - unfold risk_evaluator, risk_evaluator_try. cbn [worker_output].
    unfold evaluator_attempts. cbn [attempt_loop]. rewrite Hchain. by rewrite Hinv.
  - eapply resolve_next_raises; [reflexivity..|].
    unfold should_retry_worker. cbn [evaluation retry_count max_retries].
    rewrite Hinv. cbn [tick_llm stdin_reads]. rewrite Hans. done.
Qed.

End RiskRun.

(** ** The parent graph *)

Section Pipeline.
Import LangGraph Hierarchical.

Variable market_facts : string → list Q → list Q → outcome Market.MarketWorkerOutput.
Variable market_chain : nat → Market.MarketWorkerOutput → outcome Market.MarketEvaluation.
Variable risk_chain : nat → Risk.RiskWorkerOutput → outcome Risk.RiskEvaluation.
Variable console : nat → string.
Variable fmt_2f : Q → string.
Variable unbound_evaluation : exn.
Variable sentiment_subgraph : string → World → outcome SentimentResult * World.
Variable supervisor_chain : nat → outcome SupervisorPlan.
Variable router_chain : nat → outcome string.
Variable final_chain : nat → outcome FinalTradingDecision.

Local Abbreviation graph :=
  (create_hierarchical_graph market_facts market_chain risk_chain console fmt_2f
     unbound_evaluation sentiment_subgraph supervisor_chain router_chain final_chain).
Local Abbreviation risk_node :=
  (risk_subgraph_node risk_chain console fmt_2f unbound_evaluation).
Local Abbreviation final_node := (final_decision_node final_chain).
Local Abbreviation router := (route_next_subgraph router_chain).

Lemma hierarchical_graph_compiles : compile_ok graph = true.
Proof. vm_compute. reflexivity. Qed.

(** Every conditional edge of the graph carries the same table. *)
Lemma conditional_edges_table src decider table :
  conditional_edges graph !! src = Some (decider, table) →
  decider = router ∧ table = routing_table.
Proof.
  cbn. rewrite !lookup_insert. repeat case_decide; rewrite ?lookup_empty;
    intros [= <- <-]; done.
Qed.

Lemma fallback_router_cases context :
  fallback_router context ∈ next_actions.
Proof.
  unfold fallback_router, next_actions.
  repeat (destruct (negb _); [set_solver|]). set_solver.
Qed.

(** C7. The fallback router is a total function of the context. It returns
    the first branch, in the order market, sentiment, risk, whose output is
    absent ([None] or empty), else "final_decision" when no final decision is
    set, else "END"; and the value is a key of the table of every conditional
    edge of the graph, which sends it to a declared node or to the terminal
    marker. *)
Theorem fallback_router_total_and_declared context :
  fallback_router context
  = match List.find (λ b, negb (truthy (b.2 context))) priority_order with
    | Some b => b.1
    | None => if negb (truthy (final_decision context)) then "final_decision" else "END"
    end
  ∧ fallback_router context ∈ next_actions
  ∧ (∃ t, routing_table !! fallback_router context = Some t ∧ declared graph t = true)
  ∧ (∀ src decider table,
       conditional_edges graph !! src = Some (decider, table) →
       is_Some (table !! fallback_router context)).
Proof.
  assert (Htable : ∃ t, routing_table !! fallback_router context = Some t
                        ∧ declared graph t = true).
  { unfold fallback_router.
    repeat (destruct (negb _); [eexists; split; [reflexivity | by vm_compute]|]).
    eexists; split; [reflexivity | by vm_compute]. }
  split_and!.
  - unfold fallback_router. cbn.
    by repeat (destruct (negb _); [done|]).
  - apply fallback_router_cases.
  - done.
  - intros src decider table [_ ->]%conditional_edges_table.
    destruct Htable as (t & -> & _). done.
Qed.

(** The two extreme contexts: nothing has run, and everything has. *)
Lemma fallback_router_empty sym req ps vs ur rules :
  fallback_router (new_context sym req ps vs ur rules) = "market_subgraph".
Proof. reflexivity. Qed.

Lemma fallback_router_full context :
  truthy (market_agent_output context) = true →
  truthy (sentiment_agent_output context) = true →
  truthy (risk_agent_output context) = true →
  truthy (final_decision context) = true →
  fallback_router context = "END".
Proof. intros H1 H2 H3 H4. unfold fallback_router. by rewrite H1, H2, H3, H4. Qed.

(** On every path the node leaves a final decision. *)
Lemma final_decision_node_always_decides context w :
  truthy (final_decision (final_node context w).1) = true.
Proof. unfold final_decision_node. by destruct (final_chain _). Qed.

Lemma final_decision_is_last context w :
  resolve_next graph "final_decision" context w = (Returns END, w).
Proof. by apply resolve_next_static. Qed.

(** A run in which the aggregator is invoked ends there, normally, with the
    context the aggregator returned. *)
Lemma run_through_final_decision fuel cur context w r wf tr :
  run graph fuel cur context w = (r, wf, tr) →
  "final_decision" ∈ tr.*1 →
  ∃ c0 w1, last tr = Some ("final_decision", c0)
           ∧ r = Returns (final_node c0 w1).1.
Proof.
  revert cur context w r wf tr. induction fuel as [|fuel IH]; intros cur context w r wf tr.
  { intros [= <- <- <-] Hin. by apply elem_of_nil in Hin. }
  cbn [run]. destruct (nodes graph !! cur) as [f|] eqn:Hnode.
  2: { intros [= <- <- <-] Hin. by apply elem_of_nil in Hin. }
  destruct (f context w) as [c' w'] eqn:Hf.
  destruct (resolve_next graph cur c' w') as [[t|e] w''] eqn:Hres.
  - case_bool_decide as Ht.
    + intros [= <- <- <-] Hin. cbn in Hin. apply list_elem_of_singleton in Hin.
      subst cur. change (nodes graph !! "final_decision") with (Some final_node) in Hnode.
      injection Hnode as <-. exists context, w. by rewrite Hf.
    + destruct (run graph fuel t c' w'') as [[r' wf'] tr'] eqn:E.
      intros [= <- <- <-] Hin. cbn [fmap list_fmap fst] in Hin.
      apply elem_of_cons in Hin as [Hcur | Hin].
      * subst cur. rewrite final_decision_is_last in Hres. by injection Hres as <- _.
      * destruct (IH _ _ _ _ _ _ E Hin) as (c0 & w1 & Hlast & ->).
        exists c0, w1. split; [|done].
        destruct tr' as [|p tr']; [done|]. by rewrite last_cons_cons.
  - intros [= <- <- <-] Hin. cbn in Hin. apply list_elem_of_singleton in Hin.
    subst cur. by rewrite final_decision_is_last in Hres.
Qed.

(** C6. The final-decision node stores the aggregator's decision; when the
    aggregator's chain fails with [e], it writes the safe fallback instead:
    action "hold", confidence 0, quantity 0, risk not approved, and a
    reasoning that quotes [e]. Either way a final decision is present in the
    context it returns, and the run ends at that node. So every run in which
    the aggregator is invoked, from whatever node, context and step budget
    it started, ends normally with a final decision present. *)
Theorem final_decision_node_safe_fallback context w :
  let context' := (final_node context w).1 in
  match final_chain (llm_calls w) with
  | Raises e =>
    final_decision context' = Some (safe_fallback e)
    ∧ decision_agent_output context' = decision_agent_output context
    ∧ safe_fallback e !! "action" = Some (VStr "hold")
    ∧ safe_fallback e !! "confidence" = Some (VFloat 0)
    ∧ safe_fallback e !! "quantity" = Some (VInt 0)
    ∧ safe_fallback e !! "risk_approved" = Some (VBool false)
    ∧ safe_fallback e !! "reasoning" = Some (VStr ("Error in decision synthesis: " +:+ e))
  | Returns decision =>
    final_decision context' = Some (dump_decision decision)
    ∧ decision_agent_output context' = Some (dump_decision decision)
  end
  ∧ truthy (final_decision context') = true
  ∧ (∀ fuel, run graph (S fuel) "final_decision" context w
             = (Returns context', tick_llm 1 w, [("final_decision", context)]))
  ∧ (∀ fuel cur c0 w0 r wf tr,
       run graph fuel cur c0 w0 = (r, wf, tr) →
       "final_decision" ∈ tr.*1 →
       ∃ final, r = Returns final ∧ truthy (final_decision final) = true).
Proof.
  cbn zeta. split_and!.
  - unfold final_decision_node. destruct (final_chain _) as [d|e]; by split_and!.
  - apply final_decision_node_always_decides.
  - intros fuel. eapply run_last; [reflexivity | | apply final_decision_is_last].
    unfold final_decision_node. by destruct (final_chain _).
  - intros fuel cur c0 w0 r wf tr Hrun Hin.
    destruct (run_through_final_decision _ _ _ _ _ _ _ Hrun Hin) as (c1 & w1 & _ & ->).
    eexists. split; [reflexivity|]. apply final_decision_node_always_decides.
Qed.

(** The risk bridge, when the user answers [a]. *)
Lemma risk_node_abort context w :
  truthy (decision_agent_output context) = false →
  (∀ out, ∃ ev, risk_chain (llm_calls w) out = Returns ev ∧ Risk.is_valid ev = false) →
  console (stdin_reads w) = "a" →
  risk_node context w
  = (set_risk_agent_output (<["error" := VStr Risk.user_aborted]> ∅) context,
     tick_stdin (tick_llm 1 w)).
Proof.
  intros Hd Hrej Hans. unfold risk_subgraph_node, proposed_trade. rewrite Hd.
  destruct (risk_abort_raises risk_chain console fmt_2f unbound_evaluation
              default_recursion_limit (symbol context)
              (current_price_of (prices context)) "buy" 1 w) as [tr ->];
    [by vm_compute | unfold default_recursion_limit; lia | done..].
Qed.

(** C5 (as the code behaves). The user answers [a] to the escalation of a
    rejected risk evaluation. The bridge node catches the exception: it
    returns the context with the message stored under [risk_agent_output] and
    the run goes on. With the market and sentiment outputs present and the
    router on its fallback, the next node is the aggregator and the run ends
    with a final decision present. *)
Theorem user_abort_run_still_decides fuel context w :
  truthy (decision_agent_output context) = false →
  truthy (market_agent_output context) = true →
  truthy (sentiment_agent_output context) = true →
  truthy (final_decision context) = false →
  (∀ out, ∃ ev, risk_chain (llm_calls w) out = Returns ev ∧ Risk.is_valid ev = false) →
  console (stdin_reads w) = "a" →
  (∃ e, router_chain (S (llm_calls w)) = Raises e) →
  ∃ context' final wf,
    risk_node context w = (context', tick_stdin (tick_llm 1 w))
    ∧ risk_agent_output context' = Some (<["error" := VStr Risk.user_aborted]> ∅)
    ∧ run graph (S (S fuel)) "risk_subgraph" context w
      = (Returns final, wf, [("risk_subgraph", context); ("final_decision", context')])
    ∧ truthy (final_decision final) = true
    ∧ risk_agent_output final = Some (<["error" := VStr Risk.user_aborted]> ∅).
Proof.
  intros Hd Hm Hs Hf Hrej Hans [e He].
  pose proof (risk_node_abort context w Hd Hrej Hans) as Hnode.
  set (context' := set_risk_agent_output (<["error" := VStr Risk.user_aborted]> ∅) context)
    in *.
  set (w' := tick_stdin (tick_llm 1 w)) in *.
  assert (Hroute : router context' w' = (Returns "final_decision", tick_llm 1 w')).
  { unfold route_next_subgraph. cbn [final_decision context' set_risk_agent_output].
    rewrite Hf. cbn [w' tick_stdin tick_llm llm_calls].
    replace (llm_calls w + 1) with (S (llm_calls w)) by lia. rewrite He.
    unfold fallback_router.
    cbn [market_agent_output sentiment_agent_output risk_agent_output final_decision
         context' set_risk_agent_output].
    rewrite Hm, Hs, Hf. done. }
  exists context', (final_node context' (tick_llm 1 w')).1,
         (final_node context' (tick_llm 1 w')).2.
  split_and!; [exact Hnode | reflexivity | | apply final_decision_node_always_decides |].
  - erewrite run_next;
      [ | reflexivity | exact Hnode
        | eapply resolve_next_conditional;
            [reflexivity | reflexivity | exact Hroute | reflexivity]
        | done ].
    erewrite run_last; [reflexivity | reflexivity | apply surjective_pairing |].
    by apply resolve_next_static.
  - unfold final_decision_node. by destruct (final_chain _).
Qed.

End Pipeline.

(** ** Concrete runs *)

Import LangGraph.

(** Scenario A of the specification on the code: [max_retries = 2] and a
    judgment function that always rejects. Within the default recursion limit
    the subgraph alternates between its two nodes, and the retry counter seen
    by the nodes alternates between 0 and 1. *)
Example market_scenario_A_counters :
  let '(r, _, tr) :=
    invoke (Market.create_market_subgraph Stubs.market_facts Stubs.market_rejects
              Stubs.fmt_2f Stubs.unbound_evaluation)
           default_recursion_limit Stubs.market_start Stubs.start in
  r = Raises step_limit_exceeded
  ∧ length tr = 25
  ∧ take 7 (map fst tr)
    = ["worker"; "evaluator"; "worker"; "evaluator"; "worker"; "evaluator"; "worker"]
  ∧ take 7 (Market.retry_counts tr) = [0; 0; 1; 0; 1; 0; 1]%Z
  ∧ Forall (λ n, (n ≤ 1)%Z) (Market.retry_counts tr).
Proof. vm_compute. split_and!; try reflexivity. repeat constructor; discriminate. Qed.

(** Scenario B on the code: the first verdict is valid. *)
Example market_scenario_B :
  let '(r, _, tr) :=
    invoke (Market.create_market_subgraph Stubs.market_facts Stubs.market_approves
              Stubs.fmt_2f Stubs.unbound_evaluation)
           default_recursion_limit Stubs.market_start Stubs.start in
  ∃ s, r = Returns s ∧ Market.retry_count s = 0%Z ∧ Market.completed s = true
       ∧ map fst tr = ["worker"; "evaluator"].
Proof. vm_compute. eexists. split_and!; reflexivity. Qed.

Lemma market_always_reject_exhausts_budget_witness :
  (∀ c out, ∃ ev, Stubs.market_rejects c out = Returns ev ∧ Market.is_valid ev = false)
  ∧ (invoke (Market.create_market_subgraph Stubs.market_facts Stubs.market_rejects
               Stubs.fmt_2f Stubs.unbound_evaluation)
            default_recursion_limit Stubs.market_start Stubs.start).1.1
    = Raises step_limit_exceeded.
Proof.
  assert (H : ∀ (c : nat) (out : Market.MarketWorkerOutput),
             ∃ ev, Stubs.market_rejects c out = Returns ev ∧ Market.is_valid ev = false).
  { intros c out. exists Stubs.market_rejection. split; reflexivity. }
  split; [exact H|].
  apply (market_always_reject_exhausts_budget Stubs.market_facts Stubs.market_rejects
           Stubs.fmt_2f Stubs.unbound_evaluation H).
Defined.

Lemma market_worker_lowers_retry_count_witness :
  (0 < Market.retry_count Stubs.market_after_two_rejections)%Z
  ∧ Market.retry_count
      (Market.market_worker Stubs.market_facts Stubs.market_after_two_rejections) = 0%Z
  ∧ (Market.retry_count
       (Market.market_worker Stubs.market_facts Stubs.market_after_two_rejections)
     < Market.retry_count Stubs.market_after_two_rejections)%Z.
Proof.
  assert (H : (0 < Market.retry_count Stubs.market_after_two_rejections)%Z)
    by (vm_compute; reflexivity).
  split; [exact H|].
  apply (market_worker_lowers_retry_count Stubs.market_facts _ H).
Defined.

(** C3 on Scenario A: in the 25 steps of the run with a judgment function
    that always rejects, the evaluator is invoked twelve times, each time on
    a state with [retry_count = 0], and each time it hands on a state with
    [retry_count = 1] and the decision "worker". *)
Example market_scenario_A_exit_decisions :
  let graph := Market.create_market_subgraph Stubs.market_facts Stubs.market_rejects
                 Stubs.fmt_2f Stubs.unbound_evaluation in
  let tr := (invoke graph default_recursion_limit Stubs.market_start Stubs.start).2 in
  let handed :=
    map (λ p, (Market.market_evaluator Stubs.market_rejects Stubs.fmt_2f
                 Stubs.unbound_evaluation p.2 Stubs.start).1)
        (filter (λ p, p.1 = "evaluator") tr) in
  length handed = 12
  ∧ Forall (λ s', Market.retry_count s' = 1%Z ∧ Market.max_retries s' = 2%Z
                  ∧ Market.completed s' = false
                  ∧ Market.should_retry_worker s' = "worker") handed.
Proof. vm_compute. split; [reflexivity|]. repeat constructor. Qed.

Lemma market_completed_state_reenters_worker_witness :
  (∀ c out, ∃ e, Stubs.market_fails c out = Raises e)
  ∧ 3 ≤ default_recursion_limit
  ∧ ∃ s2,
      (invoke (Market.create_market_subgraph Stubs.market_facts Stubs.market_fails
                 Stubs.fmt_2f Stubs.unbound_evaluation)
              default_recursion_limit Stubs.market_start Stubs.start).2 !! 2
      = Some ("worker", s2)
      ∧ Market.completed s2 = true
      ∧ ∃ e, Market.evaluation s2 = Some (Market.failed_evaluation e).
Proof.
  assert (H : ∀ (c : nat) (out : Market.MarketWorkerOutput),
             ∃ e, Stubs.market_fails c out = Raises e)
    by (intros c out; eexists; reflexivity).
  assert (H3 : 3 ≤ default_recursion_limit) by (unfold default_recursion_limit; lia).
  split_and!; [exact H | exact H3 |].
  apply (market_completed_state_reenters_worker Stubs.market_facts Stubs.market_fails
           Stubs.fmt_2f Stubs.unbound_evaluation _ _ _ H H3).
Defined.

(** C8 on the state the worker returns for the BTC/USD request, with a
    judgment function that times out on every call: the issue and the error
    quote the unbound local, not the timeout. *)
Lemma market_evaluator_failure_hides_cause_witness :
  let s := Market.market_worker Stubs.market_facts Stubs.market_start in
  let result := Market.market_evaluator Stubs.market_fails Stubs.fmt_2f
                  Stubs.unbound_evaluation s Stubs.start in
  Market.worker_output s = Some Stubs.market_output
  ∧ (∀ k, k < Market.evaluator_attempts →
          ∃ e, Stubs.market_fails (llm_calls Stubs.start + k) Stubs.market_output = Raises e)
  ∧ (∃ ev, Market.evaluation result.1 = Some ev
           ∧ Market.is_valid ev = false ∧ Market.confidence ev = 0%Q
           ∧ Market.quality_score ev = 0%Q
           ∧ Market.issues ev = ["Evaluation failed: " +:+ Stubs.unbound_evaluation])
  ∧ Market.error result.1 = Some ("Evaluator failed: " +:+ Stubs.unbound_evaluation)
  ∧ result.2 = tick_llm 3 Stubs.start.
Proof.
  intros s result.
  assert (H1 : Market.worker_output s = Some Stubs.market_output) by reflexivity.
  assert (H2 : ∀ k, k < Market.evaluator_attempts →
                    ∃ e, Stubs.market_fails (llm_calls Stubs.start + k) Stubs.market_output
                         = Raises e)
    by (intros k _; eexists; reflexivity).
  split_and!; [exact H1 | exact H2 | | |];
    apply (market_evaluator_failure_hides_cause Stubs.fmt_2f Stubs.unbound_evaluation
             Stubs.market_fails s Stubs.start Stubs.market_output H1 H2).
Defined.

Example market_evaluator_timeout_issue :
  let s := Market.market_worker Stubs.market_facts Stubs.market_start in
  option_map Market.issues
    (Market.evaluation
       (Market.market_evaluator Stubs.market_fails Stubs.fmt_2f
          Stubs.unbound_evaluation s Stubs.start).1)
  = Some ["Evaluation failed: cannot access local variable 'evaluation' where it is not associated with a value"].
Proof. reflexivity. Qed.

(** The whole pipeline on the code, from the supervisor on: every chain but
    the aggregator's fails or rejects, so the router is on its fallback, and
    the user answers [a] to the risk escalation. The run ends normally: the
    abort is a message under [risk_agent_output] and the final decision is
    the aggregator's, here a risk-approved "buy". *)
Example pipeline_with_user_abort :
  let run_result :=
    invoke (Hierarchical.create_hierarchical_graph Stubs.market_facts Stubs.market_approves
              Stubs.risk_rejects Stubs.answers_abort Stubs.fmt_2f Stubs.unbound_evaluation
              Stubs.sentiment_subgraph Stubs.supervisor_fails Stubs.router_fails
              Stubs.final_buys)
           default_recursion_limit Stubs.context_start Stubs.start in
  map fst run_result.2
  = ["supervisor"; "market_subgraph"; "sentiment_subgraph"; "risk_subgraph";
     "final_decision"]
  ∧ match run_result.1.1 with
    | Returns final =>
      Hierarchical.risk_agent_output final ≫= (.!! "error")
      = Some (VStr "User aborted risk analysis")
      ∧ Hierarchical.final_decision final ≫= (.!! "action") = Some (VStr "buy")
      ∧ Hierarchical.final_decision final ≫= (.!! "risk_approved") = Some (VBool true)
    | Raises _ => False
    end.
Proof. vm_compute. repeat split. Qed.

Lemma user_abort_run_still_decides_witness :
  let context := Stubs.context_before_risk in
  let w := Stubs.start in
  (truthy (Hierarchical.decision_agent_output context) = false
   ∧ truthy (Hierarchical.market_agent_output context) = true
   ∧ truthy (Hierarchical.sentiment_agent_output context) = true
   ∧ truthy (Hierarchical.final_decision context) = false
   ∧ (∀ out, ∃ ev, Stubs.risk_rejects (llm_calls w) out = Returns ev
                   ∧ Risk.is_valid ev = false)
   ∧ Stubs.answers_abort (stdin_reads w) = "a"
   ∧ (∃ e, Stubs.router_fails (S (llm_calls w)) = Raises e))
  ∧ ∃ context' final wf,
      Hierarchical.risk_subgraph_node Stubs.risk_rejects Stubs.answers_abort
        Stubs.fmt_2f Stubs.unbound_evaluation context w
      = (context', tick_stdin (tick_llm 1 w))
      ∧ Hierarchical.risk_agent_output context'
        = Some (<["error" := VStr Risk.user_aborted]> ∅)
      ∧ run (Hierarchical.create_hierarchical_graph Stubs.market_facts
               Stubs.market_approves Stubs.risk_rejects Stubs.answers_abort
               Stubs.fmt_2f Stubs.unbound_evaluation Stubs.sentiment_subgraph
               Stubs.supervisor_fails Stubs.router_fails Stubs.final_buys)
            2 "risk_subgraph" context w
        = (Returns final, wf,
           [("risk_subgraph", context); ("final_decision", context')])
      ∧ truthy (Hierarchical.final_decision final) = true
      ∧ Hierarchical.risk_agent_output final
        = Some (<["error" := VStr Risk.user_aborted]> ∅).
Proof.
  intros context w.
  assert (H1 : truthy (Hierarchical.decision_agent_output context) = false)
    by reflexivity.
  assert (H2 : truthy (Hierarchical.market_agent_output context) = true)
    by (vm_compute; reflexivity).
  assert (H3 : truthy (Hierarchical.sentiment_agent_output context) = true)
    by (vm_compute; reflexivity).
  assert (H4 : truthy (Hierarchical.final_decision context) = false) by reflexivity.
  assert (H5 : ∀ out, ∃ ev, Stubs.risk_rejects (llm_calls w) out = Returns ev
                            ∧ Risk.is_valid ev = false)
    by (intros out; exists Stubs.risk_rejection; split; reflexivity).
  assert (H6 : Stubs.answers_abort (stdin_reads w) = "a") by reflexivity.
  assert (H7 : ∃ e, Stubs.router_fails (S (llm_calls w)) = Raises e)
    by (eexists; reflexivity).
  split; [by split_and!|].
  apply (user_abort_run_still_decides Stubs.market_facts Stubs.market_approves
           Stubs.risk_rejects Stubs.answers_abort Stubs.fmt_2f Stubs.unbound_evaluation
           Stubs.sentiment_subgraph Stubs.supervisor_fails Stubs.router_fails
           Stubs.final_buys 0 context w H1 H2 H3 H4 H5 H6 H7).
Defined.

(** Scenario D of the specification on the code: the aggregator's chain
    fails. The run reaches the aggregator as its fifth node and ends normally
    with the safe fallback as final decision. *)
Lemma final_decision_node_safe_fallback_witness :
  let graph :=
    Hierarchical.create_hierarchical_graph Stubs.market_facts Stubs.market_approves
      Stubs.risk_rejects Stubs.answers_abort Stubs.fmt_2f Stubs.unbound_evaluation
      Stubs.sentiment_subgraph Stubs.supervisor_fails Stubs.router_fails
      Stubs.final_fails in
  let result := invoke graph default_recursion_limit Stubs.context_start Stubs.start in
  "final_decision" ∈ result.2.*1
  ∧ ∃ final, result.1.1 = Returns final
             ∧ truthy (Hierarchical.final_decision final) = true.
Proof.
  intros graph result.
  assert (Hin : "final_decision" ∈ result.2.*1) by (vm_compute; repeat constructor).
  split; [exact Hin|].
  assert (Hrun : run graph default_recursion_limit (entry_point graph)
                   Stubs.context_start Stubs.start
                 = (result.1.1, result.1.2, result.2))
    by (unfold result, invoke; by destruct (run _ _ _ _ _) as [[? ?] ?]).
  exact (proj2 (proj2 (proj2
           (final_decision_node_safe_fallback Stubs.market_facts Stubs.market_approves
              Stubs.risk_rejects Stubs.answers_abort Stubs.fmt_2f
              Stubs.unbound_evaluation Stubs.sentiment_subgraph Stubs.supervisor_fails
              Stubs.router_fails Stubs.final_fails Stubs.context_start Stubs.start)))
           _ _ _ _ _ _ _ Hrun Hin).
Defined.

Example pipeline_scenario_D :
  let result :=
    invoke (Hierarchical.create_hierarchical_graph Stubs.market_facts
              Stubs.market_approves Stubs.risk_rejects Stubs.answers_abort Stubs.fmt_2f
              Stubs.unbound_evaluation Stubs.sentiment_subgraph Stubs.supervisor_fails
              Stubs.router_fails Stubs.final_fails)
           default_recursion_limit Stubs.context_start Stubs.start in
  map fst result.2
  = ["supervisor"; "market_subgraph"; "sentiment_subgraph"; "risk_subgraph";
     "final_decision"]
  ∧ match result.1.1 with
    | Returns final =>
      Hierarchical.final_decision final ≫= (.!! "action") = Some (VStr "hold")
      ∧ Hierarchical.final_decision final ≫= (.!! "confidence") = Some (VFloat 0)
      ∧ Hierarchical.final_decision final ≫= (.!! "quantity") = Some (VInt 0)
      ∧ Hierarchical.final_decision final ≫= (.!! "risk_approved") = Some (VBool false)
      ∧ Hierarchical.final_decision final ≫= (.!! "reasoning")
        = Some (VStr "Error in decision synthesis: request timed out")
    | Raises _ => False
    end.
Proof. vm_compute. repeat split. Qed.

(** The node on a chain that answers stores the answer under both keys. *)
Example final_decision_node_stores_answer :
  let context' :=
    (Hierarchical.final_decision_node Stubs.final_buys Stubs.context_before_risk
       Stubs.start).1 in
  Hierarchical.final_decision context'
  = Some (Hierarchical.dump_decision Stubs.buy_decision)
  ∧ Hierarchical.decision_agent_output context'
    = Some (Hierarchical.dump_decision Stubs.buy_decision).
Proof. split; reflexivity. Qed.

(** C9, as stated, fails: a "sell" whose entry price is 0 makes the stop-loss
    check divide by zero, and the call raises instead of returning a result. *)
Lemma non_buy_zero_entry_price_counterexample :
  ¬ ∃ r, RiskTools.check_risk_constraints "BTC/USD" "sell" 1000 50000 10000
           None (Some 0%Q) RiskTools.default_volatility None = Returns r
         ∧ RiskTools.all_checks_passed r = true ∧ RiskTools.blockers r = []
         ∧ RiskTools.risk_signal r = Some "proceed".
Proof. intros (r & H & _). vm_compute in H. discriminate H. Qed.

Example non_buy_zero_entry_price_raises :
  RiskTools.check_risk_constraints "BTC/USD" "sell" 1000 50000 10000
    None (Some 0%Q) RiskTools.default_volatility None
  = Raises "float division by zero".
Proof. reflexivity. Qed.

(** A "sell" that breaks the exposure and volatility limits, and whose size
    would break the position limit of a "buy": one warning, no blocker. *)
Example non_buy_violations_are_warnings :
  match RiskTools.check_risk_constraints "BTC/USD" "sell" 20000 50000 10000
          (Some (<["ETH/USD" := 9000%Q]> ∅)) (Some 48000%Q) (8 # 100) None with
  | Returns r =>
    RiskTools.warnings r = ["High volatility detected"]
    ∧ RiskTools.blockers r = []
    ∧ RiskTools.exposure_is_valid <$> RiskTools.exposure_check r = Some false
    ∧ RiskTools.volatility_is_valid <$> RiskTools.volatility_check r = Some false
    ∧ RiskTools.position_size_check r = None
  | Raises _ => False
  end.
Proof. vm_compute. repeat split. Qed.

Lemma non_buy_action_never_blocked_witness :
  "sell" ≠ "buy"
  ∧ (∀ p, Some 48000%Q = Some p → ¬ (p == 0)%Q)
  ∧ ∃ r, RiskTools.check_risk_constraints "BTC/USD" "sell" 20000 50000 10000
           (Some (<["ETH/USD" := 9000%Q]> ∅)) (Some 48000%Q) (8 # 100) None = Returns r
         ∧ RiskTools.all_checks_passed r = true ∧ RiskTools.blockers r = []
         ∧ RiskTools.risk_signal r = Some "proceed".
Proof.
  assert (H1 : "sell" ≠ "buy") by discriminate.
  assert (H2 : ∀ p, Some 48000%Q = Some p → ¬ (p == 0)%Q)
    by (intros p [= <-]; discriminate).
  split_and!; [exact H1 | exact H2 |].
  apply (non_buy_action_never_blocked _ _ _ _ _ _ _ _ _ H1 H2).
Defined.

(** C10 at the default period: the price series of the test suite is long
    enough and gives a number in the range. *)
Example calculate_rsi_test_series :
  MarketTools.in_0_100
    (MarketTools.calculate_rsi Stubs.test_prices MarketTools.default_period).
Proof. vm_compute. split; discriminate. Qed.

(** C10 at period 0 with the single price 5, and at period -1 with no price
    at all. *)
Lemma calculate_rsi_nan_on_degenerate_period_witness :
  (0 ≤ 0)%Z ∧ (0 + 1 ≤ Z.of_nat (length [5%Q]))%Z ∧ (Z.of_nat (length [5%Q]) ≤ 1 - 0)%Z
  ∧ MarketTools.calculate_rsi [5%Q] 0 = MarketTools.NaN
  ∧ ¬ MarketTools.in_0_100 (MarketTools.calculate_rsi [5%Q] 0).
Proof.
  assert (H1 : (0 ≤ 0)%Z) by lia.
  assert (H2 : (0 + 1 ≤ Z.of_nat (length [5%Q]))%Z) by (cbn; lia).
  assert (H3 : (Z.of_nat (length [5%Q]) ≤ 1 - 0)%Z) by (cbn; lia).
  split_and!; [exact H1 | exact H2 | exact H3 | |];
    apply (calculate_rsi_nan_on_degenerate_period [5%Q] 0); assumption.
Defined.

Example calculate_rsi_negative_period_is_nan :
  MarketTools.calculate_rsi [] (-1) = MarketTools.NaN.
Proof. reflexivity. Qed.

(** * Further properties of the code *)

(** ** Exits of the market subgraph *)

Section MarketExits.
Import Market.

Variable market_facts : string → list Q → list Q → outcome MarketWorkerOutput.
Variable market_chain : nat → MarketWorkerOutput → outcome MarketEvaluation.
Variable fmt_2f : Q → string.
Variable unbound_evaluation : exn.

Local Abbreviation market_graph :=
  (create_market_subgraph market_facts market_chain fmt_2f unbound_evaluation).

(** What the evaluator hands to the exit decision when it was given the
    counters the worker leaves. *)
Lemma evaluator_after_worker s w :
  retry_count s = 0%Z → max_retries s = 2%Z →
  let s' := (market_evaluator market_chain fmt_2f unbound_evaluation s w).1 in
  (should_retry_worker s' = "worker" ∧ ∃ ev, evaluation s' = Some ev ∧ is_valid ev = false)
  ∨ (should_retry_worker s' = END
     ∧ ∃ ev, evaluation s' = Some ev ∧ is_valid ev = true
             ∧ completed s' = true ∧ retry_count s' = 0%Z ∧ max_retries s' = 2%Z
             ∧ error s' = None ∧ is_Some (worker_output s')).
Proof.
  intros Hr Hm. cbn zeta. unfold market_evaluator.
  destruct (market_evaluator_try _ _ _ s w) as [[s1|e] w1] eqn:E; cbn [fst].
  - pose proof E as E'. apply evaluator_try_returns in E
      as (out & ev & c & Hout & _ & Hev & Hcomp & Herr & Hm' & Hr').
    assert (Hwo : worker_output s1 = worker_output s).
    { revert E'. unfold market_evaluator_try. rewrite Hout.
      destruct (attempt_loop _ _ _ _) as [[?|] ?]; [|done]. by intros [= <- _]. }
    unfold should_retry_worker. rewrite Hev.
    destruct (is_valid ev) eqn:Hv.
    + right. split; [done|]. exists ev. rewrite Hwo, Hout. split_and!; try done; congruence.
    + left. rewrite Hm', Hr', Hm, Hr. split; [done|]. eauto.
  - left. split; [done|]. eexists. split; [reflexivity|done].
Qed.

(** The states a run can return, from either node. *)
Lemma market_run_exits limit final :
  (∀ s w wf tr, run market_graph limit "worker" s w = (Returns final, wf, tr) →
     ∃ ev, evaluation final = Some ev ∧ is_valid ev = true
           ∧ completed final = true ∧ error final = None
           ∧ retry_count final = 0%Z ∧ max_retries final = 2%Z
           ∧ is_Some (worker_output final))
  ∧ (∀ s w wf tr, retry_count s = 0%Z → max_retries s = 2%Z →
     run market_graph limit "evaluator" s w = (Returns final, wf, tr) →
     ∃ ev, evaluation final = Some ev ∧ is_valid ev = true
           ∧ completed final = true ∧ error final = None
           ∧ retry_count final = 0%Z ∧ max_retries final = 2%Z
           ∧ is_Some (worker_output final)).
Proof.
  induction limit as [|limit [IHw IHe]]; [by split|]. split.
  - intros s w wf tr. rewrite run_worker.
    destruct (worker_counters market_facts s) as [Hr Hm].
    destruct (run market_graph limit "evaluator" _ w) as [[r wf'] tr'] eqn:E.
    intros [= -> <- <-]. by eapply IHe.
  - intros s w wf tr Hr Hm. rewrite run_evaluator.
    pose proof (evaluator_after_worker s w Hr Hm) as Hcases.
    destruct (market_evaluator _ _ _ s w) as [s1 w1]. cbn in Hcases.
    destruct Hcases as [[Hnext _] | [Hnext Hgood]]; rewrite Hnext.
    + rewrite bool_decide_eq_false_2 by done.
      destruct (run market_graph limit "worker" s1 w1) as [[r wf'] tr'] eqn:E.
      intros [= -> <- <-]. by eapply IHw.
    + rewrite bool_decide_eq_true_2 by done. intros [= <- <- <-].
      destruct Hgood as (ev & ? & ? & ? & ? & ? & ? & ?). exists ev. done.
Qed.

(** X1. The market subgraph has one normal exit: whenever [invoke] returns a
    state, whatever the judgment function, the facts, the step budget and the
    initial state, that state carries a valid evaluation, [completed] is
    true, no error is set and [retry_count] is 0, however many rejections
    came before; the exit on exhausted retries is never taken. *)
Theorem market_invoke_returns_only_valid limit s w final wf tr :
  invoke (create_market_subgraph market_facts market_chain fmt_2f unbound_evaluation)
         limit s w = (Returns final, wf, tr) →
  ∃ ev, evaluation final = Some ev ∧ is_valid ev = true
        ∧ completed final = true ∧ error final = None
        ∧ retry_count final = 0%Z ∧ max_retries final = 2%Z
        ∧ is_Some (worker_output final).
Proof.
  unfold invoke. change (entry_point market_graph) with "worker".
  apply (market_run_exits limit final).
Qed.

(** The worker followed by the evaluator, when the facts are available and
    the first reply of the judgment function parses. *)
Lemma worker_then_evaluator s w out ev :
  market_facts (symbol s) (prices s) (volumes s) = Returns out →
  market_chain (llm_calls w) out = Returns ev →
  ∃ s1, market_evaluator market_chain fmt_2f unbound_evaluation
          (market_worker market_facts s) w = (s1, tick_llm 1 w)
        ∧ symbol s1 = symbol s ∧ prices s1 = prices s ∧ volumes s1 = volumes s
        ∧ evaluation s1 = Some ev ∧ max_retries s1 = 2%Z
        ∧ retry_count s1 = (if is_valid ev then 0 else 1)%Z.
Proof.
  intros Hfacts Hchain. unfold market_evaluator, market_evaluator_try, market_worker.
  rewrite Hfacts. cbn [worker_output]. unfold evaluator_attempts.
  cbn [attempt_loop]. rewrite Hchain. eexists. split; [reflexivity|].
  cbn. by destruct (is_valid ev).
Qed.

(** X2. A run that is rejected [k] times and then accepted: when the facts
    are available, the first [k] replies of the judgment function are
    rejections and the next one is valid, a budget of [2 * (k + 1)] steps is
    enough; the run makes exactly [2 * (k + 1)] node invocations and [k + 1]
    calls of the judgment function, and it ends with the accepted evaluation
    and with [retry_count = 0], not [k]. *)
Theorem market_accept_after_rejections k extra s w out accepted :
  market_facts (symbol s) (prices s) (volumes s) = Returns out →
  (∀ j, j < k → ∃ ev, market_chain (llm_calls w + j) out = Returns ev
                      ∧ is_valid ev = false) →
  market_chain (llm_calls w + k) out = Returns accepted →
  is_valid accepted = true →
  ∃ final tr,
    invoke (create_market_subgraph market_facts market_chain fmt_2f unbound_evaluation)
           (2 * (k + 1) + extra) s w
    = (Returns final, tick_llm (k + 1) w, tr)
    ∧ length tr = 2 * (k + 1)
    ∧ evaluation final = Some accepted
    ∧ retry_count final = 0%Z.
Proof.
  unfold invoke. change (entry_point market_graph) with "worker".
  revert s w. induction k as [|k IH]; intros s w Hfacts Hrej Hacc Hvalid.
  - rewrite Nat.add_0_r in Hacc.
    destruct (worker_then_evaluator s w out accepted Hfacts Hacc)
      as (s1 & Hs1 & _ & _ & _ & Hev & Hm & Hr).
    rewrite Hvalid in Hr.
    change (2 * (0 + 1) + extra) with (S (S extra)).
    rewrite run_worker, run_evaluator, Hs1.
    assert (Hend : should_retry_worker s1 = END).
    { unfold should_retry_worker. by rewrite Hev, Hvalid. }
    rewrite Hend, bool_decide_eq_true_2 by done.
    exists s1, [("worker", s); ("evaluator", market_worker market_facts s)].
    done.
  - destruct (Hrej 0) as (ev & Hev0 & Hinv); [lia|]. rewrite Nat.add_0_r in Hev0.
    destruct (worker_then_evaluator s w out ev Hfacts Hev0)
      as (s1 & Hs1 & Hsym & Hps & Hvs & Hev & Hm & Hr).
    rewrite Hinv in Hr.
    replace (2 * (S k + 1) + extra) with (S (S (2 * (k + 1) + extra))) by lia.
    rewrite run_worker, run_evaluator, Hs1.
    assert (Hnext : should_retry_worker s1 = "worker").
    { unfold should_retry_worker. by rewrite Hev, Hinv, Hm, Hr. }
    rewrite Hnext, bool_decide_eq_false_2 by done.
    destruct (IH s1 (tick_llm 1 w)) as (final & tr & Hrun & Hlen & Hfinal & Hcount).
    + by rewrite Hsym, Hps, Hvs.
    + intros j Hj. destruct (Hrej (S j)) as (ev' & Hev' & Hinv'); [lia|].
      exists ev'. split; [|done]. cbn [tick_llm llm_calls].
      by replace (llm_calls w + 1 + j) with (llm_calls w + S j) by lia.
    + cbn [tick_llm llm_calls].
      by replace (llm_calls w + 1 + k) with (llm_calls w + S k) by lia.
    + done.
    + rewrite Hrun.
      exists final, (("worker", s) :: ("evaluator", market_worker market_facts s) :: tr).
      split_and!; [|cbn [length]; rewrite Hlen; lia|done..].
      do 2 f_equal. unfold tick_llm. cbn. f_equal. lia.
Qed.

(** The attempt loop returns the first reply that parses. *)
Lemma market_attempt_loop_first_success n k clock out ev :
  k < n →
  (∀ j, j < k → ∃ e, market_chain (clock + j) out = Raises e) →
  market_chain (clock + k) out = Returns ev →
  attempt_loop market_chain n clock out = (Some ev, S k).
Proof.
  revert n clock. induction k as [|k IH]; intros n clock Hn Hfail Hok;
    (destruct n as [|n]; [lia|]); cbn [attempt_loop].
  - rewrite Nat.add_0_r in Hok. by rewrite Hok.
  - destruct (Hfail 0) as [e He]; [lia|]. rewrite Nat.add_0_r in He. rewrite He.
    rewrite (IH n (S clock)); [done | lia | |].
    + intros j Hj. destruct (Hfail (S j)) as [e' He']; [lia|]. exists e'.
      by replace (S clock + j) with (clock + S j) by lia.
    + by replace (S clock + k) with (clock + S k) by lia.
Qed.

(** X3. The market evaluator survives failed calls of the judgment function:
    when fewer than three calls in a row fail and the next one returns a
    verdict, that verdict is the evaluation of the returned state, no error
    is recorded, [completed] is the verdict's [is_valid], the counter is
    incremented exactly when the verdict is a rejection, and one call of the
    judgment function is consumed per attempt. *)
Theorem market_evaluator_uses_first_parsed_reply k s w out ev :
  worker_output s = Some out →
  k < evaluator_attempts →
  (∀ j, j < k → ∃ e, market_chain (llm_calls w + j) out = Raises e) →
  market_chain (llm_calls w + k) out = Returns ev →
  let '(s', w') := market_evaluator market_chain fmt_2f unbound_evaluation s w in
  evaluation s' = Some ev ∧ error s' = None ∧ completed s' = is_valid ev
  ∧ retry_count s' = (if is_valid ev then retry_count s else retry_count s + 1)%Z
  ∧ max_retries s' = max_retries s
  ∧ worker_output s' = Some out
  ∧ w' = tick_llm (S k) w.
Proof.
  intros Hout Hk Hfail Hok. unfold market_evaluator, market_evaluator_try.
  rewrite Hout.
  rewrite (market_attempt_loop_first_success _ k _ _ ev Hk Hfail Hok).
  cbn. done.
Qed.

End MarketExits.

(** ** Runs of the risk subgraph *)

Section RiskExits.
Import Risk.

Variable risk_chain : nat → RiskWorkerOutput → outcome RiskEvaluation.
Variable console : nat → string.
Variable fmt_2f : Q → string.
Variable unbound_evaluation : exn.

Local Abbreviation risk_graph :=
  (create_risk_subgraph risk_chain console fmt_2f unbound_evaluation).
Local Abbreviation evaluator := (risk_evaluator risk_chain fmt_2f unbound_evaluation).
Local Abbreviation decider := (should_retry_worker console).

Lemma risk_run_worker fuel s w :
  run risk_graph (S fuel) "worker" s w =
  let '(r, wf, tr) := run risk_graph fuel "evaluator" (risk_worker s) w in
  (r, wf, ("worker", s) :: tr).
Proof. reflexivity. Qed.

Lemma risk_run_evaluator fuel s w :
  run risk_graph (S fuel) "evaluator" s w =
  let '(s', w') := evaluator s w in
  match decider s' w' with
  | (Raises e, w'') => (Raises e, w'', [("evaluator", s)])
  | (Returns t, w'') =>
    if bool_decide (t = END) then (Returns s', w'', [("evaluator", s)])
    else let '(r, wf, tr) := run risk_graph fuel "worker" s' w'' in
         (r, wf, ("evaluator", s) :: tr)
  end.
Proof.
  cbn [run].
  change (nodes risk_graph !! "evaluator") with (Some evaluator).
  cbn beta iota. destruct (evaluator s w) as [s' w'].
  unfold resolve_next.
  change (edges risk_graph !! "evaluator") with (@None string).
  change (conditional_edges risk_graph !! "evaluator")
    with (Some (decider, (<["worker" := "worker"]> (<[END := END]> ∅) : gmap string string))).
  cbn beta iota. unfold should_retry_worker.
  destruct (evaluation s') as [ev|]; [|reflexivity].
  destruct (is_valid ev); [reflexivity|].
  destruct (max_retries s' <? retry_count s')%Z; [reflexivity|].
  destruct (bool_decide (console (stdin_reads w') = "a")); [reflexivity|].
  destruct (bool_decide (console (stdin_reads w') = "n")); reflexivity.
Qed.

Lemma risk_worker_counters s :
  retry_count (risk_worker s) = 0%Z ∧ max_retries (risk_worker s) = 2%Z.
Proof. unfold risk_worker. by destruct (risk_checks_of s). Qed.

(** What the risk evaluator returns on the counters the worker leaves. *)
Lemma risk_evaluator_after_worker s w :
  retry_count s = 0%Z → max_retries s = 2%Z →
  let s' := (evaluator s w).1 in
  ∃ ev, evaluation s' = Some ev ∧ max_retries s' = 2%Z
        ∧ ((is_valid ev = true ∧ completed s' = true ∧ retry_count s' = 0%Z
            ∧ error s' = None)
           ∨ (is_valid ev = false ∧ (retry_count s' ≤ 1)%Z)).
Proof.
  intros Hr Hm. cbn zeta. unfold risk_evaluator, risk_evaluator_try.
  destruct (worker_output s) as [out|]; [|cbn].
  - destruct (attempt_loop risk_chain _ _ _) as [[[ev|]|e] k]; cbn.
    + exists ev. rewrite Hr, Hm. destruct (is_valid ev); split_and!; try done.
      * left. done.
      * right. split; [done | lia].
    + eexists. split_and!; [done..|]. right. split; [done | unfold default_retry_count; lia].
    + eexists. split_and!; [done..|]. right. split; [done | unfold default_retry_count; lia].
  - eexists. split_and!; [done..|]. right. split; [done | unfold default_retry_count; lia].
Qed.

Local Abbreviation risk_exit x :=
  (match x.1.1 with
   | Returns final =>
     ∃ ev, evaluation final = Some ev ∧ max_retries final = 2%Z
           ∧ ((is_valid ev = true ∧ completed final = true
               ∧ retry_count final = 0%Z ∧ error final = None)
              ∨ (is_valid ev = false ∧ (retry_count final ≤ 1)%Z
                 ∧ 0 < stdin_reads x.1.2 ∧ console (stdin_reads x.1.2 - 1) = "n"))
   | Raises e =>
     (e = user_aborted ∧ 0 < stdin_reads x.1.2 ∧ console (stdin_reads x.1.2 - 1) = "a")
     ∨ e = step_limit_exceeded
   end).

(** The ways a run can end, from either node. *)
Lemma risk_run_exits limit :
  (∀ s w, risk_exit (run risk_graph limit "worker" s w))
  ∧ (∀ s w, retry_count s = 0%Z → max_retries s = 2%Z →
            risk_exit (run risk_graph limit "evaluator" s w)).
Proof.
  induction limit as [|limit [IHw IHe]]; [split; intros; by right|]. split.
  - intros s w. rewrite risk_run_worker.
    destruct (risk_worker_counters s) as [Hr Hm]. specialize (IHe _ w Hr Hm).
    by destruct (run risk_graph limit "evaluator" _ w) as [[r wf] tr].
  - intros s w Hr Hm. rewrite risk_run_evaluator.
    pose proof (risk_evaluator_after_worker s w Hr Hm) as Hev.
    destruct (evaluator s w) as [s1 w1]. cbn in Hev.
    destruct Hev as (ev & Hev & Hm1 & Hcases).
    unfold should_retry_worker. rewrite Hev.
    destruct Hcases as [(Hv & Hc & Hr1 & He) | (Hv & Hr1)]; rewrite Hv.
    + rewrite bool_decide_eq_true_2 by done. cbn.
      exists ev. split_and!; [done..|]. by left.
    + destruct (Z.ltb_spec (max_retries s1) (retry_count s1)); [lia|].
      assert (Hpos : stdin_reads (tick_stdin w1) - 1 = stdin_reads w1)
        by (cbn; lia).
      case_bool_decide as Ha.
      { cbn [fst snd]. left. rewrite Hpos. split_and!; [done | cbn; lia | done]. }
      case_bool_decide as Hn.
      { rewrite bool_decide_eq_true_2 by done. cbn [fst snd].
        exists ev. split_and!; [done..|]. right. rewrite Hpos.
        split_and!; [done | done | cbn; lia | done]. }
      rewrite bool_decide_eq_false_2 by done.
      specialize (IHw s1 (tick_stdin w1)).
      by destruct (run risk_graph limit "worker" s1 (tick_stdin w1)) as [[r wf] tr].
Qed.

(** X4. The four ways a run of the risk subgraph can end, whatever the
    judgment function, the answers at the console, the budget and the
    initial state. It returns a state with a valid evaluation, [completed]
    true and [retry_count = 0]; or it returns a state with a rejected
    evaluation because the last answer read was [n]; or it raises the abort
    because the last answer read was [a]; or it raises on the step limit.
    The state it returns always has [max_retries = 2]. *)
Theorem risk_invoke_outcomes limit s w :
  let '(r, wf, tr) :=
    invoke (create_risk_subgraph risk_chain console fmt_2f unbound_evaluation)
           limit s w in
  match r with
  | Returns final =>
    ∃ ev, evaluation final = Some ev ∧ max_retries final = 2%Z
          ∧ ((is_valid ev = true ∧ completed final = true
              ∧ retry_count final = 0%Z ∧ error final = None)
             ∨ (is_valid ev = false ∧ (retry_count final ≤ 1)%Z
                ∧ 0 < stdin_reads wf ∧ console (stdin_reads wf - 1) = "n"))
  | Raises e =>
    (e = user_aborted ∧ 0 < stdin_reads wf ∧ console (stdin_reads wf - 1) = "a")
    ∨ e = step_limit_exceeded
  end.
Proof.
  unfold invoke. change (entry_point risk_graph) with "worker".
  destruct (risk_run_exits limit) as [H _]. specialize (H s w).
  by destruct (run risk_graph limit "worker" s w) as [[r wf] tr].
Qed.

Lemma risk_evaluator_rejects s w :
  (∀ c out, ∃ ev, risk_chain c out = Returns ev ∧ is_valid ev = false) →
  ∀ ev, evaluation (evaluator s w).1 = Some ev → is_valid ev = false.
Proof.
  intros Hrej ev. unfold risk_evaluator, risk_evaluator_try.
  destruct (worker_output s) as [out|]; [|by intros [= <-]].
  unfold evaluator_attempts. cbn [attempt_loop].
  destruct (Hrej (llm_calls w) out) as (ev' & -> & Hinv). cbn.
  by intros [= <-].
Qed.

(** X5. The retry loop of the risk subgraph does not end by itself: when the
    judgment function rejects on every call and the user never answers [a]
    or [n], [invoke] ends on the step limit for every budget and every
    initial state, after the user has been asked once per two steps of the
    budget (12 times with the default limit of 25). The worker puts
    [retry_count] back to 0 at each turn, so the guard on [max_retries] is
    never met. *)
Theorem risk_retry_loop_exhausts_budget limit s w :
  (∀ c out, ∃ ev, risk_chain c out = Returns ev ∧ is_valid ev = false) →
  (∀ n, console n ≠ "a" ∧ console n ≠ "n") →
  ∃ wf tr,
    invoke (create_risk_subgraph risk_chain console fmt_2f unbound_evaluation)
           limit s w = (Raises step_limit_exceeded, wf, tr)
    ∧ stdin_reads wf = stdin_reads w + limit / 2.
Proof.
  intros Hrej Hans. unfold invoke. change (entry_point risk_graph) with "worker".
  revert s w.
  enough (H : (∀ s w, ∃ wf tr,
                  run risk_graph limit "worker" s w = (Raises step_limit_exceeded, wf, tr)
                  ∧ stdin_reads wf = stdin_reads w + limit / 2)
              ∧ (∀ s w, retry_count s = 0%Z → max_retries s = 2%Z →
                  ∃ wf tr,
                    run risk_graph limit "evaluator" s w
                    = (Raises step_limit_exceeded, wf, tr)
                    ∧ stdin_reads wf = stdin_reads w + (limit + 1) / 2)) by apply H.
  induction limit as [|limit [IHw IHe]].
  { split; intros; eexists _, _; (split; [reflexivity|]); cbn; lia. }
  split.
  - intros s w. rewrite risk_run_worker.
    destruct (risk_worker_counters s) as [Hr Hm].
    destruct (IHe _ w Hr Hm) as (wf & tr & -> & Hreads).
    eexists _, _. split; [reflexivity|]. rewrite Hreads. f_equal.
    by replace (S limit) with (limit + 1) by lia.
  - intros s w Hr Hm. rewrite risk_run_evaluator.
    pose proof (risk_evaluator_after_worker s w Hr Hm) as Hev.
    pose proof (risk_evaluator_rejects s w Hrej) as Hinv.
    destruct (evaluator s w) as [s1 w1] eqn:E. cbn in Hev, Hinv.
    destruct Hev as (ev & Hev & Hm1 & Hcases). specialize (Hinv ev Hev).
    destruct Hcases as [(Hv & _) | (_ & Hr1)]; [congruence|].
    unfold should_retry_worker. rewrite Hev, Hinv.
    destruct (Z.ltb_spec (max_retries s1) (retry_count s1)); [lia|].
    destruct (Hans (stdin_reads w1)) as [Ha Hn].
    rewrite !bool_decide_eq_false_2 by done.
    destruct (IHw s1 (tick_stdin w1)) as (wf & tr & -> & Hreads).
    eexists _, _. split; [reflexivity|]. rewrite Hreads.
    assert (Hw1 : stdin_reads w1 = stdin_reads w).
    { revert E. unfold risk_evaluator, risk_evaluator_try.
      destruct (worker_output s); [|by intros [= _ <-]].
      destruct (attempt_loop _ _ _ _) as [[[?|]|?] ?]; by intros [= _ <-]. }
    cbn [tick_stdin stdin_reads]. rewrite Hw1.
    replace (S limit + 1) with (limit + 1 * 2) by lia.
    rewrite Nat.div_add by lia. lia.
Qed.

(** The attempt loop of the risk evaluator, when the prompt can be rebuilt
    after each failure. *)
Lemma risk_attempt_loop_first_success n k clock out ev :
  k < n →
  (∀ j, j < k → ∃ e, risk_chain (clock + j) out = Raises e
                     ∧ retry_prompt e = Returns tt) →
  risk_chain (clock + k) out = Returns ev →
  attempt_loop risk_chain n clock out = (Returns (Some ev), S k).
Proof.
  revert n clock. induction k as [|k IH]; intros n clock Hn Hfail Hok;
    (destruct n as [|n]; [lia|]); cbn [attempt_loop].
  - rewrite Nat.add_0_r in Hok. by rewrite Hok.
  - destruct (Hfail 0) as (e & He & Hp); [lia|]. rewrite Nat.add_0_r in He.
    rewrite He, Hp. destruct n as [|n]; [lia|].
    rewrite (IH (S n) (S clock)); [done | lia | |].
    + intros j Hj. destruct (Hfail (S j)) as (e' & He' & Hp'); [lia|]. exists e'.
      by replace (S clock + j) with (clock + S j) by lia.
    + by replace (S clock + k) with (clock + S k) by lia.
Qed.

(** A text without braces never spoils the rebuilt prompt. *)
Lemma lone_brace_none s :
  (∀ c, c ∈ String.list_ascii_of_string s → c ≠ "{"%char ∧ c ≠ "}"%char) →
  lone_brace s = None.
Proof.
  induction s as [|c s IH]; [done|]. intros H. cbn [lone_brace].
  destruct (H c) as [H1 H2]; [cbn; left|].
  rewrite !bool_decide_eq_false_2 by done. cbn [orb].
  apply IH. intros c' Hc'. apply H. cbn. by right.
Qed.

Lemma str_take_elem n s c :
  c ∈ String.list_ascii_of_string (str_take n s) → c ∈ String.list_ascii_of_string s.
Proof.
  revert s. induction n as [|n IH]; intros [|c' s]; cbn; try by rewrite elem_of_nil.
  rewrite !elem_of_cons. intros [->|H]; [by left | right; by apply IH].
Qed.

Lemma escape_braces_elem s c :
  c ∈ String.list_ascii_of_string (escape_braces s) → c ∈ String.list_ascii_of_string s.
Proof.
  induction s as [|c' s IH]; [done|]. cbn [escape_braces].
  destruct (_ || _); cbn; rewrite !elem_of_cons; intuition.
Qed.

Lemma retry_prompt_no_braces e :
  (∀ c, c ∈ String.list_ascii_of_string e → c ≠ "{"%char ∧ c ≠ "}"%char) →
  retry_prompt e = Returns tt.
Proof.
  intros H. unfold retry_prompt. rewrite lone_brace_none; [done|].
  intros c Hc. by apply H, escape_braces_elem, str_take_elem with 300.
Qed.

(** X6. The risk evaluator survives failed calls of the judgment function:
    when fewer than three calls in a row fail, each with an error text whose
    feedback leaves the rebuilt prompt well formed, and the next call
    returns a verdict, that verdict is the evaluation of the returned state,
    no error is recorded, [completed] is the verdict's [is_valid], the
    counter is incremented exactly on a rejection, and one call is consumed
    per attempt. *)
Theorem risk_evaluator_uses_first_parsed_reply k s w out ev :
  worker_output s = Some out →
  k < evaluator_attempts →
  (∀ j, j < k → ∃ e, risk_chain (llm_calls w + j) out = Raises e
                     ∧ retry_prompt e = Returns tt) →
  risk_chain (llm_calls w + k) out = Returns ev →
  let '(s', w') := risk_evaluator risk_chain fmt_2f unbound_evaluation s w in
  evaluation s' = Some ev ∧ error s' = None ∧ completed s' = is_valid ev
  ∧ retry_count s' = (if is_valid ev then retry_count s else retry_count s + 1)%Z
  ∧ max_retries s' = max_retries s
  ∧ w' = tick_llm (S k) w.
Proof.
  intros Hout Hk Hfail Hok. unfold risk_evaluator, risk_evaluator_try.
  rewrite Hout, (risk_attempt_loop_first_success _ k _ _ ev Hk Hfail Hok).
  cbn. done.
Qed.

(** X7. Three failing calls of the judgment function, [e1], [e2] and [e3].
    The exception the risk evaluator reports is the last one, [e3], after
    three calls, when the prompt could be rebuilt after [e1] and after
    [e2]; when the feedback cut from [e1] (or else from [e2]) leaves a lone
    brace, the rebuild raises, no further call is made, and that exception
    is the one reported, after one call (or two). In each case the returned
    state has [completed = true], the default evaluation, not valid, with
    confidence 0 and the single issue "Evaluation failed: ..." for the
    reported exception, the error "Evaluator failed: ...", and
    [retry_count] and [max_retries] back at their defaults 0 and 2. *)
Theorem risk_evaluator_keeps_last_exception s w out e1 e2 e3 :
  worker_output s = Some out →
  risk_chain (llm_calls w) out = Raises e1 →
  risk_chain (llm_calls w + 1) out = Raises e2 →
  risk_chain (llm_calls w + 2) out = Raises e3 →
  let '(s', w') := risk_evaluator risk_chain fmt_2f unbound_evaluation s w in
  let reported :=
    match retry_prompt e1 with
    | Raises p1 => (p1, 1)
    | Returns _ =>
      match retry_prompt e2 with
      | Raises p2 => (p2, 2)
      | Returns _ => (e3, 3)
      end
    end in
  evaluation s' = Some (failed_evaluation reported.1)
  ∧ is_valid (failed_evaluation reported.1) = false
  ∧ confidence (failed_evaluation reported.1) = 0%Q
  ∧ issues (failed_evaluation reported.1) = ["Evaluation failed: " +:+ reported.1]
  ∧ error s' = Some ("Evaluator failed: " +:+ reported.1)
  ∧ completed s' = true ∧ retry_count s' = 0%Z ∧ max_retries s' = 2%Z
  ∧ w' = tick_llm reported.2 w.
Proof.
  intros Hout H1 H2 H3. unfold risk_evaluator, risk_evaluator_try.
  rewrite Hout. unfold evaluator_attempts. cbn [attempt_loop].
  rewrite H1. destruct (retry_prompt e1) as [[]|p1]; [|by cbn].
  replace (S (llm_calls w)) with (llm_calls w + 1) by lia.
  rewrite H2. destruct (retry_prompt e2) as [[]|p2]; [|by cbn].
  replace (S (llm_calls w + 1)) with (llm_calls w + 2) by lia.
  rewrite H3. by cbn.
Qed.

End RiskExits.

(** ** Verdicts of the risk checks *)

Section RiskVerdicts.
Import RiskTools.

(** The three limits a "buy" is held to, as the checks compute them. *)
Local Abbreviation position_ok size balance params :=
  (Qle_bool size (balance * get_param params "max_position_pct" (1 # 10))).
Local Abbreviation exposure_ok positions balance params :=
  (exposure_is_valid
     (check_exposure_limits positions balance (get_param params "max_total_exposure" (5 # 10)))).
Local Abbreviation volatility_ok vol params :=
  (Qle_bool vol (get_param params "max_volatility" (5 # 100))).

Lemma position_size_step_effect action size balance params c :
  let c' := position_size_step action size balance params c in
  blockers c' = blockers c
                ++ (if is_buy action && negb (position_ok size balance params)
                    then ["Position size exceeds limit"] else [])
  ∧ all_checks_passed c'
    = all_checks_passed c && negb (is_buy action && negb (position_ok size balance params))
  ∧ warnings c' = warnings c.
Proof.
  cbn zeta. unfold position_size_step. destruct (is_buy action); cbn [andb].
  - unfold check_position_size. cbn [position_is_valid].
    destruct (Qle_bool size _); cbn; rewrite ?app_nil_r, ?andb_true_r, ?andb_false_r; done.
  - by rewrite app_nil_r, andb_true_r.
Qed.

Lemma exposure_step_effect action positions balance params c :
  let c' := exposure_step action positions balance params c in
  blockers c' = blockers c
                ++ (if is_buy action && negb (exposure_ok positions balance params)
                    then ["Total exposure exceeds limit"] else [])
  ∧ all_checks_passed c'
    = all_checks_passed c && negb (is_buy action && negb (exposure_ok positions balance params))
  ∧ warnings c' = warnings c.
Proof.
  cbn zeta. unfold exposure_step.
  destruct (exposure_is_valid _), (is_buy action); cbn;
    rewrite ?app_nil_r, ?andb_true_r, ?andb_false_r; done.
Qed.

Lemma volatility_step_effect action vol params c :
  let c' := volatility_step action vol params c in
  blockers c' = blockers c
                ++ (if is_buy action && negb (volatility_ok vol params)
                    then ["Volatility too high for new positions"] else [])
  ∧ all_checks_passed c'
    = all_checks_passed c && negb (is_buy action && negb (volatility_ok vol params))
  ∧ warnings c' = warnings c
                  ++ (if volatility_ok vol params then [] else ["High volatility detected"]).
Proof.
  cbn zeta. unfold volatility_step, check_volatility_limit. cbn [volatility_is_valid].
  destruct (Qle_bool vol _), (is_buy action); cbn;
    rewrite ?app_nil_r, ?andb_true_r, ?andb_false_r; done.
Qed.

Lemma stop_loss_step_effect action price entry params c c' :
  stop_loss_step action price entry params c = Returns c' →
  blockers c' = blockers c ∧ all_checks_passed c' = all_checks_passed c.
Proof.
  unfold stop_loss_step. destruct entry as [p|]; [|by intros [= <-]].
  destruct (negb (is_buy action)); [|by intros [= <-]].
  destruct (check_stop_loss _ _ _) as [sl|e]; [|done].
  intros [= <-]. by destruct (triggered sl).
Qed.

(** X8. The verdict of [check_risk_constraints] in closed form. Whenever the
    call returns, the blockers are, in this order, the position-size, the
    exposure and the volatility violation, each present exactly when the
    action is "buy" and that limit is exceeded; [all_checks_passed] is true
    exactly when there is no blocker; and the risk signal is "proceed" when
    it is true and "block" otherwise. *)
Theorem check_risk_constraints_verdict
    sym action size price balance positions entry vol risk_params r :
  check_risk_constraints sym action size price balance positions entry vol risk_params
  = Returns r →
  let params := default default_risk_params risk_params in
  let held := default ∅ positions in
  blockers r
  = (if is_buy action && negb (Qle_bool size (balance * get_param params "max_position_pct" (1 # 10)))
     then ["Position size exceeds limit"] else [])
    ++ (if is_buy action
           && negb (exposure_is_valid
                      (check_exposure_limits held balance
                         (get_param params "max_total_exposure" (5 # 10))))
        then ["Total exposure exceeds limit"] else [])
    ++ (if is_buy action && negb (Qle_bool vol (get_param params "max_volatility" (5 # 100)))
        then ["Volatility too high for new positions"] else [])
  ∧ (all_checks_passed r = true ↔ blockers r = [])
  ∧ risk_signal r = Some (if all_checks_passed r then "proceed" else "block").
Proof.
  unfold check_risk_constraints. cbn zeta.
  match goal with
  | |- context [stop_loss_step _ _ _ ?ps ?c] =>
    destruct (stop_loss_step action price entry ps c) as [c'|e] eqn:E; [|done]
  end.
  intros [= <-]. apply stop_loss_step_effect in E as [Hb Hp].
  match type of Hb with
  | _ = blockers (volatility_step ?a ?v ?ps ?c) =>
    destruct (volatility_step_effect a v ps c) as (Hb3 & Hp3 & _);
    match c with
    | exposure_step ?a ?pos ?bal ?ps ?c0 =>
      destruct (exposure_step_effect a pos bal ps c0) as (Hb2 & Hp2 & _);
      match c0 with
      | position_size_step ?a ?sz ?bal ?ps ?c1 =>
        destruct (position_size_step_effect a sz bal ps c1) as (Hb1 & Hp1 & _)
      end
    end
  end.
  cbn zeta in *. rewrite Hb3, Hb2, Hb1 in Hb. rewrite Hp3, Hp2, Hp1 in Hp.
  cbn [blockers all_checks_passed app] in Hb, Hp.
  assert (Hbs : blockers (final_recommendation c') = blockers c')
    by (unfold final_recommendation; by destruct (all_checks_passed c') eqn:?).
  assert (Hps : all_checks_passed (final_recommendation c') = all_checks_passed c')
    by (unfold final_recommendation; by destruct (all_checks_passed c') eqn:?).
  rewrite Hbs, Hps, Hb. split_and!.
  - by rewrite <- !app_assoc.
  - rewrite Hp.
    destruct (is_buy action), (Qle_bool size _), (exposure_is_valid _), (Qle_bool vol _);
      cbn; split; intros; done.
  - unfold final_recommendation. by destruct (all_checks_passed c') eqn:?.
Qed.

(** X9. The one failure of [check_risk_constraints]: the call raises exactly
    when the action is not "buy" and an entry price of zero is given, and the
    exception is then the division by zero of the stop-loss check; a "buy",
    or a call without entry price, always returns. *)
Theorem check_risk_constraints_raises_iff
    sym action size price balance positions entry vol risk_params e :
  check_risk_constraints sym action size price balance positions entry vol risk_params
  = Raises e
  ↔ e = "float division by zero" ∧ action ≠ "buy" ∧ ∃ p, entry = Some p ∧ (p == 0)%Q.
Proof.
  unfold check_risk_constraints. cbn zeta.
  match goal with
  | |- context [stop_loss_step _ _ _ ?ps ?c] => generalize c; generalize ps
  end.
  intros ps c. unfold stop_loss_step, check_stop_loss, float_div.
  destruct entry as [p|].
  - unfold is_buy. case_bool_decide as Hbuy; cbn [negb].
    + split; [done | by intros (_ & ? & _)].
    + destruct (Qeq_bool p 0) eqn:Hp.
      * apply Qeq_bool_iff in Hp. split; [intros [= <-]; eauto | by intros [-> _]].
      * split; [done|]. intros (_ & _ & p' & [= <-] & Hz).
        apply Qeq_bool_iff in Hz. congruence.
  - split; [done | by intros (_ & _ & ? & ? & _)].
Qed.

(** The state of [checks] when the stop-loss block of a call that is not a
    "buy" is reached. *)
Lemma checks_before_stop_loss action positions balance vol params c0 :
  action ≠ "buy" →
  all_checks_passed c0 = true → warnings c0 = [] → recommended_action c0 = None →
  let c := volatility_step action vol params
             (exposure_step action positions balance params c0) in
  all_checks_passed c = true ∧ recommended_action c = None
  ∧ "Stop loss triggered" ∉ warnings c.
Proof.
  intros Hbuy Hp Hw Hr. cbn zeta. unfold volatility_step, exposure_step.
  rewrite is_buy_false by done. rewrite andb_false_r.
  destruct (negb (volatility_is_valid _)); cbn; rewrite Hp, Hw, Hr;
    (split_and!; [done..|]); cbn; rewrite ?elem_of_cons, elem_of_nil;
    by intros [[=]|[]] || by intros [].
Qed.

(** X10. A triggered stop loss warns but never blocks. For an action other
    than "buy" with an entry price that is not zero, the call returns with
    the result of the stop-loss check; the warning "Stop loss triggered" and
    the recommended action "close_position" are present exactly when that
    check reports [triggered], no recommendation is made otherwise, and in
    both cases there is no blocker and the risk signal is "proceed". *)
Theorem stop_loss_warns_without_blocking
    sym action size price balance positions p vol risk_params :
  action ≠ "buy" → ¬ (p == 0)%Q →
  ∃ r sl,
    check_risk_constraints sym action size price balance positions (Some p) vol risk_params
    = Returns r
    ∧ stop_loss_check r = Some sl
    ∧ stop_loss_action sl = (if triggered sl then "close_position" else "hold")
    ∧ ("Stop loss triggered" ∈ warnings r ↔ triggered sl = true)
    ∧ recommended_action r = (if triggered sl then Some "close_position" else None)
    ∧ all_checks_passed r = true
    ∧ risk_signal r = Some "proceed".
Proof.
  intros Hbuy Hp. unfold check_risk_constraints. cbn zeta.
  rewrite position_size_step_not_buy by done.
  match goal with
  | |- context [stop_loss_step _ _ _ ?ps (volatility_step ?a ?v ?ps (exposure_step ?a ?pos ?bal ?ps ?c0))] =>
    destruct (checks_before_stop_loss a pos bal v ps c0 Hbuy eq_refl eq_refl eq_refl)
      as (Hpass & Hrec & Hwarn);
    generalize dependent (volatility_step a v ps (exposure_step a pos bal ps c0))
  end.
  intros c Hpass Hrec Hwarn. unfold stop_loss_step, check_stop_loss.
  rewrite is_buy_false by done. cbn [negb].
  rewrite float_div_nonzero by done.
  destruct (Qle_bool _ ((p - price) / p)) eqn:Ht.
  - eexists _, _. split; [reflexivity|]. unfold final_recommendation.
    cbn [triggered all_checks_passed set_recommended_action add_warning
         set_stop_loss_check].
    rewrite Hpass. cbn. split_and!; [done | done | | done..].
    split; [done | intros _]. rewrite elem_of_app, list_elem_of_singleton. by right.
  - eexists _, _. split; [reflexivity|]. unfold final_recommendation.
    cbn [triggered all_checks_passed set_stop_loss_check]. rewrite Hpass. cbn.
    split_and!; [done | done | | done..].
    split; [by intros ?%Hwarn | done].
Qed.

End RiskVerdicts.

(** ** The risk worker on the checks *)

Section RiskWorker.
Import Risk.

Lemma default_exposure_within_limit :
  RiskTools.exposure_is_valid
    (RiskTools.check_exposure_limits ∅ default_account_balance
       (RiskTools.get_param RiskTools.default_risk_params "max_total_exposure" (5 # 10)))
  = true.
Proof. vm_compute. reflexivity. Qed.

Lemma default_volatility_within_limit :
  RiskTools.volatility_is_valid
    (RiskTools.check_volatility_limit RiskTools.default_volatility
       (RiskTools.get_param RiskTools.default_risk_params "max_volatility" (5 # 100)))
  = true.
Proof. vm_compute. reflexivity. Qed.

(** X11. The risk worker on a "buy". When the quantity is too large an
    integer to become a float the worker fails, with no output and the
    error of the conversion. Otherwise it produces an output, whatever stop
    loss the state carries: the order is checked against an account of
    100000 with no open position, so the position-size check is the only
    one that can fail; it decides [all_checks_passed], the exposure and
    stop-loss results are reported as passed, and the risk level is "low"
    when the checks pass and "high" otherwise, never "medium". *)
Theorem risk_worker_buy_verdict s :
  proposed_action s = "buy" →
  match float_of_int (proposed_quantity s) with
  | Raises e =>
    e = "int too large to convert to float"
    ∧ worker_output (risk_worker s) = None ∧ evaluation (risk_worker s) = None
    ∧ completed (risk_worker s) = true
    ∧ error (risk_worker s) = Some ("Risk worker failed: " +:+ e)
  | Returns _ =>
    ∃ out,
      worker_output (risk_worker s) = Some out
      ∧ error (risk_worker s) = None ∧ completed (risk_worker s) = false
      ∧ position_size_check out = all_checks_passed out
      ∧ exposure_check out = true ∧ stop_loss_check out = true
      ∧ risk_level out = (if all_checks_passed out then "low" else "high")
  end.
Proof.
  intros Hbuy. unfold risk_worker, risk_checks_of.
  destruct (float_of_int (proposed_quantity s)) as [quantity|e] eqn:Hq.
  2:{ split; [|done]. revert Hq. unfold float_of_int.
      by destruct (_ <=? _)%Z; intros [= <-]. }
  rewrite Hbuy.
  unfold RiskTools.check_risk_constraints. cbn zeta.
  unfold RiskTools.position_size_step, RiskTools.exposure_step,
    RiskTools.volatility_step, RiskTools.stop_loss_step.
  change (RiskTools.is_buy "buy") with true. cbn [negb andb default].
  rewrite default_exposure_within_limit, default_volatility_within_limit.
  cbn [negb andb].
  unfold RiskTools.check_position_size at 2. cbn [RiskTools.position_is_valid].
  destruct (Qle_bool _ _) eqn:Hle; cbn [negb];
    destruct (stop_loss s); cbn; eexists; (split; [reflexivity|]);
    cbn; rewrite ?Hle; split_and!; done.
Qed.

(** X12. The risk worker on an action other than "buy". When the quantity
    is too large an integer to become a float the worker fails with the
    error of the conversion. Otherwise it passes the state's [stop_loss] as
    the entry price of the stop-loss check: a stop loss of zero makes the
    worker fail ([completed = true], no output, the error "Risk worker
    failed: float division by zero"); in every other case all checks pass,
    and the risk level is "medium" exactly when the stop-loss check
    triggers, that is when [(stop_loss - price) / stop_loss >= 0.05], and
    "low" otherwise, never "high". *)
Theorem risk_worker_non_buy_verdict s :
  proposed_action s ≠ "buy" →
  match float_of_int (proposed_quantity s) with
  | Raises e =>
    e = "int too large to convert to float"
    ∧ worker_output (risk_worker s) = None ∧ evaluation (risk_worker s) = None
    ∧ completed (risk_worker s) = true
    ∧ error (risk_worker s) = Some ("Risk worker failed: " +:+ e)
  | Returns _ =>
    match stop_loss s with
    | Some p =>
      if Qeq_bool p 0
      then worker_output (risk_worker s) = None ∧ evaluation (risk_worker s) = None
           ∧ completed (risk_worker s) = true
           ∧ error (risk_worker s) = Some "Risk worker failed: float division by zero"
      else ∃ out, worker_output (risk_worker s) = Some out
                  ∧ error (risk_worker s) = None ∧ all_checks_passed out = true
                  ∧ risk_level out
                    = (if Qle_bool (5 # 100) ((p - current_price s) / p)
                       then "medium" else "low")
    | None =>
      ∃ out, worker_output (risk_worker s) = Some out
             ∧ error (risk_worker s) = None ∧ all_checks_passed out = true
             ∧ risk_level out = "low"
    end
  end.
Proof.
  intros Hbuy. unfold risk_worker, risk_checks_of.
  destruct (float_of_int (proposed_quantity s)) as [quantity|e] eqn:Hq.
  2:{ split; [|done]. revert Hq. unfold float_of_int.
      by destruct (_ <=? _)%Z; intros [= <-]. }
  unfold RiskTools.check_risk_constraints. cbn zeta.
  unfold RiskTools.position_size_step, RiskTools.exposure_step,
    RiskTools.volatility_step, RiskTools.stop_loss_step, RiskTools.check_stop_loss,
    RiskTools.float_div.
  rewrite is_buy_false by done. cbn [negb andb default].
  rewrite default_volatility_within_limit, andb_false_r. cbn [negb].
  destruct (stop_loss s) as [p|]; [|eexists; split; [reflexivity | done]].
  destruct (Qeq_bool p 0); [done|].
  change (RiskTools.get_param RiskTools.default_risk_params "stop_loss_pct" (5 # 100))
    with (5 # 100)%Q.
  destruct (Qle_bool (5 # 100) ((p - current_price s) / p));
    eexists; (split; [reflexivity | done]).
Qed.

End RiskWorker.

(** ** The moving average, the trend and the indicators *)

Section Indicators.
Import MarketTools MarketIndicators.

Implicit Types (prices volumes : list Q).

(** X14. The outcomes of [calculate_ema] that are not numbers computed
    from prices. On an empty price list with a positive period it returns
    [nan], the mean of no values. It raises exactly when the list is at
    least as long as the period and either the period is -1 (the multiplier
    divides by zero) or the list is empty (the first price is read from an
    empty list, which needs a period of at most 0). *)
Theorem calculate_ema_degenerate prices period :
  (prices = [] → (0 < period)%Z → calculate_ema prices period = Returns NaN)
  ∧ (∀ e, calculate_ema prices period = Raises e
          ↔ (period ≤ Z.of_nat (length prices))%Z
            ∧ ((period = (-1)%Z ∧ e = "division by zero")
               ∨ (period ≠ (-1)%Z ∧ prices = [] ∧ e = "list index out of range"))).
Proof.
  unfold calculate_ema.
  destruct (Z.ltb_spec (Z.of_nat (length prices)) period) as [Hlt|Hge].
  - split.
    + by intros -> _.
    + intros e. split; [done | lia].
  - destruct (Z.eqb_spec (period + 1) 0) as [Hm|Hm].
    + split; [intros -> ?; cbn in Hge; lia|].
      intros e. split.
      * intros [= <-]. split; [done|]. left. split; [lia | done].
      * intros [_ [[_ ->] | [? _]]]; [done | lia].
    + destruct prices as [|p ps].
      * split; [intros _ ?; cbn in Hge; lia|].
        intros e. split.
        -- intros [= <-]. split; [done|]. right. split_and!; [lia | done..].
        -- intros [_ [[? _] | (_ & _ & ->)]]; [lia | done].
      * split; [done|].
        intros e. split; [done|]. intros [_ [[? _] | (_ & ? & _)]]; [lia | done].
Qed.

Lemma calculate_ema_positive_period prices period :
  (0 < period)%Z → ∃ v, calculate_ema prices period = Returns v.
Proof.
  intros Hp. unfold calculate_ema.
  destruct (Z.ltb_spec (Z.of_nat (length prices)) period) as [Hlt|Hge]; [eauto|].
  destruct (Z.eqb_spec (period + 1) 0); [lia|].
  destruct prices; [cbn in Hge; lia | eauto].
Qed.

Lemma get_trend_direction_returns prices :
  ∃ t, get_trend_direction prices = Returns t
       ∧ (t = "bullish" ∨ t = "bearish" ∨ t = "neutral").
Proof.
  unfold get_trend_direction. destruct (length prices <? 3); [eauto|].
  destruct (calculate_ema_positive_period (slice_from (-10) prices) 5) as [short ->]; [lia|].
  destruct (calculate_ema_positive_period (slice_from (-20) prices) 10) as [long ->]; [lia|].
  destruct (np_lt _ _); [eauto|]. destruct (np_lt _ _); eauto.
Qed.

(** X15. [get_trend_direction] never raises, whatever the prices: it
    returns "bullish", "bearish" or "neutral", and "neutral" whenever there
    are fewer than three prices. *)
Theorem get_trend_direction_outcome prices :
  ∃ t, get_trend_direction prices = Returns t
       ∧ (t = "bullish" ∨ t = "bearish" ∨ t = "neutral")
       ∧ (length prices < 3 → t = "neutral").
Proof.
  unfold get_trend_direction. destruct (Nat.ltb_spec (length prices) 3) as [Hlt|Hge].
  { exists "neutral". split_and!; auto. }
  destruct (calculate_ema_positive_period (slice_from (-10) prices) 5) as [short ->]; [lia|].
  destruct (calculate_ema_positive_period (slice_from (-20) prices) 10) as [long ->]; [lia|].
  exists (if np_lt (np_scale long (101 # 100)) short then "bullish"
          else if np_lt short (np_scale long (99 # 100)) then "bearish"
          else "neutral").
  split; [by repeat destruct (np_lt _ _)|]. split.
  - destruct (np_lt _ _); [auto|]. destruct (np_lt _ _); auto.
  - lia.
Qed.

Lemma price_change_raises prices e :
  price_change prices = Raises e
  ↔ e = "float division by zero" ∧ 24 ≤ length prices
    ∧ ∃ q, nth_from_end 24 prices = Some q ∧ (q == 0)%Q.
Proof.
  unfold price_change. destruct (Nat.leb_spec 24 (length prices)) as [Hlen|Hlen].
  - assert (is_Some (last prices)) as [latest Hlast].
    { rewrite last_lookup. apply lookup_lt_is_Some. lia. }
    assert (is_Some (nth_from_end 24 prices)) as [before Hbefore].
    { unfold nth_from_end. apply lookup_lt_is_Some. lia. }
    rewrite Hlast, Hbefore. unfold RiskTools.float_div.
    destruct (Qeq_bool before 0) eqn:Hz.
    + apply Qeq_bool_iff in Hz. split; [intros [= <-]; eauto | by intros [-> _]].
    + split; [done|]. intros (_ & _ & q & [= <-] & Hq).
      apply Qeq_bool_iff in Hq. congruence.
  - split; [done | lia].
Qed.

Lemma get_market_indicators_raises sym prices volumes e :
  get_market_indicators sym prices volumes = Raises e ↔ price_change prices = Raises e.
Proof.
  unfold get_market_indicators.
  destruct (calculate_ema_positive_period prices 20) as [e20 ->]; [lia|].
  destruct (calculate_ema_positive_period prices 50) as [e50 ->]; [lia|].
  destruct (get_trend_direction_returns prices) as (t & -> & _).
  destruct (price_change prices); [split; intros [=] | split; intros [= <-]; done].
Qed.

(** X16. The one failure of the market worker's computation: building the
    facts raises exactly when there are at least 24 prices and the price 24
    places from the end is zero, the division of the 24-hour price change;
    every other input, the empty price and volume lists included, yields the
    facts. *)
Theorem market_worker_facts_raises_iff sym prices volumes e :
  market_worker_facts sym prices volumes = Raises e
  ↔ e = "float division by zero" ∧ 24 ≤ length prices
    ∧ ∃ q, nth_from_end 24 prices = Some q ∧ (q == 0)%Q.
Proof.
  rewrite <- price_change_raises, <- (get_market_indicators_raises sym prices volumes).
  unfold market_worker_facts.
  destruct (get_market_indicators sym prices volumes);
    [split; intros [=] | split; intros [= <-]; done].
Qed.

(** X17. The facts the market worker reports, whenever it reports any.
    Each of its four signals takes one of three values: the trend direction
    is "bullish", "bearish" or "neutral" (the "sideways" of the schema and
    of the worker's default never occurs). On short inputs the facts are the
    defaults of the code: with fewer than 24 prices the trend strength is 0;
    without volumes the volume ratio is 1 and the volume signal "normal";
    with fewer than 15 prices the RSI is 50 and its signal "neutral"; and
    without prices both moving averages are [nan] and the EMA signal and the
    trend are "neutral". *)
Theorem market_worker_facts_short_inputs sym prices volumes facts :
  market_worker_facts sym prices volumes = Returns facts →
  (trend_direction facts = "bullish" ∨ trend_direction facts = "bearish"
   ∨ trend_direction facts = "neutral")
  ∧ (ema_signal facts = "bullish" ∨ ema_signal facts = "bearish"
     ∨ ema_signal facts = "neutral")
  ∧ (volume_signal facts = "high" ∨ volume_signal facts = "low"
     ∨ volume_signal facts = "normal")
  ∧ (facts_rsi_signal facts = "overbought" ∨ facts_rsi_signal facts = "oversold"
     ∨ facts_rsi_signal facts = "neutral")
  ∧ (length prices < 24 → (trend_strength facts == 0)%Q)
  ∧ (volumes = [] → volume_ratio facts = 1%Q ∧ volume_signal facts = "normal")
  ∧ (length prices < 15 →
     facts_rsi facts = Num 50 ∧ facts_rsi_signal facts = "neutral")
  ∧ (prices = [] →
     ema_short facts = NaN ∧ ema_long facts = NaN ∧ ema_signal facts = "neutral"
     ∧ trend_direction facts = "neutral").
Proof.
  unfold market_worker_facts, get_market_indicators.
  destruct (calculate_ema prices 20) as [e20|] eqn:H20; [|done].
  destruct (calculate_ema prices 50) as [e50|] eqn:H50; [|done].
  destruct (get_trend_direction_returns prices) as (t & Htrend & Ht).
  rewrite Htrend.
  destruct (price_change prices) as [change|e] eqn:Hchange; [|done].
  intros [= <-].
  cbn [facts_rsi facts_rsi_signal trend_direction trend_strength volume_ratio
       volume_signal ema_short ema_long ema_signal
       rsi rsi_signal trend price_change_24h volume_avg volume_current ema_20 ema_50].
  split_and!.
  - done.
  - destruct (np_lt e50 e20); [auto|]. destruct (np_lt e20 e50); auto.
  - destruct (Qlt_bool (15 # 10) _); [auto|]. destruct (Qlt_bool _ (5 # 10)); auto.
  - unfold rsi_signal_of. destruct (np_lt (Num 70) _); [auto|].
    destruct (np_lt _ (Num 30)); auto.
  - intros Hlen. revert Hchange. unfold price_change.
    destruct (Nat.leb_spec 24 (length prices)); [lia|]. by intros [= <-].
  - intros ->. done.
  - intros Hlen. unfold calculate_rsi, default_period.
    destruct (Z.ltb_spec (Z.of_nat (length prices)) (14 + 1)); [done | lia].
  - intros ->. revert H20 H50 Htrend. cbn. intros [= <-] [= <-] [= <-]. done.
Qed.

End Indicators.

(** ** The bridge nodes and the router of the parent graph *)

Lemma truthy_insert_dict k v (d : gmap string pyval) : truthy (Some (<[k := v]> d)) = true.
Proof.
  unfold truthy. rewrite bool_decide_eq_false_2; [done|]. apply insert_non_empty.
Qed.

Section Bridges.
Import LangGraph Hierarchical.

Variable market_facts : string → list Q → list Q → outcome Market.MarketWorkerOutput.
Variable market_chain : nat → Market.MarketWorkerOutput → outcome Market.MarketEvaluation.
Variable risk_chain : nat → Risk.RiskWorkerOutput → outcome Risk.RiskEvaluation.
Variable console : nat → string.
Variable fmt_2f : Q → string.
Variable unbound_evaluation : exn.
Variable sentiment_subgraph : string → World → outcome SentimentResult * World.
Variable supervisor_chain : nat → outcome SupervisorPlan.
Variable router_chain : nat → outcome string.
Variable final_chain : nat → outcome FinalTradingDecision.

Local Abbreviation graph :=
  (create_hierarchical_graph market_facts market_chain risk_chain console fmt_2f
     unbound_evaluation sentiment_subgraph supervisor_chain router_chain final_chain).
Local Abbreviation supervisor_node := (supervisor_agent supervisor_chain).
Local Abbreviation market_node :=
  (market_subgraph_node market_facts market_chain fmt_2f unbound_evaluation).
Local Abbreviation sentiment_node := (sentiment_subgraph_node sentiment_subgraph).
Local Abbreviation risk_node :=
  (risk_subgraph_node risk_chain console fmt_2f unbound_evaluation).
Local Abbreviation final_node := (final_decision_node final_chain).
Local Abbreviation router := (route_next_subgraph router_chain).

Lemma py_or_truthy d : truthy (Some d) = true → py_or (Some d) ∅ = d.
Proof. intros H. unfold py_or. by rewrite H. Qed.

(** The market subgraph raises on the step limit only. *)
Lemma market_run_raises limit cur s w e wf tr :
  cur = "worker" ∨ cur = "evaluator" →
  run (Market.create_market_subgraph market_facts market_chain fmt_2f unbound_evaluation)
      limit cur s w = (Raises e, wf, tr) →
  e = step_limit_exceeded.
Proof.
  revert cur s w wf tr. induction limit as [|limit IH]; intros cur s w wf tr Hcur.
  { by intros [= <- _ _]. }
  destruct Hcur as [-> | ->].
  - rewrite run_worker.
    destruct (run _ limit "evaluator" _ w) as [[r wf'] tr'] eqn:E.
    intros [= -> _ _]. eapply IH; [by right | exact E].
  - rewrite run_evaluator.
    destruct (Market.market_evaluator _ _ _ s w) as [s1 w1].
    case_bool_decide; [done|].
    destruct (run _ limit "worker" s1 w1) as [[r wf'] tr'] eqn:E.
    intros [= -> _ _]. eapply IH; [by left | exact E].
Qed.

Lemma market_subgraph_node_parts context w :
  ∃ d w', market_node context w = (set_market_agent_output d context, w')
          ∧ truthy (Some d) = true.
Proof.
  unfold market_subgraph_node.
  destruct (invoke _ default_recursion_limit _ w) as [[[result|e] w'] tr] eqn:E.
  - apply market_run_exits in E as (ev & Hev & _ & _ & Herr & _ & _ & [o Ho]).
    rewrite Ho, Hev, Herr. eexists _, w'. split; [reflexivity | apply truthy_insert_dict].
  - eexists _, w'. split; [reflexivity | apply truthy_insert_dict].
Qed.

(** X18. What the market bridge writes. The node changes the field
    [market_agent_output] of the context and no other, and the value it
    writes is never empty: either the facts of the worker together with an
    evaluation that is valid and no "error" key, or the single key "error"
    with the step-limit failure of the subgraph. A rejected evaluation
    never reaches the context. *)
Theorem market_subgraph_node_output context w :
  ∃ d w',
    market_subgraph_node market_facts market_chain fmt_2f unbound_evaluation context w
    = (set_market_agent_output d context, w')
    ∧ truthy (Some d) = true
    ∧ ((∃ o ev, d = <["evaluation" := VDict (dump_market_evaluation ev)]>
                      (dump_market_output o)
                ∧ Market.is_valid ev = true)
       ∨ d = <["error" := VStr step_limit_exceeded]> ∅).
Proof.
  unfold market_subgraph_node.
  destruct (invoke _ default_recursion_limit _ w) as [[[result|e] w'] tr] eqn:E.
  - apply market_run_exits in E as (ev & Hev & Hv & _ & Herr & _ & _ & [o Ho]).
    rewrite Ho, Hev, Herr. cbn [market_agent_output set_market_agent_output].
    rewrite py_or_truthy by apply truthy_insert_dict.
    eexists _, w'. split; [reflexivity|]. split; [apply truthy_insert_dict|].
    left. by exists o, ev.
  - apply market_run_raises in E as ->; [|by left].
    eexists _, w'. split; [reflexivity|]. split; [apply truthy_insert_dict | by right].
Qed.

Lemma risk_subgraph_node_parts context w :
  ∃ d w', risk_node context w = (set_risk_agent_output d context, w')
          ∧ truthy (Some d) = true.
Proof.
  unfold risk_subgraph_node.
  destruct (proposed_trade context) as [[action quantity]|e].
  2:{ eexists _, w. split; [reflexivity | apply truthy_insert_dict]. }
  pose proof (risk_run_exits risk_chain console fmt_2f unbound_evaluation
                default_recursion_limit) as [Hexit _].
  specialize (Hexit (Risk.initial_state (symbol context)
                       (current_price_of (prices context)) action quantity) w).
  unfold invoke.
  change (entry_point (Risk.create_risk_subgraph _ _ _ _)) with "worker".
  destruct (run _ default_recursion_limit "worker" _ w) as [[[result|e] w'] tr].
  2:{ eexists _, w'. split; [reflexivity | apply truthy_insert_dict]. }
  cbn [fst snd] in Hexit. destruct Hexit as (ev & Hev & _). rewrite Hev.
  destruct (Risk.worker_output result) as [o|];
    (destruct (Risk.error result) as [e|]; [destruct (truthy_str (Some e))|]);
    (eexists _, w'; split; [reflexivity | apply truthy_insert_dict]).
Qed.

(** X19. What the risk bridge writes. The node changes the field
    [risk_agent_output] and no other, and the value it writes is never
    empty: it holds the evaluation of the subgraph under "evaluation", or it
    is the single key "error" with the message of the exception that ended
    the subgraph or the construction of its state. An evaluation that is
    not valid is there only because the last answer read at the console was
    [n]. *)
Theorem risk_subgraph_node_output context w :
  ∃ d w',
    risk_subgraph_node risk_chain console fmt_2f unbound_evaluation context w
    = (set_risk_agent_output d context, w')
    ∧ truthy (Some d) = true
    ∧ ((∃ ev, d !! "evaluation" = Some (VDict (dump_risk_evaluation ev))
              ∧ (Risk.is_valid ev = false →
                 0 < stdin_reads w' ∧ console (stdin_reads w' - 1) = "n"))
       ∨ ∃ e, d = <["error" := VStr e]> ∅).
Proof.
  unfold risk_subgraph_node.
  destruct (proposed_trade context) as [[action quantity]|e].
  2:{ eexists _, w. split; [reflexivity|]. split; [apply truthy_insert_dict | eauto]. }
  pose proof (risk_run_exits risk_chain console fmt_2f unbound_evaluation
                default_recursion_limit) as [Hexit _].
  specialize (Hexit (Risk.initial_state (symbol context)
                       (current_price_of (prices context)) action quantity) w).
  unfold invoke.
  change (entry_point (Risk.create_risk_subgraph _ _ _ _)) with "worker".
  destruct (run _ default_recursion_limit "worker" _ w) as [[[result|e] w'] tr].
  2:{ eexists _, w'. split; [reflexivity|]. split; [apply truthy_insert_dict | eauto]. }
  cbn [fst snd] in Hexit. destruct Hexit as (ev & Hev & _ & Hcases).
  rewrite Hev.
  assert (Hn : Risk.is_valid ev = false →
               0 < stdin_reads w' ∧ console (stdin_reads w' - 1) = "n").
  { intros Hv. destruct Hcases as [[Hv' _] | (_ & _ & ? & ?)]; [congruence | done]. }
  destruct (Risk.worker_output result) as [o|];
    (destruct (Risk.error result) as [e|]; [destruct (truthy_str (Some e))|]);
    (eexists _, w'; split; [reflexivity|]; split; [apply truthy_insert_dict|];
     left; exists ev; split; [|done];
     cbn [risk_agent_output set_risk_agent_output];
     rewrite ?(py_or_truthy _ (truthy_insert_dict _ _ _));
     rewrite ?(lookup_insert_ne _ "error" "evaluation") by done;
     by rewrite lookup_insert).
Qed.

(** The nodes that have a conditional edge. *)
Local Abbreviation routed_nodes :=
  ["supervisor"; "market_subgraph"; "sentiment_subgraph"; "risk_subgraph"].

Lemma routed_node_edges src :
  src ∈ routed_nodes →
  edges graph !! src = None
  ∧ conditional_edges graph !! src = Some (router, routing_table).
Proof.
  rewrite !elem_of_cons, elem_of_nil.
  intros [->|[->|[->|[->|[]]]]]; split; reflexivity.
Qed.

Lemma routing_table_declared key :
  key ∈ next_actions → ∃ t, routing_table !! key = Some t ∧ declared graph t = true.
Proof.
  unfold next_actions. rewrite !elem_of_cons, elem_of_nil.
  intros [->|[->|[->|[->|[->|[]]]]]]; eexists; (split; [reflexivity | by vm_compute]).
Qed.

Lemma fallback_router_key context : fallback_router context ∈ next_actions.
Proof.
  unfold fallback_router, next_actions.
  repeat (destruct (negb _); [set_solver|]). set_solver.
Qed.

(** The router, when the reply of its chain is no value of the literal. *)
Lemma router_falls_back context w :
  truthy (final_decision context) = false →
  (∀ a, router_chain (llm_calls w) = Returns a → a ∉ next_actions) →
  router context w = (Returns (fallback_router context), tick_llm 1 w).
Proof.
  intros Hf Hbad. unfold route_next_subgraph. rewrite Hf.
  destruct (router_chain (llm_calls w)) as [a|e]; [|done].
  rewrite bool_decide_eq_false_2; [done|]. by apply Hbad.
Qed.

(** X20. Routing never fails. Whatever the router's chain replies or
    raises, [route_next_subgraph] returns one of the five declared keys, the
    table of the conditional edges sends that key to a node of the graph or
    to the terminal marker, and so the successor of every routed node
    resolves. Once a final decision is present the key is "END" and the
    chain is not called; otherwise the chain is called exactly once. *)
Theorem route_next_subgraph_declared context w :
  ∃ key w' t,
    route_next_subgraph router_chain context w = (Returns key, w')
    ∧ key ∈ next_actions
    ∧ routing_table !! key = Some t ∧ declared graph t = true
    ∧ (∀ src, src ∈ routed_nodes → resolve_next graph src context w = (Returns t, w'))
    ∧ (truthy (final_decision context) = true → key = "END" ∧ t = END ∧ w' = w)
    ∧ (truthy (final_decision context) = false → w' = tick_llm 1 w).
Proof.
  assert (Hkey : ∃ key w', router context w = (Returns key, w')
                   ∧ key ∈ next_actions
                   ∧ (truthy (final_decision context) = true → key = "END" ∧ w' = w)
                   ∧ (truthy (final_decision context) = false → w' = tick_llm 1 w)).
  { unfold route_next_subgraph. destruct (truthy (final_decision context)).
    { eexists _, _. split; [reflexivity|]. split_and!; [set_solver | done..]. }
    destruct (router_chain (llm_calls w)) as [a|e].
    - case_bool_decide.
      + eexists _, _. split; [reflexivity|]. split_and!; done.
      + eexists _, _. split; [reflexivity|].
        split_and!; [apply fallback_router_key | done..].
    - eexists _, _. split; [reflexivity|].
      split_and!; [apply fallback_router_key | done..]. }
  destruct Hkey as (key & w' & Hr & Hin & Hdone & Hcall).
  destruct (routing_table_declared key Hin) as (t & Ht & Hdecl).
  exists key, w', t. split_and!; try done.
  - intros src [Hno Hcond]%routed_node_edges.
    by eapply resolve_next_conditional.
  - intros Hf. destruct (Hdone Hf) as [-> ->]. revert Ht. by intros [= <-].
Qed.

(** The sentiment bridge touches [sentiment_agent_output] only. *)
Lemma sentiment_node_frame context w :
  let context' := (sentiment_node context w).1 in
  market_agent_output context' = market_agent_output context
  ∧ risk_agent_output context' = risk_agent_output context
  ∧ final_decision context' = final_decision context
  ∧ decision_agent_output context' = decision_agent_output context
  ∧ supervisor_plan context' = supervisor_plan context.
Proof.
  cbn zeta. unfold sentiment_subgraph_node.
  destruct (sentiment_subgraph _ w) as [[result|e] w']; [|done].
  destruct (sentiment_worker_output result), (sentiment_evaluation result),
    (sentiment_error result) as [e|]; try destruct (truthy_str (Some e)); done.
Qed.

Lemma supervisor_node_frame context w :
  ∃ plan rules,
    supervisor_node context w = (set_supervisor_plan plan rules context, tick_llm 1 w).
Proof. unfold supervisor_agent. destruct (supervisor_chain _); eauto. Qed.

Lemma final_node_frame context w :
  let context' := (final_node context w).1 in
  truthy (final_decision context') = true
  ∧ market_agent_output context' = market_agent_output context
  ∧ sentiment_agent_output context' = sentiment_agent_output context
  ∧ risk_agent_output context' = risk_agent_output context
  ∧ supervisor_plan context' = supervisor_plan context.
Proof. cbn zeta. unfold final_decision_node. by destruct (final_chain _). Qed.

(** The successor of a routed node when the router is on its fallback. *)
Lemma resolve_next_fallback src context w next :
  (∀ n a, router_chain n = Returns a → a ∉ next_actions) →
  src ∈ routed_nodes →
  truthy (final_decision context) = false → fallback_router context = next →
  resolve_next graph src context w
  = (Returns (default END (routing_table !! next)), tick_llm 1 w).
Proof.
  intros Hrouter [Hno Hcond]%routed_node_edges Hf <-.
  destruct (routing_table_declared (fallback_router context)
              (fallback_router_key context)) as (t & Ht & _).
  rewrite Ht. eapply resolve_next_conditional; [done | done | | done].
  apply router_falls_back; [done | apply Hrouter].
Qed.

(** The four stages before the aggregator, on the fallback router. *)
Lemma fallback_pipeline_run fuel context w :
  (∀ n a, router_chain n = Returns a → a ∉ next_actions) →
  (∀ c v, truthy (sentiment_agent_output (sentiment_node c v).1) = true) →
  truthy (market_agent_output context) = false →
  truthy (sentiment_agent_output context) = false →
  truthy (risk_agent_output context) = false →
  truthy (final_decision context) = false →
  ∃ c4 v4 tr,
    run graph (5 + fuel) "supervisor" context w
    = (Returns (final_node c4 v4).1, (final_node c4 v4).2, tr)
    ∧ map fst tr = ["supervisor"; "market_subgraph"; "sentiment_subgraph";
                    "risk_subgraph"; "final_decision"]
    ∧ is_Some (supervisor_plan c4)
    ∧ truthy (market_agent_output c4) = true
    ∧ truthy (sentiment_agent_output c4) = true
    ∧ truthy (risk_agent_output c4) = true.
Proof.
  intros Hrouter Hsent Hm Hs Hr Hf.
  destruct (supervisor_node_frame context w) as (plan & rules & Hsup).
  set (c1 := set_supervisor_plan plan rules context) in *.
  set (w1 := tick_llm 1 w) in *.
  destruct (market_subgraph_node_parts c1 (tick_llm 1 w1)) as (d2 & w2 & Hmarket & Hd2).
  set (c2 := set_market_agent_output d2 c1) in *.
  destruct (sentiment_node c2 (tick_llm 1 w2)) as [c3 w3] eqn:Hsentiment.
  pose proof (sentiment_node_frame c2 (tick_llm 1 w2)) as Hframe.
  pose proof (Hsent c2 (tick_llm 1 w2)) as Hs3.
  rewrite Hsentiment in Hframe, Hs3. cbn [fst] in Hframe, Hs3.
  destruct Hframe as (Hm3 & Hr3 & Hf3 & _ & Hp3).
  destruct (risk_subgraph_node_parts c3 (tick_llm 1 w3)) as (d4 & w4 & Hrisk & Hd4).
  set (c4 := set_risk_agent_output d4 c3) in *.
  exists c4, (tick_llm 1 w4),
         [("supervisor", context); ("market_subgraph", c1);
          ("sentiment_subgraph", c2); ("risk_subgraph", c3);
          ("final_decision", c4)].
  split_and!.
  - cbn [Nat.add].
    erewrite run_next; [| reflexivity | exact Hsup | | ].
    2:{ apply (resolve_next_fallback _ c1 w1 "market_subgraph");
          [done | set_solver | done |].
        unfold fallback_router. cbn [market_agent_output c1 set_supervisor_plan].
        by rewrite Hm. }
    2:{ done. }
    erewrite run_next; [| reflexivity | exact Hmarket | | ].
    2:{ apply (resolve_next_fallback _ c2 w2 "sentiment_subgraph");
          [done | set_solver | done |].
        unfold fallback_router.
        cbn [market_agent_output sentiment_agent_output c2 c1
             set_market_agent_output set_supervisor_plan].
        by rewrite Hd2, Hs. }
    2:{ done. }
    erewrite run_next; [| reflexivity | exact Hsentiment | | ].
    2:{ apply (resolve_next_fallback _ c3 w3 "risk_subgraph");
          [done | set_solver | |].
        - by rewrite Hf3.
        - unfold fallback_router. rewrite Hm3, Hs3, Hr3.
          cbn [market_agent_output risk_agent_output c2 c1
               set_market_agent_output set_supervisor_plan].
          by rewrite Hd2, Hr. }
    2:{ done. }
    erewrite run_next; [| reflexivity | exact Hrisk | | ].
    2:{ apply (resolve_next_fallback _ c4 w4 "final_decision");
          [done | set_solver | |].
        - cbn [final_decision c4 set_risk_agent_output]. by rewrite Hf3.
        - unfold fallback_router.
          cbn [market_agent_output sentiment_agent_output risk_agent_output
               final_decision c4 set_risk_agent_output].
          rewrite Hm3, Hs3, Hd4, Hf3.
          cbn [market_agent_output final_decision c2 c1
               set_market_agent_output set_supervisor_plan].
          by rewrite Hd2, Hf. }
    2:{ done. }
    erewrite run_last; [reflexivity | reflexivity | apply surjective_pairing |].
    by apply resolve_next_static.
  - done.
  - cbn [supervisor_plan c4 set_risk_agent_output]. rewrite Hp3. by eexists.
  - cbn [market_agent_output c4 set_risk_agent_output]. by rewrite Hm3.
  - done.
  - done.
Qed.

(** X21. The pipeline on the fallback router. When no reply of the router's
    chain is a value of the literal (it raises, or answers something else)
    and the sentiment bridge leaves an output that is not empty, a run from
    a context with no market, sentiment or risk output and no final
    decision invokes exactly five nodes, in the order supervisor, market,
    sentiment, risk, final decision, within any step budget of at least 5,
    and returns a context in which the plan, the three outputs and the final
    decision are all present. *)
Theorem fallback_pipeline_runs_every_stage fuel context w :
  (∀ n a, router_chain n = Returns a → a ∉ next_actions) →
  (∀ c v, truthy (sentiment_agent_output
                    (sentiment_subgraph_node sentiment_subgraph c v).1) = true) →
  truthy (market_agent_output context) = false →
  truthy (sentiment_agent_output context) = false →
  truthy (risk_agent_output context) = false →
  truthy (final_decision context) = false →
  ∃ final wf tr,
    invoke graph (5 + fuel) context w = (Returns final, wf, tr)
    ∧ map fst tr = ["supervisor"; "market_subgraph"; "sentiment_subgraph";
                    "risk_subgraph"; "final_decision"]
    ∧ is_Some (supervisor_plan final)
    ∧ truthy (market_agent_output final) = true
    ∧ truthy (sentiment_agent_output final) = true
    ∧ truthy (risk_agent_output final) = true
    ∧ truthy (final_decision final) = true.
Proof.
  intros Hrouter Hsent Hm Hs Hr Hf.
  destruct (fallback_pipeline_run fuel context w Hrouter Hsent Hm Hs Hr Hf)
    as (c4 & v4 & tr & Hrun & Htr & Hp4 & Hm4 & Hs4 & Hr4).
  destruct (final_node_frame c4 v4) as (Hf5 & Hm5 & Hs5 & Hr5 & Hp5).
  exists (final_node c4 v4).1, (final_node c4 v4).2, tr.
  split_and!; [exact Hrun | exact Htr | | | | | exact Hf5]; congruence.
Qed.

Lemma supervisor_then_end fuel context w :
  truthy (final_decision context) = false →
  router_chain (S (llm_calls w)) = Returns "END" →
  ∃ plan rules,
    run graph (S fuel) "supervisor" context w
    = (Returns (set_supervisor_plan plan rules context), tick_llm 2 w,
       [("supervisor", context)]).
Proof.
  intros Hf Hend.
  destruct (supervisor_node_frame context w) as (plan & rules & Hsup).
  exists plan, rules.
  eapply run_last; [reflexivity | exact Hsup |].
  eapply (resolve_next_conditional _ _ _ _ _ _ "END");
    [reflexivity | reflexivity | | reflexivity].
  unfold route_next_subgraph. cbn [final_decision set_supervisor_plan]. rewrite Hf.
  cbn [tick_llm llm_calls]. replace (llm_calls w + 1) with (S (llm_calls w)) by lia.
  rewrite Hend. rewrite bool_decide_eq_true_2 by set_solver.
  f_equal. unfold tick_llm. cbn [llm_calls stdin_reads]. f_equal. lia.
Qed.

(** X22. The router can end the run before any decision exists. When a
    context without a final decision reaches the supervisor and the router's
    chain then answers "END", the run stops after that one node: the context
    it returns has the plan and, for the rest, the fields it started with,
    so still no final decision. *)
Theorem router_end_skips_final_decision fuel context w :
  truthy (final_decision context) = false →
  router_chain (S (llm_calls w)) = Returns "END" →
  ∃ final,
    invoke graph (S fuel) context w
    = (Returns final, tick_llm 2 w, [("supervisor", context)])
    ∧ is_Some (supervisor_plan final)
    ∧ final_decision final = final_decision context
    ∧ decision_agent_output final = decision_agent_output context
    ∧ market_agent_output final = market_agent_output context
    ∧ risk_agent_output final = risk_agent_output context.
Proof.
  intros Hf Hend. unfold invoke. change (entry_point graph) with "supervisor".
  destruct (supervisor_then_end fuel context w Hf Hend) as (plan & rules & ->).
  by eexists.
Qed.

(** A sentiment subgraph that reports nothing: no worker output, no
    evaluation and no error. *)
Local Abbreviation silent :=
  {| sentiment_worker_output := None; sentiment_evaluation := None;
     sentiment_error := None |}.

Lemma sentiment_silent_loop fuel context w :
  (∀ n a, router_chain n = Returns a → a ∉ next_actions) →
  (∀ sym v, ∃ v', sentiment_subgraph sym v = (Returns silent, v')) →
  truthy (market_agent_output context) = true →
  truthy (sentiment_agent_output context) = false →
  truthy (final_decision context) = false →
  ∃ wf, run graph fuel "sentiment_subgraph" context w
        = (Raises step_limit_exceeded, wf, replicate fuel ("sentiment_subgraph", context)).
Proof.
  intros Hrouter Hsilent Hm Hs Hf. revert w.
  induction fuel as [|fuel IH]; intros w; [by eexists|].
  destruct (Hsilent (symbol context) w) as [v' Hv'].
  assert (Hnode : sentiment_node context w = (context, v')).
  { unfold sentiment_subgraph_node. by rewrite Hv'. }
  destruct (IH (tick_llm 1 v')) as [wf Hrun].
  exists wf.
  erewrite run_next; [| reflexivity | exact Hnode | | ].
  2:{ apply (resolve_next_fallback _ context v' "sentiment_subgraph");
        [done | set_solver | done |].
      unfold fallback_router. by rewrite Hm, Hs. }
  2:{ done. }
  change (default END (routing_table !! "sentiment_subgraph")) with "sentiment_subgraph".
  by rewrite Hrun.
Qed.

Lemma silent_sentiment_run fuel context w :
  (∀ n a, router_chain n = Returns a → a ∉ next_actions) →
  (∀ sym v, ∃ v', sentiment_subgraph sym v = (Returns silent, v')) →
  truthy (market_agent_output context) = false →
  truthy (sentiment_agent_output context) = false →
  truthy (final_decision context) = false →
  ∃ wf c1 c2,
    run graph (2 + fuel) "supervisor" context w
    = (Raises step_limit_exceeded, wf,
       ("supervisor", context) :: ("market_subgraph", c1)
       :: replicate fuel ("sentiment_subgraph", c2)).
Proof.
  intros Hrouter Hsilent Hm Hs Hf.
  destruct (supervisor_node_frame context w) as (plan & rules & Hsup).
  set (c1 := set_supervisor_plan plan rules context) in *.
  destruct (market_subgraph_node_parts c1 (tick_llm 1 (tick_llm 1 w)))
    as (d2 & w2 & Hmarket & Hd2).
  set (c2 := set_market_agent_output d2 c1) in *.
  destruct (sentiment_silent_loop fuel c2 (tick_llm 1 w2)) as [wf Hloop]; try done.
  exists wf, c1, c2. cbn [Nat.add].
  erewrite run_next; [| reflexivity | exact Hsup | | ].
  2:{ apply (resolve_next_fallback _ c1 _ "market_subgraph");
        [done | set_solver | done |].
      unfold fallback_router. cbn [market_agent_output c1 set_supervisor_plan].
      by rewrite Hm. }
  2:{ done. }
  erewrite run_next; [| reflexivity | exact Hmarket | | ].
  2:{ apply (resolve_next_fallback _ c2 w2 "sentiment_subgraph");
        [done | set_solver | done |].
      unfold fallback_router.
      cbn [market_agent_output sentiment_agent_output c2 c1
           set_market_agent_output set_supervisor_plan].
      by rewrite Hd2, Hs. }
  2:{ done. }
  change (default END (routing_table !! "sentiment_subgraph")) with "sentiment_subgraph".
  by rewrite Hloop.
Qed.

(** X23. A sentiment subgraph that reports nothing stalls the pipeline on
    the fallback router. The sentiment output stays empty, the router sends
    the run to the sentiment node again, and the run ends on the step limit
    whatever the budget: after the supervisor and the market stage every
    further step is the sentiment node, invoked on the same context, and the
    risk stage and the aggregator are never reached. *)
Theorem silent_sentiment_exhausts_budget fuel context w :
  (∀ n a, router_chain n = Returns a → a ∉ next_actions) →
  (∀ sym v, ∃ v', sentiment_subgraph sym v
                  = (Returns {| sentiment_worker_output := None;
                                sentiment_evaluation := None;
                                sentiment_error := None |}, v')) →
  truthy (market_agent_output context) = false →
  truthy (sentiment_agent_output context) = false →
  truthy (final_decision context) = false →
  ∃ wf c1 c2,
    invoke graph (2 + fuel) context w
    = (Raises step_limit_exceeded, wf,
       ("supervisor", context) :: ("market_subgraph", c1)
       :: replicate fuel ("sentiment_subgraph", c2)).
Proof.
  intros Hrouter Hsilent Hm Hs Hf.
  unfold invoke. change (entry_point graph) with "supervisor".
  by apply silent_sentiment_run.
Qed.

(** The decisions a context can hold: none, or what the aggregator wrote. *)
Local Abbreviation decided context :=
  ((final_decision context = None
    ∨ (∃ d, final_decision context = Some (dump_decision d))
    ∨ (∃ e, final_decision context = Some (safe_fallback e)))
   ∧ (decision_agent_output context = None
      ∨ ∃ d, decision_agent_output context = Some (dump_decision d))).

Lemma nodes_preserve_decided name f context w :
  nodes graph !! name = Some f → decided context → decided (f context w).1.
Proof.
  intros Hnode Hdec. cbn in Hnode.
  repeat (apply lookup_insert_Some in Hnode as [[_ <-] | [_ Hnode]]);
    [| | | | | by rewrite lookup_empty in Hnode].
  - unfold final_decision_node. destruct (final_chain _) as [d|e]; cbn.
    + split; [right; left|right]; by exists d.
    + split; [right; right; by exists e | apply Hdec].
  - by destruct (risk_subgraph_node_parts context w) as (d & w' & -> & _).
  - by destruct (sentiment_node_frame context w) as (_ & _ & -> & -> & _).
  - by destruct (market_subgraph_node_parts context w) as (d & w' & -> & _).
  - by destruct (supervisor_node_frame context w) as (plan & rules & ->).
Qed.

Lemma run_preserves_decided fuel cur context w final wf tr :
  decided context →
  run graph fuel cur context w = (Returns final, wf, tr) → decided final.
Proof.
  revert cur context w wf tr. induction fuel as [|fuel IH]; [done|].
  intros cur context w wf tr Hdec. cbn [run].
  destruct (nodes graph !! cur) as [f|] eqn:Hnode; [|done].
  pose proof (nodes_preserve_decided cur f context w Hnode Hdec) as Hdec'.
  destruct (f context w) as [c' w']. cbn [fst] in Hdec'.
  destruct (resolve_next graph cur c' w') as [[t|e] w'']; [|done].
  case_bool_decide.
  - by intros [= <- _ _].
  - destruct (run graph fuel t c' w'') as [[r wf'] tr'] eqn:E.
    intros [= -> _ _]. by eapply IH.
Qed.

End Bridges.

(** ** The decision engine *)

Section DecisionEngine.
Import LangGraph Hierarchical Engine.

Variable market_facts : string → list Q → list Q → outcome Market.MarketWorkerOutput.
Variable market_chain : nat → Market.MarketWorkerOutput → outcome Market.MarketEvaluation.
Variable risk_chain : nat → Risk.RiskWorkerOutput → outcome Risk.RiskEvaluation.
Variable console : nat → string.
Variable fmt_2f : Q → string.
Variable unbound_evaluation : exn.
Variable sentiment_subgraph : string → World → outcome SentimentResult * World.
Variable supervisor_chain : nat → outcome SupervisorPlan.
Variable router_chain : nat → outcome string.
Variable final_chain : nat → outcome FinalTradingDecision.
Variable format_rule : pyval → outcome string.
Variable timestamp : string.
Variable processing_time_ms : Q.
Variable result_is_context : bool.

Local Abbreviation engine_decide :=
  (decide market_facts market_chain risk_chain console fmt_2f unbound_evaluation
     sentiment_subgraph supervisor_chain router_chain final_chain format_rule
     timestamp processing_time_ms result_is_context).

Lemma decision_keys (d : gmap string pyval) symbol rules plan :
  let d' :=
    if result_is_context then
      match rules with
      | [] => <["supervisor_plan" := plan]> (<["symbol" := VStr symbol]>
                (<["processing_time_ms" := VFloat processing_time_ms]> d))
      | _ => <["enriched_rules" := VList rules]>
               (<["supervisor_plan" := plan]> (<["symbol" := VStr symbol]>
                 (<["processing_time_ms" := VFloat processing_time_ms]> d)))
      end
    else <["symbol" := VStr symbol]>
           (<["processing_time_ms" := VFloat processing_time_ms]> d) in
  d' !! "action" = d !! "action" ∧ d' !! "confidence" = d !! "confidence"
  ∧ d' !! "error" = d !! "error" ∧ d' !! "symbol" = Some (VStr symbol).
Proof.
  cbn zeta. destruct result_is_context; [destruct rules|];
    rewrite ?lookup_insert_ne by done; rewrite ?lookup_insert; done.
Qed.

Lemma workflow_error_keys e :
  workflow_error timestamp e !! "action" = Some (VStr "hold")
  ∧ workflow_error timestamp e !! "confidence" = Some (VFloat 0).
Proof. split; reflexivity. Qed.

(** What the engine extracts from a context the graph returned. *)
Lemma extracted_decision_keys result :
  (final_decision result = None
   ∨ (∃ d, final_decision result = Some (dump_decision d))
   ∨ (∃ e, final_decision result = Some (safe_fallback e))) →
  (decision_agent_output result = None
   ∨ ∃ d, decision_agent_output result = Some (dump_decision d)) →
  ∃ d, match py_or_opt (final_decision result) (decision_agent_output result) with
       | Some d => d
       | None => no_decision timestamp
       end = d
       ∧ (∃ a, d !! "action" = Some (VStr a))
       ∧ (∃ c, d !! "confidence" = Some (VFloat c))
       ∧ d !! "error" = None.
Proof.
  intros Hfinal Hagent. unfold py_or_opt.
  destruct Hfinal as [-> | [[dec ->] | [e ->]]].
  - cbn [truthy]. destruct Hagent as [-> | [dec ->]];
      (eexists; split; [reflexivity|]; split_and!; [by eexists | by eexists | done]).
  - unfold dump_decision at 1. rewrite truthy_insert_dict.
    eexists; split; [reflexivity|]. split_and!; [by eexists | by eexists | done].
  - unfold safe_fallback at 1. rewrite truthy_insert_dict.
    eexists; split; [reflexivity|]. split_and!; [by eexists | by eexists | done].
Qed.

Local Abbreviation answers d :=
  ((∃ a, d !! "action" = Some (VStr a))
   ∧ (∃ c, d !! "confidence" = Some (VFloat c))
   ∧ (is_Some (d !! "error") →
      ∃ e, d = workflow_error timestamp e
           ∧ d !! "action" = Some (VStr "hold") ∧ d !! "confidence" = Some (VFloat 0))).

Lemma workflow_error_answers e : answers (workflow_error timestamp e).
Proof.
  destruct (workflow_error_keys e) as [Ha Hc]. rewrite Ha, Hc.
  split_and!; [by eexists | by eexists |]. intros _. by exists e.
Qed.

Lemma returned_decision_answers symbol rules result :
  (final_decision result = None
   ∨ (∃ d, final_decision result = Some (dump_decision d))
   ∨ (∃ e, final_decision result = Some (safe_fallback e))) →
  (decision_agent_output result = None
   ∨ ∃ d, decision_agent_output result = Some (dump_decision d)) →
  answers
    (let final_decision :=
       py_or_opt (final_decision result) (decision_agent_output result) in
     let final_decision :=
       match final_decision with
       | None => no_decision timestamp
       | Some d => d
       end in
     let final_decision :=
       <["processing_time_ms" := VFloat processing_time_ms]> final_decision in
     let final_decision := <["symbol" := VStr symbol]> final_decision in
     if result_is_context then
       let final_decision :=
         <["supervisor_plan" := VOptDict (supervisor_plan result)]> final_decision in
       match rules with
       | [] => final_decision
       | _ => <["enriched_rules" := VList rules]> final_decision
       end
     else final_decision).
Proof.
  intros Hfinal Hagent. cbv zeta.
  destruct (extracted_decision_keys result Hfinal Hagent) as (d & -> & Hda & Hdc & Hde).
  destruct (decision_keys d symbol rules (VOptDict (supervisor_plan result)))
    as (Ha & Hc & He & _).
  cbv zeta in Ha, Hc, He.
  destruct result_is_context; [destruct rules|];
    (rewrite Ha, Hc, He, Hde; split_and!; [done | done | by intros [? [=]]]).
Qed.

(** X24. [decide] always answers with an action. Whatever the chains, the
    console, the rules and the inputs, the dictionary it returns has an
    "action" that is a string and a "confidence" that is a number; the key
    "error" is present only in the answer of the [except] branch, and then
    the action is "hold" with confidence 0. *)
Theorem decide_always_answers symbol prices volumes user_request rules w :
  let d := (decide market_facts market_chain risk_chain console fmt_2f
              unbound_evaluation sentiment_subgraph supervisor_chain router_chain
              final_chain format_rule timestamp processing_time_ms
              result_is_context symbol prices volumes user_request rules w).1 in
  (∃ a, d !! "action" = Some (VStr a))
  ∧ (∃ c, d !! "confidence" = Some (VFloat c))
  ∧ (is_Some (d !! "error") →
     ∃ e, d = workflow_error timestamp e
          ∧ d !! "action" = Some (VStr "hold") ∧ d !! "confidence" = Some (VFloat 0)).
Proof.
  cbv zeta. unfold decide.
  destruct (format_rules format_rule rules) as [trading_rules|e];
    [|apply workflow_error_answers].
  cbv zeta. unfold invoke.
  match goal with
  | |- context [run ?g ?n ?cur ?c w] =>
    pose proof (λ final wf tr, run_preserves_decided market_facts market_chain
                  risk_chain console fmt_2f unbound_evaluation sentiment_subgraph
                  supervisor_chain router_chain final_chain n cur c w final wf tr) as Hrun;
    generalize dependent (run g n cur c w)
  end.
  intros [[[result|e] w'] tr] Hrun; cbn [fst]; [|apply workflow_error_answers].
  destruct (Hrun result w' tr) as [Hfinal Hagent]; [by split; left | done |].
  by apply returned_decision_answers.
Qed.

Lemma truthy_dump_decision dec : truthy (Some (dump_decision dec)) = true.
Proof. apply truthy_insert_dict. Qed.

(** X25. The decision of the aggregator reaches the caller unchanged. With
    rules that format, the router on its fallback, a sentiment bridge that
    leaves an output and an aggregator that answers [dec], [decide] returns
    the action, confidence, quantity and risk approval of [dec], whatever
    the market and risk stages found: no key "error", and the symbol of the
    request added. *)
Theorem decide_reports_aggregator symbol prices volumes user_request rules w
    trading_rules dec :
  format_rules format_rule rules = Returns trading_rules →
  (∀ n a, router_chain n = Returns a → a ∉ next_actions) →
  (∀ c v, truthy (sentiment_agent_output
                    (sentiment_subgraph_node sentiment_subgraph c v).1) = true) →
  (∀ n, final_chain n = Returns dec) →
  let d := (decide market_facts market_chain risk_chain console fmt_2f
              unbound_evaluation sentiment_subgraph supervisor_chain router_chain
              final_chain format_rule timestamp processing_time_ms
              result_is_context symbol prices volumes user_request rules w).1 in
  d !! "action" = Some (VStr (action dec))
  ∧ d !! "confidence" = Some (VFloat (confidence dec))
  ∧ d !! "quantity" = Some (VInt (quantity dec))
  ∧ d !! "risk_approved" = Some (VBool (risk_approved dec))
  ∧ d !! "symbol" = Some (VStr symbol)
  ∧ d !! "error" = None.
Proof.
  intros Hfmt Hrouter Hsent Hdec. cbv zeta. unfold decide. rewrite Hfmt. cbv zeta.
  unfold invoke.
  change (entry_point (create_hierarchical_graph _ _ _ _ _ _ _ _ _ _)) with "supervisor".
  change default_recursion_limit with (5 + 20).
  match goal with
  | |- context [run _ _ _ ?c w] =>
    destruct (fallback_pipeline_run market_facts market_chain risk_chain console
                fmt_2f unbound_evaluation sentiment_subgraph supervisor_chain
                router_chain final_chain 20 c w)
      as (c4 & v4 & tr & -> & _); [done..|]
  end.
  unfold final_decision_node. rewrite Hdec.
  cbn [fst snd final_decision decision_agent_output set_decision_agent_output
       set_final_decision supervisor_plan].
  unfold py_or_opt. rewrite truthy_dump_decision.
  destruct result_is_context; [destruct rules|]; split_and!; reflexivity.
Qed.

(** X26. A run the router ends right after the supervisor has no decision,
    and [decide] then answers with its default: action "hold", confidence 0
    and the reasoning "No decision produced by workflow", with no key
    "error". Two calls of a language model were made. *)
Theorem decide_without_decision symbol prices volumes user_request rules w trading_rules :
  format_rules format_rule rules = Returns trading_rules →
  router_chain (S (llm_calls w)) = Returns "END" →
  let r := decide market_facts market_chain risk_chain console fmt_2f
             unbound_evaluation sentiment_subgraph supervisor_chain router_chain
             final_chain format_rule timestamp processing_time_ms
             result_is_context symbol prices volumes user_request rules w in
  r.1 !! "action" = Some (VStr "hold")
  ∧ r.1 !! "confidence" = Some (VFloat 0)
  ∧ r.1 !! "reasoning" = Some (VStr "No decision produced by workflow")
  ∧ r.1 !! "timestamp" = Some (VStr timestamp)
  ∧ r.1 !! "error" = None
  ∧ r.2 = tick_llm 2 w.
Proof.
  intros Hfmt Hend. cbv zeta. unfold decide. rewrite Hfmt. cbv zeta.
  unfold invoke.
  change (entry_point (create_hierarchical_graph _ _ _ _ _ _ _ _ _ _)) with "supervisor".
  change default_recursion_limit with (S 24).
  match goal with
  | |- context [run _ _ _ ?c w] =>
    destruct (supervisor_then_end market_facts market_chain risk_chain console
                fmt_2f unbound_evaluation sentiment_subgraph supervisor_chain
                router_chain final_chain 24 c w)
      as (plan & plan_rules & ->); [done..|]
  end.
  cbn [fst snd final_decision decision_agent_output set_supervisor_plan new_context
       supervisor_plan].
  unfold py_or_opt. cbn [truthy].
  destruct result_is_context; [destruct rules|]; split_and!; reflexivity.
Qed.

(** X27. When the sentiment subgraph reports nothing and the router is on
    its fallback, [decide] answers with the dictionary of its [except]
    branch for the step-limit failure: action "hold", confidence 0, and the
    failure under "error". *)
Theorem decide_on_silent_sentiment symbol prices volumes user_request rules w
    trading_rules :
  format_rules format_rule rules = Returns trading_rules →
  (∀ n a, router_chain n = Returns a → a ∉ next_actions) →
  (∀ sym v, ∃ v', sentiment_subgraph sym v
                  = (Returns {| sentiment_worker_output := None;
                                sentiment_evaluation := None;
                                sentiment_error := None |}, v')) →
  (decide market_facts market_chain risk_chain console fmt_2f
     unbound_evaluation sentiment_subgraph supervisor_chain router_chain
     final_chain format_rule timestamp processing_time_ms
     result_is_context symbol prices volumes user_request rules w).1
  = workflow_error timestamp step_limit_exceeded.
Proof.
  intros Hfmt Hrouter Hsilent. unfold decide. rewrite Hfmt. cbv zeta.
  unfold invoke.
  change (entry_point (create_hierarchical_graph _ _ _ _ _ _ _ _ _ _)) with "supervisor".
  change default_recursion_limit with (2 + 23).
  match goal with
  | |- context [run _ _ _ ?c w] =>
    destruct (silent_sentiment_run market_facts market_chain risk_chain
                console fmt_2f unbound_evaluation sentiment_subgraph supervisor_chain
                router_chain final_chain 23 c w)
      as (wf & c1 & c2 & ->); [done..|]
  end.
  reflexivity.
Qed.

End DecisionEngine.

(** ** Further concrete runs *)

Lemma market_invoke_returns_only_valid_witness :
  ∃ final wf tr,
    invoke (Market.create_market_subgraph Stubs.market_facts Stubs.market_approves
              Stubs.fmt_2f Stubs.unbound_evaluation)
           default_recursion_limit Stubs.market_start Stubs.start
    = (Returns final, wf, tr)
    ∧ ∃ ev, Market.evaluation final = Some ev ∧ Market.is_valid ev = true
            ∧ Market.completed final = true ∧ Market.error final = None
            ∧ Market.retry_count final = 0%Z ∧ Market.max_retries final = 2%Z
            ∧ is_Some (Market.worker_output final).
Proof.
  destruct (invoke (Market.create_market_subgraph Stubs.market_facts
                      Stubs.market_approves Stubs.fmt_2f Stubs.unbound_evaluation)
                   default_recursion_limit Stubs.market_start Stubs.start)
    as [[[final|e] wf] tr] eqn:H.
  - exists final, wf, tr. split; [reflexivity|].
    apply (market_invoke_returns_only_valid _ _ _ _ _ _ _ _ _ _ H).
  - exfalso. vm_compute in H. discriminate H.
Defined.

Lemma market_accept_after_rejections_witness :
  let chain := Scenarios.market_rejects_once in
  let s := Stubs.market_start in
  let w := Stubs.start in
  (Stubs.market_facts (Market.symbol s) (Market.prices s) (Market.volumes s)
   = Returns Stubs.market_output
   ∧ (∀ j, j < 1 → ∃ ev, chain (llm_calls w + j) Stubs.market_output = Returns ev
                         ∧ Market.is_valid ev = false)
   ∧ chain (llm_calls w + 1) Stubs.market_output = Returns Stubs.market_approval
   ∧ Market.is_valid Stubs.market_approval = true)
  ∧ ∃ final tr,
      invoke (Market.create_market_subgraph Stubs.market_facts chain
                Stubs.fmt_2f Stubs.unbound_evaluation) (2 * (1 + 1) + 21) s w
      = (Returns final, tick_llm (1 + 1) w, tr)
      ∧ length tr = 2 * (1 + 1)
      ∧ Market.evaluation final = Some Stubs.market_approval
      ∧ Market.retry_count final = 0%Z.
Proof.
  intros chain s w.
  assert (H1 : Stubs.market_facts (Market.symbol s) (Market.prices s) (Market.volumes s)
               = Returns Stubs.market_output) by reflexivity.
  assert (H2 : ∀ j, j < 1 → ∃ ev, chain (llm_calls w + j) Stubs.market_output = Returns ev
                                  ∧ Market.is_valid ev = false).
  { intros j Hj. exists Stubs.market_rejection. destruct j; [split; reflexivity | lia]. }
  assert (H3 : chain (llm_calls w + 1) Stubs.market_output = Returns Stubs.market_approval)
    by reflexivity.
  assert (H4 : Market.is_valid Stubs.market_approval = true) by reflexivity.
  split; [by split_and!|].
  apply (market_accept_after_rejections Stubs.market_facts chain Stubs.fmt_2f
           Stubs.unbound_evaluation 1 21 s w _ _ H1 H2 H3 H4).
Defined.

Lemma market_evaluator_uses_first_parsed_reply_witness :
  let chain := Scenarios.market_fails_once in
  let s := Stubs.market_after_two_rejections in
  let w := Stubs.start in
  (Market.worker_output s = Some Stubs.market_output
   ∧ 1 < Market.evaluator_attempts
   ∧ (∀ j, j < 1 → ∃ e, chain (llm_calls w + j) Stubs.market_output = Raises e)
   ∧ chain (llm_calls w + 1) Stubs.market_output = Returns Stubs.market_approval)
  ∧ Market.evaluation
      (Market.market_evaluator chain Stubs.fmt_2f Stubs.unbound_evaluation s w).1
    = Some Stubs.market_approval
  ∧ (Market.market_evaluator chain Stubs.fmt_2f Stubs.unbound_evaluation s w).2
    = tick_llm 2 w.
Proof.
  intros chain s w.
  assert (H1 : Market.worker_output s = Some Stubs.market_output) by reflexivity.
  assert (H2 : 1 < Market.evaluator_attempts) by (vm_compute; lia).
  assert (H3 : ∀ j, j < 1 → ∃ e, chain (llm_calls w + j) Stubs.market_output = Raises e).
  { intros j Hj. exists "request timed out". destruct j; [reflexivity | lia]. }
  assert (H4 : chain (llm_calls w + 1) Stubs.market_output
               = Returns Stubs.market_approval) by reflexivity.
  split; [by split_and!|].
  pose proof (market_evaluator_uses_first_parsed_reply chain Stubs.fmt_2f
                Stubs.unbound_evaluation 1 s w _ _ H1 H2 H3 H4) as H.
  destruct (Market.market_evaluator chain Stubs.fmt_2f Stubs.unbound_evaluation s w)
    as [s' w'].
  destruct H as (Hev & _ & _ & _ & _ & _ & Hw). split; [exact Hev | exact Hw].
Defined.

Lemma risk_retry_loop_exhausts_budget_witness :
  let w := Stubs.start in
  ((∀ c out, ∃ ev, Stubs.risk_rejects c out = Returns ev ∧ Risk.is_valid ev = false)
   ∧ (∀ n, Scenarios.answers_retry n ≠ "a" ∧ Scenarios.answers_retry n ≠ "n"))
  ∧ ∃ wf tr,
      invoke (Risk.create_risk_subgraph Stubs.risk_rejects Scenarios.answers_retry
                Stubs.fmt_2f Stubs.unbound_evaluation)
             default_recursion_limit Scenarios.risk_start w
      = (Raises step_limit_exceeded, wf, tr)
      ∧ stdin_reads wf = stdin_reads w + default_recursion_limit / 2.
Proof.
  intros w.
  assert (H1 : ∀ (c : nat) (out : Risk.RiskWorkerOutput),
             ∃ ev, Stubs.risk_rejects c out = Returns ev ∧ Risk.is_valid ev = false).
  { intros c out. exists Stubs.risk_rejection. split; reflexivity. }
  assert (H2 : ∀ n, Scenarios.answers_retry n ≠ "a" ∧ Scenarios.answers_retry n ≠ "n").
  { intros n. split; discriminate. }
  split; [by split|].
  apply (risk_retry_loop_exhausts_budget Stubs.risk_rejects Scenarios.answers_retry
           Stubs.fmt_2f Stubs.unbound_evaluation default_recursion_limit
           Scenarios.risk_start w H1 H2).
Defined.

Lemma risk_evaluator_uses_first_parsed_reply_witness :
  let chain := Scenarios.risk_fails_once in
  let s := Scenarios.risk_after_worker in
  let w := Stubs.start in
  (Risk.worker_output s = Some Scenarios.risk_output
   ∧ 1 < Risk.evaluator_attempts
   ∧ (∀ j, j < 1 → ∃ e, chain (llm_calls w + j) Scenarios.risk_output = Raises e
                        ∧ Risk.retry_prompt e = Returns tt)
   ∧ chain (llm_calls w + 1) Scenarios.risk_output = Returns Scenarios.risk_approval)
  ∧ Risk.evaluation
      (Risk.risk_evaluator chain Stubs.fmt_2f Stubs.unbound_evaluation s w).1
    = Some Scenarios.risk_approval
  ∧ (Risk.risk_evaluator chain Stubs.fmt_2f Stubs.unbound_evaluation s w).2
    = tick_llm 2 w.
Proof.
  intros chain s w.
  assert (H1 : Risk.worker_output s = Some Scenarios.risk_output) by reflexivity.
  assert (H2 : 1 < Risk.evaluator_attempts) by (vm_compute; lia).
  assert (H3 : ∀ j, j < 1 → ∃ e, chain (llm_calls w + j) Scenarios.risk_output = Raises e
                                 ∧ Risk.retry_prompt e = Returns tt).
  { intros j Hj. exists "request timed out". destruct j; [split; reflexivity | lia]. }
  assert (H4 : chain (llm_calls w + 1) Scenarios.risk_output
               = Returns Scenarios.risk_approval) by reflexivity.
  split; [by split_and!|].
  pose proof (risk_evaluator_uses_first_parsed_reply chain Stubs.fmt_2f
                Stubs.unbound_evaluation 1 s w _ _ H1 H2 H3 H4) as H.
  destruct (Risk.risk_evaluator chain Stubs.fmt_2f Stubs.unbound_evaluation s w)
    as [s' w'].
  destruct H as (Hev & _ & _ & _ & _ & Hw). split; [exact Hev | exact Hw].
Defined.

Lemma risk_evaluator_keeps_last_exception_witness :
  let chain := Scenarios.risk_fails in
  let s := Scenarios.risk_after_worker in
  let w := Stubs.start in
  (Risk.worker_output s = Some Scenarios.risk_output
   ∧ chain (llm_calls w) Scenarios.risk_output = Raises "request timed out"
   ∧ chain (llm_calls w + 1) Scenarios.risk_output = Raises "rate limit reached"
   ∧ chain (llm_calls w + 2) Scenarios.risk_output = Raises "reply is not valid JSON")
  ∧ Risk.error (Risk.risk_evaluator chain Stubs.fmt_2f Stubs.unbound_evaluation s w).1
    = Some "Evaluator failed: reply is not valid JSON".
Proof.
  intros chain s w.
  assert (H1 : Risk.worker_output s = Some Scenarios.risk_output) by reflexivity.
  assert (H2 : chain (llm_calls w) Scenarios.risk_output = Raises "request timed out")
    by reflexivity.
  assert (H3 : chain (llm_calls w + 1) Scenarios.risk_output = Raises "rate limit reached")
    by reflexivity.
  assert (H4 : chain (llm_calls w + 2) Scenarios.risk_output
               = Raises "reply is not valid JSON") by reflexivity.
  split; [by split_and!|].
  pose proof (risk_evaluator_keeps_last_exception chain Stubs.fmt_2f
                Stubs.unbound_evaluation s w _ _ _ _ H1 H2 H3 H4) as H.
  destruct (Risk.risk_evaluator chain Stubs.fmt_2f Stubs.unbound_evaluation s w)
    as [s' w'].
  destruct H as (_ & _ & _ & _ & He & _). exact He.
Defined.

(** The first call fails with an error text whose doubled brace is cut in
    two: the prompt of the second attempt cannot be built, no second call is
    made, and the evaluator reports the template error. *)
Example risk_evaluator_brace_at_cut :
  let '(s', w') :=
    Risk.risk_evaluator Scenarios.risk_fails_on_brace Stubs.fmt_2f
      Stubs.unbound_evaluation Scenarios.risk_after_worker Stubs.start in
  String.length Scenarios.brace_at_cut = 300
  ∧ Risk.retry_prompt Scenarios.brace_at_cut = Raises "expected '}' before end of string"
  ∧ Risk.error s' = Some "Evaluator failed: expected '}' before end of string"
  ∧ Risk.completed s' = true
  ∧ w' = tick_llm 1 Stubs.start.
Proof. vm_compute. repeat split. Qed.

Lemma check_risk_constraints_verdict_witness :
  ∃ r,
    RiskTools.check_risk_constraints "BTC/USD" "buy" 20000 50000 10000
      (Some (<["ETH/USD" := 9000%Q]> ∅)) None (8 # 100) None = Returns r
    ∧ (RiskTools.all_checks_passed r = true ↔ RiskTools.blockers r = [])
    ∧ RiskTools.risk_signal r
      = Some (if RiskTools.all_checks_passed r then "proceed" else "block").
Proof.
  destruct (RiskTools.check_risk_constraints "BTC/USD" "buy" 20000 50000 10000
              (Some (<["ETH/USD" := 9000%Q]> ∅)) None (8 # 100) None) as [r|e] eqn:H.
  - exists r. split; [reflexivity|].
    destruct (check_risk_constraints_verdict _ _ _ _ _ _ _ _ _ _ H) as (_ & Hiff & Hsig).
    split; [exact Hiff | exact Hsig].
  - exfalso. vm_compute in H. discriminate H.
Defined.

Lemma stop_loss_warns_without_blocking_witness :
  ("sell" ≠ "buy" ∧ ¬ (48000 == 0)%Q)
  ∧ ∃ r sl, RiskTools.check_risk_constraints "BTC/USD" "sell" 20000 45000 10000
              None (Some 48000%Q) (8 # 100) None = Returns r
            ∧ RiskTools.stop_loss_check r = Some sl
            ∧ RiskTools.recommended_action r
              = (if RiskTools.triggered sl then Some "close_position" else None)
            ∧ RiskTools.risk_signal r = Some "proceed".
Proof.
  assert (H1 : "sell" ≠ "buy") by discriminate.
  assert (H2 : ¬ (48000 == 0)%Q) by discriminate.
  split; [by split|].
  destruct (stop_loss_warns_without_blocking "BTC/USD" "sell" 20000 45000 10000
              None 48000 (8 # 100) None H1 H2)
    as (r & sl & Hr & Hsl & _ & _ & Hrec & _ & Hsig).
  exists r, sl. split_and!; [exact Hr | exact Hsl | exact Hrec | exact Hsig].
Defined.

Lemma risk_worker_buy_verdict_witness :
  Risk.proposed_action Scenarios.risk_start = "buy"
  ∧ ∃ out, Risk.worker_output (Risk.risk_worker Scenarios.risk_start) = Some out
           ∧ Risk.error (Risk.risk_worker Scenarios.risk_start) = None.
Proof.
  assert (H : Risk.proposed_action Scenarios.risk_start = "buy") by reflexivity.
  split; [exact H|].
  destruct (risk_worker_buy_verdict Scenarios.risk_start H) as (out & Hout & Herr & _).
  exists out. split; [exact Hout | exact Herr].
Defined.

Lemma risk_worker_non_buy_verdict_witness :
  Risk.proposed_action Scenarios.risk_sell ≠ "buy"
  ∧ ∃ out, Risk.worker_output (Risk.risk_worker Scenarios.risk_sell) = Some out
           ∧ Risk.all_checks_passed out = true
           ∧ Risk.risk_level out = "medium".
Proof.
  assert (H : Risk.proposed_action Scenarios.risk_sell ≠ "buy") by discriminate.
  split; [exact H|].
  destruct (risk_worker_non_buy_verdict Scenarios.risk_sell H)
    as (out & Hout & _ & Hall & Hlevel).
  exists out. split_and!; [exact Hout | exact Hall | exact Hlevel].
Defined.

Lemma market_worker_facts_short_inputs_witness :
  ∃ facts,
    MarketIndicators.market_worker_facts "BTC/USD" Stubs.prices Stubs.volumes
    = Returns facts
    ∧ MarketIndicators.facts_rsi facts = MarketTools.Num 50
    ∧ (MarketIndicators.trend_strength facts == 0)%Q.
Proof.
  destruct (MarketIndicators.market_worker_facts "BTC/USD" Stubs.prices
              Stubs.volumes) as [facts|e] eqn:H.
  - exists facts. split; [reflexivity|].
    destruct (market_worker_facts_short_inputs _ _ _ _ H)
      as (_ & _ & _ & _ & Hstrength & _ & Hrsi & _).
    split; [apply Hrsi; vm_compute; lia | apply Hstrength; vm_compute; lia].
  - exfalso. vm_compute in H. discriminate H.
Defined.

Lemma fallback_pipeline_runs_every_stage_witness :
  let context := Stubs.context_start in
  ((∀ n a, Stubs.router_fails n = Returns a → a ∉ Hierarchical.next_actions)
   ∧ (∀ c v, truthy (Hierarchical.sentiment_agent_output
                       (Hierarchical.sentiment_subgraph_node Stubs.sentiment_subgraph
                          c v).1) = true)
   ∧ truthy (Hierarchical.market_agent_output context) = false
   ∧ truthy (Hierarchical.sentiment_agent_output context) = false
   ∧ truthy (Hierarchical.risk_agent_output context) = false
   ∧ truthy (Hierarchical.final_decision context) = false)
  ∧ ∃ final wf tr,
      invoke (Hierarchical.create_hierarchical_graph Stubs.market_facts
                Stubs.market_approves Stubs.risk_rejects Stubs.answers_abort
                Stubs.fmt_2f Stubs.unbound_evaluation Stubs.sentiment_subgraph
                Stubs.supervisor_fails Stubs.router_fails Stubs.final_buys)
             (5 + 20) context Stubs.start
      = (Returns final, wf, tr)
      ∧ map fst tr = ["supervisor"; "market_subgraph"; "sentiment_subgraph";
                      "risk_subgraph"; "final_decision"]
      ∧ truthy (Hierarchical.final_decision final) = true.
Proof.
  intros context.
  assert (H1 : ∀ n a, Stubs.router_fails n = Returns a → a ∉ Hierarchical.next_actions)
    by (intros n a; discriminate).
  assert (H2 : ∀ c v, truthy (Hierarchical.sentiment_agent_output
                                (Hierarchical.sentiment_subgraph_node
                                   Stubs.sentiment_subgraph c v).1) = true)
    by (intros c v; reflexivity).
  assert (H3 : truthy (Hierarchical.market_agent_output context) = false) by reflexivity.
  assert (H4 : truthy (Hierarchical.sentiment_agent_output context) = false)
    by reflexivity.
  assert (H5 : truthy (Hierarchical.risk_agent_output context) = false) by reflexivity.
  assert (H6 : truthy (Hierarchical.final_decision context) = false) by reflexivity.
  split; [by split_and!|].
  destruct (fallback_pipeline_runs_every_stage Stubs.market_facts Stubs.market_approves
              Stubs.risk_rejects Stubs.answers_abort Stubs.fmt_2f
              Stubs.unbound_evaluation Stubs.sentiment_subgraph Stubs.supervisor_fails
              Stubs.router_fails Stubs.final_buys 20 context Stubs.start
              H1 H2 H3 H4 H5 H6)
    as (final & wf & tr & Hrun & Htr & _ & _ & _ & _ & Hf).
  exists final, wf, tr. split_and!; [exact Hrun | exact Htr | exact Hf].
Defined.

Lemma router_end_skips_final_decision_witness :
  let context := Stubs.context_start in
  let w := Stubs.start in
  (truthy (Hierarchical.final_decision context) = false
   ∧ Scenarios.router_ends (S (llm_calls w)) = Returns "END")
  ∧ ∃ final,
      invoke (Hierarchical.create_hierarchical_graph Stubs.market_facts
                Stubs.market_approves Stubs.risk_rejects Stubs.answers_abort
                Stubs.fmt_2f Stubs.unbound_evaluation Stubs.sentiment_subgraph
                Stubs.supervisor_fails Scenarios.router_ends Stubs.final_buys)
             default_recursion_limit context w
      = (Returns final, tick_llm 2 w, [("supervisor", context)])
      ∧ Hierarchical.final_decision final = Hierarchical.final_decision context.
Proof.
  intros context w.
  assert (H1 : truthy (Hierarchical.final_decision context) = false) by reflexivity.
  assert (H2 : Scenarios.router_ends (S (llm_calls w)) = Returns "END") by reflexivity.
  split; [by split|].
  destruct (router_end_skips_final_decision Stubs.market_facts Stubs.market_approves
              Stubs.risk_rejects Stubs.answers_abort Stubs.fmt_2f
              Stubs.unbound_evaluation Stubs.sentiment_subgraph Stubs.supervisor_fails
              Scenarios.router_ends Stubs.final_buys 24 context w H1 H2)
    as (final & Hrun & _ & Hf & _).
  exists final. split; [exact Hrun | exact Hf].
Defined.

Lemma silent_sentiment_exhausts_budget_witness :
  let context := Stubs.context_start in
  ((∀ n a, Stubs.router_fails n = Returns a → a ∉ Hierarchical.next_actions)
   ∧ (∀ sym v, ∃ v', Scenarios.sentiment_silent sym v
                     = (Returns {| Hierarchical.sentiment_worker_output := None;
                                   Hierarchical.sentiment_evaluation := None;
                                   Hierarchical.sentiment_error := None |}, v'))
   ∧ truthy (Hierarchical.market_agent_output context) = false
   ∧ truthy (Hierarchical.sentiment_agent_output context) = false
   ∧ truthy (Hierarchical.final_decision context) = false)
  ∧ ∃ wf c1 c2,
      invoke (Hierarchical.create_hierarchical_graph Stubs.market_facts
                Stubs.market_approves Stubs.risk_rejects Stubs.answers_abort
                Stubs.fmt_2f Stubs.unbound_evaluation Scenarios.sentiment_silent
                Stubs.supervisor_fails Stubs.router_fails Stubs.final_buys)
             (2 + 23) context Stubs.start
      = (Raises step_limit_exceeded, wf,
         ("supervisor", context) :: ("market_subgraph", c1)
         :: replicate 23 ("sentiment_subgraph", c2)).
Proof.
  intros context.
  assert (H1 : ∀ n a, Stubs.router_fails n = Returns a → a ∉ Hierarchical.next_actions)
    by (intros n a; discriminate).
  assert (H2 : ∀ sym v, ∃ v', Scenarios.sentiment_silent sym v
                     = (Returns {| Hierarchical.sentiment_worker_output := None;
                                   Hierarchical.sentiment_evaluation := None;
                                   Hierarchical.sentiment_error := None |}, v'))
    by (intros sym v; exists v; reflexivity).
  assert (H3 : truthy (Hierarchical.market_agent_output context) = false) by reflexivity.
  assert (H4 : truthy (Hierarchical.sentiment_agent_output context) = false)
    by reflexivity.
  assert (H5 : truthy (Hierarchical.final_decision context) = false) by reflexivity.
  split; [by split_and!|].
  apply (silent_sentiment_exhausts_budget Stubs.market_facts Stubs.market_approves
           Stubs.risk_rejects Stubs.answers_abort Stubs.fmt_2f
           Stubs.unbound_evaluation Scenarios.sentiment_silent Stubs.supervisor_fails
           Stubs.router_fails Stubs.final_buys 23 context Stubs.start H1 H2 H3 H4 H5).
Defined.

Lemma decide_reports_aggregator_witness :
  ((Engine.format_rules Scenarios.format_rule [] = Returns []
    ∧ (∀ n a, Stubs.router_fails n = Returns a → a ∉ Hierarchical.next_actions)
    ∧ (∀ c v, truthy (Hierarchical.sentiment_agent_output
                        (Hierarchical.sentiment_subgraph_node Stubs.sentiment_subgraph
                           c v).1) = true)
    ∧ (∀ n, Stubs.final_buys n = Returns Stubs.buy_decision)))
  ∧ (Engine.decide Stubs.market_facts Stubs.market_approves Stubs.risk_rejects
       Stubs.answers_abort Stubs.fmt_2f Stubs.unbound_evaluation
       Stubs.sentiment_subgraph Stubs.supervisor_fails Stubs.router_fails
       Stubs.final_buys Scenarios.format_rule Scenarios.timestamp
       Scenarios.processing_time_ms true "BTC/USD" Stubs.prices Stubs.volumes ""
       [] Stubs.start).1 !! "action"
    = Some (VStr "buy").
Proof.
  assert (H1 : Engine.format_rules Scenarios.format_rule [] = Returns []) by reflexivity.
  assert (H2 : ∀ n a, Stubs.router_fails n = Returns a → a ∉ Hierarchical.next_actions)
    by (intros n a; discriminate).
  assert (H3 : ∀ c v, truthy (Hierarchical.sentiment_agent_output
                                (Hierarchical.sentiment_subgraph_node
                                   Stubs.sentiment_subgraph c v).1) = true)
    by (intros c v; reflexivity).
  assert (H4 : ∀ n, Stubs.final_buys n = Returns Stubs.buy_decision)
    by (intros n; reflexivity).
  split; [by split_and!|].
  destruct (decide_reports_aggregator Stubs.market_facts Stubs.market_approves
              Stubs.risk_rejects Stubs.answers_abort Stubs.fmt_2f
              Stubs.unbound_evaluation Stubs.sentiment_subgraph Stubs.supervisor_fails
              Stubs.router_fails Stubs.final_buys Scenarios.format_rule
              Scenarios.timestamp Scenarios.processing_time_ms true
              "BTC/USD" Stubs.prices Stubs.volumes "" [] Stubs.start [] Stubs.buy_decision
              H1 H2 H3 H4) as (Ha & _).
  exact Ha.
Defined.

Lemma decide_without_decision_witness :
  (Engine.format_rules Scenarios.format_rule [VNone] = Returns ["RSI rule: BUY when rsi < 30"]
   ∧ Scenarios.router_ends (S (llm_calls Stubs.start)) = Returns "END")
  ∧ (Engine.decide Stubs.market_facts Stubs.market_approves Stubs.risk_rejects
       Stubs.answers_abort Stubs.fmt_2f Stubs.unbound_evaluation
       Stubs.sentiment_subgraph Stubs.supervisor_fails Scenarios.router_ends
       Stubs.final_buys Scenarios.format_rule Scenarios.timestamp
       Scenarios.processing_time_ms true "BTC/USD" Stubs.prices Stubs.volumes ""
       [VNone] Stubs.start).1 !! "reasoning"
    = Some (VStr "No decision produced by workflow").
Proof.
  assert (H1 : Engine.format_rules Scenarios.format_rule [VNone]
               = Returns ["RSI rule: BUY when rsi < 30"]) by reflexivity.
  assert (H2 : Scenarios.router_ends (S (llm_calls Stubs.start)) = Returns "END")
    by reflexivity.
  split; [by split|].
  destruct (decide_without_decision Stubs.market_facts Stubs.market_approves
              Stubs.risk_rejects Stubs.answers_abort Stubs.fmt_2f
              Stubs.unbound_evaluation Stubs.sentiment_subgraph Stubs.supervisor_fails
              Scenarios.router_ends Stubs.final_buys Scenarios.format_rule
              Scenarios.timestamp Scenarios.processing_time_ms true
              "BTC/USD" Stubs.prices Stubs.volumes "" [VNone] Stubs.start _ H1 H2)
    as (_ & _ & Hr & _).
  exact Hr.
Defined.

Lemma decide_on_silent_sentiment_witness :
  (Engine.format_rules Scenarios.format_rule [] = Returns []
   ∧ (∀ n a, Stubs.router_fails n = Returns a → a ∉ Hierarchical.next_actions)
   ∧ (∀ sym v, ∃ v', Scenarios.sentiment_silent sym v
                     = (Returns {| Hierarchical.sentiment_worker_output := None;
                                   Hierarchical.sentiment_evaluation := None;
                                   Hierarchical.sentiment_error := None |}, v')))
  ∧ (Engine.decide Stubs.market_facts Stubs.market_approves Stubs.risk_rejects
       Stubs.answers_abort Stubs.fmt_2f Stubs.unbound_evaluation
       Scenarios.sentiment_silent Stubs.supervisor_fails Stubs.router_fails
       Stubs.final_buys Scenarios.format_rule Scenarios.timestamp
       Scenarios.processing_time_ms true "BTC/USD" Stubs.prices Stubs.volumes ""
       [] Stubs.start).1
    = Engine.workflow_error Scenarios.timestamp step_limit_exceeded.
Proof.
  assert (H1 : Engine.format_rules Scenarios.format_rule [] = Returns []) by reflexivity.
  assert (H2 : ∀ n a, Stubs.router_fails n = Returns a → a ∉ Hierarchical.next_actions)
    by (intros n a; discriminate).
  assert (H3 : ∀ sym v, ∃ v', Scenarios.sentiment_silent sym v
                     = (Returns {| Hierarchical.sentiment_worker_output := None;
                                   Hierarchical.sentiment_evaluation := None;
                                   Hierarchical.sentiment_error := None |}, v'))
    by (intros sym v; exists v; reflexivity).
  split; [by split_and!|].
  apply (decide_on_silent_sentiment Stubs.market_facts Stubs.market_approves
           Stubs.risk_rejects Stubs.answers_abort Stubs.fmt_2f
           Stubs.unbound_evaluation Scenarios.sentiment_silent Stubs.supervisor_fails
           Stubs.router_fails Stubs.final_buys Scenarios.format_rule
           Scenarios.timestamp Scenarios.processing_time_ms true
           "BTC/USD" Stubs.prices Stubs.volumes "" [] Stubs.start [] H1 H2 H3).
Defined.
